(** * janus-react-wrapper: the WebView / SIP-plugin relay of [App.tsx]

    A shallow embedding of the React component [App] that relays commands
    of a host WebView to the Janus SIP plugin and plugin events back to the
    host.  The repository carries three copies of the component:

    - [App.tsx], lines 1-895: the current component          (module [App]);
    - [part_000]: an earlier copy without the track registry (module [Part0]);
    - [App.tsx], lines 897-1391: a legacy copy that posts through
      [webkit]/[android] bridges ([sendToWebView])           (module [Legacy]).

    Functions whose text is the same in [App.tsx] 1-895 and in [part_000]
    are embedded once, in module [Common]. *)

From Stdlib Require Import ZArith Lia Bool Ascii String.
From stdpp Require Import gmap strings list fin_maps.

Set Warnings "-register-all".

Local Open Scope string_scope.
Local Open Scope Z_scope.

(** ** JavaScript values and string primitives *)

Module JS.

(** [if (s)] on an optional string: truthy iff present and not empty. *)
Definition truthy (o : option string) : bool :=
  match o with
  | Some s => negb (String.eqb s "")
  | None => false
  end.

(** [a || b] on an optional string with a string default. *)
Definition or_else (o : option string) (d : string) : string :=
  match o with
  | Some s => if String.eqb s "" then d else s
  | None => d
  end.

(** [`${x}`]: interpolation of a possibly undefined string. *)
Definition template (o : option string) : string :=
  match o with
  | Some s => s
  | None => "undefined"
  end.

(** [s.includes(sub)] *)
Fixpoint includes (sub s : string) : bool :=
  match s with
  | EmptyString => String.prefix sub s
  | String _ s' => String.prefix sub s || includes sub s'
  end.

(** [s.indexOf(sub) > -1] *)
Definition indexOf_found (sub s : string) : bool := includes sub s.

(** [s.split(sep)] for a non-empty separator: scan left to right; at a
    position where [sep] starts, close the current piece and skip the
    separator ([skip] counts the separator characters still to pass). *)
Fixpoint split_from (sep : string) (skip : nat) (cur s : string) : list string :=
  match s with
  | EmptyString => [cur]
  | String c s' =>
      match skip with
      | S k => split_from sep k cur s'
      | O =>
          if String.prefix sep s
          then cur :: split_from sep (String.length sep - 1) "" s'
          else split_from sep 0 (cur +:+ String c "") s'
      end
  end.

(** [s.split("")] yields the characters of [s]. *)
Fixpoint chars (s : string) : list string :=
  match s with
  | EmptyString => []
  | String c s' => String c "" :: chars s'
  end.

Definition split (sep s : string) : list string :=
  match sep with
  | EmptyString => chars s
  | _ => split_from sep 0 "" s
  end.

(** [s.replace(/[{}]/g, "")] *)
Fixpoint strip_braces (s : string) : string :=
  match s with
  | EmptyString => EmptyString
  | String c s' =>
      if (Ascii.eqb c "{" || Ascii.eqb c "}")%char
      then strip_braces s'
      else String c (strip_braces s')
  end.

(** A JavaScript value as it appears in the object literals of the
    component; [JStringified v] is the text [JSON.stringify(v)]. *)
Inductive value :=
| JUndefined
| JBool (b : bool)
| JNum (n : Z)
| JStr (s : string)
| JArr (items : list value)
| JObj (fields : list (string * value))
| JStringified (v : value).

Definition obj := list (string * value).

Definition of_opt (o : option string) : value :=
  match o with
  | Some s => JStr s
  | None => JUndefined
  end.

Definition of_optnum (o : option Z) : value :=
  match o with
  | Some n => JNum n
  | None => JUndefined
  end.

(** [o.k] on an object literal: the last binding of [k] wins. *)
Fixpoint get (k : string) (o : obj) : option value :=
  match o with
  | [] => None
  | (k', v) :: o' =>
      match get k o' with
      | Some v' => Some v'
      | None => if String.eqb k k' then Some v else None
      end
  end.

End JS.

(** ** Data model, shared by the three copies *)

Module Common.

(** [MediaStreamTrack] and [new MediaStream([track])], as far as the
    component looks into them. *)
Record MediaStreamTrack := { id : string; kind : string }.
Record MediaStream := { getTracks : list MediaStreamTrack }.

(** [interface TrackState { [key: string]: MediaStream }] *)
Abbreviation TrackState := (gmap string MediaStream).

(** [interface RegistrationPayload]: every field is optional. *)
Record RegistrationPayload := {
  username : option string;
  displayName : option string;
  authuser : option string;
  secret : option string;
  proxy : option string;
  userAgent : option string;
  register : option bool
}.

(** [{}] *)
Definition noCredentials : RegistrationPayload :=
  {| username := None; displayName := None; authuser := None; secret := None;
     proxy := None; userAgent := None; register := None |}.

(** One key of [{ ...a, ...b }]: the binding of [b] wins when present. *)
Definition over {A} (b a : option A) : option A :=
  match b with
  | Some _ => b
  | None => a
  end.

(** [{ ...a, ...b, register: true }] *)
Definition spread_register (a b : RegistrationPayload) : RegistrationPayload :=
  {| username := over (username b) (username a);
     displayName := over (displayName b) (displayName a);
     authuser := over (authuser b) (authuser a);
     secret := over (secret b) (secret a);
     proxy := over (proxy b) (proxy a);
     userAgent := over (userAgent b) (userAgent a);
     register := Some true |}.

(** [type WebViewMessage = { type: string; payload: WebViewPayload }], the
    outbound message; the payload is the object literal as written. *)
Record WebViewMessage := { type : string; payload : JS.obj }.

(** A message of the host, after [JSON.parse]: [payload] may be missing;
    [credentials] is the payload read [as RegistrationPayload] and
    [registration] its field of that name (legacy copy only). *)
Record HostPayload := {
  phoneNumber : option string;
  credentials : RegistrationPayload;
  registration : option RegistrationPayload
}.
Record HostMessage := { htype : string; hpayload : option HostPayload }.

(** [interface SipPluginResult] and the [JanusJS.Message] around it. *)
Record SipPluginResult := {
  event : option string;
  r_username : option string;
  reason : option string;
  code : option Z
}.
Record JanusMessage := {
  result : option SipPluginResult;
  error : option string;
  call_id : option string
}.
Record JSEP := { jtype : string; sdp : option string }.

(** [result?.event] *)
Definition result_event (msg : JanusMessage) : option string :=
  match result msg with
  | Some r => event r
  | None => None
  end.

Definition result_value (r : SipPluginResult) : JS.value :=
  JS.JObj [("event", JS.of_opt (event r)); ("username", JS.of_opt (r_username r));
           ("reason", JS.of_opt (reason r)); ("code", JS.of_optnum (code r))].

(** The message object itself, where a payload carries [data: msg]. *)
Definition msg_value (msg : JanusMessage) : JS.value :=
  JS.JObj [("result", match result msg with
                      | Some r => result_value r
                      | None => JS.JUndefined
                      end);
           ("error", JS.of_opt (error msg));
           ("call_id", JS.of_opt (call_id msg))].

Definition track_value (t : MediaStreamTrack) : JS.value :=
  JS.JObj [("id", JS.JStr (id t)); ("kind", JS.JStr (kind t))].

(** The plugin handle: a reference, and the fields the component writes
    on the shared handle object ([interface SipPlugin]). *)
Definition Handle := nat.
Record HandleFields := {
  callId : option string;
  doAudio : option bool;
  doVideo : option bool
}.

(** The React state of [App] ([useState] cells); [credentialsGen] counts
    the objects stored in [sipCredentials], to tell them apart by identity. *)
#[projections(primitive)]
Record AppState := {
  sipPlugin : option Handle;
  isWebViewReady : bool;
  callState : string;
  currentCall : option string;
  isRegistered : bool;
  localTracks : TrackState;
  remoteTracks : TrackState;
  localVideos : Z;
  remoteVideos : Z;
  sipCredentials : RegistrationPayload;
  credentialsGen : nat
}.

(** What the [success]/[error] callbacks of [createOffer] close over. *)
Record OfferClosure := {
  oc_plugin : Handle;
  oc_phoneNumber : string;
  oc_proxyDomain : option string;
  oc_userAgent : option string
}.

(** Calls on the plugin handle (and on a stream, to stop its tracks), in
    the order made. *)
Inductive PluginCall :=
| Send (h : Handle) (message : JS.obj) (jsep : option JSEP)
| CreateOffer (h : Handle) (options : JS.obj) (cb : OfferClosure)
| HandleRemoteJsep (h : Handle) (jsep : JSEP) (callbacks : bool)
| StopTracks (s : MediaStream)
| Detach (h : Handle).

(** Calls on the Janus library and on the session. *)
Inductive EngineCall :=
| JanusInit
| NewJanus (server : string) (iceServers : list string)
| Attach (plugin : string)
| Destroy.

(** Callbacks handed to [setTimeout]. *)
Inductive TimerCallback :=
| Resend (message : WebViewMessage) (retryCount : Z)
| Reinitialize.
Record Timer := { callback : TimerCallback; delay : Z }.

(** The host bridges a [window] may carry, and what a call on one does. *)
Inductive Bridge := Accepts | Throws.
Record Window := {
  ReactNativeWebView : option Bridge;
  webkit_janusHandler : option Bridge;
  android_onJanusMessage : option Bridge
}.

(** Everything the component reads or writes: its React state, the
    variables of the mount effect ([janus], [reconnectAttempts]), the
    shared handle object, the host [window], and the calls it has made
    ([timers] are the pending timers, [timeouts] every [setTimeout] call). *)
#[projections(primitive)]
Record World := {
  state : AppState;
  janus : bool;
  reconnectAttempts : Z;
  handle : HandleFields;
  window : Window;
  sent : list (WebViewMessage * Z);
  posted : list WebViewMessage;
  pluginCalls : list PluginCall;
  engineCalls : list EngineCall;
  timers : list Timer;
  timeouts : list Timer
}.

(** *** State passing

    A handler is a function from the world to the world; it reads the
    React state through the snapshot [env] its closure was created with
    and writes through the setters. *)

Definition Act := World -> World.

Definition skip : Act := fun w => w.
Definition seq (a b : Act) : Act := fun w => b (a w).

Declare Scope act_scope.
Delimit Scope act_scope with act.
Bind Scope act_scope with Act.
Notation "a ;; b" := (seq a b)
  (at level 100, b at level 200, right associativity) : act_scope.
Local Open Scope act_scope.

(** [if (c) { a }] *)
Definition when (c : bool) (a : Act) : Act := if c then a else skip.

Definition on_state (f : AppState -> AppState) : Act := fun w =>
  {| state := f (state w); janus := janus w;
     reconnectAttempts := reconnectAttempts w; handle := handle w;
     window := window w; sent := sent w; posted := posted w;
     pluginCalls := pluginCalls w; engineCalls := engineCalls w;
     timers := timers w; timeouts := timeouts w |}.

Definition setSipPlugin (v : option Handle) : Act := on_state (fun s =>
  {| sipPlugin := v; isWebViewReady := isWebViewReady s;
     callState := callState s; currentCall := currentCall s;
     isRegistered := isRegistered s; localTracks := localTracks s;
     remoteTracks := remoteTracks s; localVideos := localVideos s;
     remoteVideos := remoteVideos s; sipCredentials := sipCredentials s;
     credentialsGen := credentialsGen s |}).

Definition setIsWebViewReady (v : bool) : Act := on_state (fun s =>
  {| sipPlugin := sipPlugin s; isWebViewReady := v;
     callState := callState s; currentCall := currentCall s;
     isRegistered := isRegistered s; localTracks := localTracks s;
     remoteTracks := remoteTracks s; localVideos := localVideos s;
     remoteVideos := remoteVideos s; sipCredentials := sipCredentials s;
     credentialsGen := credentialsGen s |}).

Definition setCallState (v : string) : Act := on_state (fun s =>
  {| sipPlugin := sipPlugin s; isWebViewReady := isWebViewReady s;
     callState := v; currentCall := currentCall s;
     isRegistered := isRegistered s; localTracks := localTracks s;
     remoteTracks := remoteTracks s; localVideos := localVideos s;
     remoteVideos := remoteVideos s; sipCredentials := sipCredentials s;
     credentialsGen := credentialsGen s |}).

Definition setCurrentCall (v : option string) : Act := on_state (fun s =>
  {| sipPlugin := sipPlugin s; isWebViewReady := isWebViewReady s;
     callState := callState s; currentCall := v;
     isRegistered := isRegistered s; localTracks := localTracks s;
     remoteTracks := remoteTracks s; localVideos := localVideos s;
     remoteVideos := remoteVideos s; sipCredentials := sipCredentials s;
     credentialsGen := credentialsGen s |}).

Definition setIsRegistered (v : bool) : Act := on_state (fun s =>
  {| sipPlugin := sipPlugin s; isWebViewReady := isWebViewReady s;
     callState := callState s; currentCall := currentCall s;
     isRegistered := v; localTracks := localTracks s;
     remoteTracks := remoteTracks s; localVideos := localVideos s;
     remoteVideos := remoteVideos s; sipCredentials := sipCredentials s;
     credentialsGen := credentialsGen s |}).

(** [setLocalTracks((prev) => f(prev))] *)
Definition setLocalTracks (f : TrackState -> TrackState) : Act := on_state (fun s =>
  {| sipPlugin := sipPlugin s; isWebViewReady := isWebViewReady s;
     callState := callState s; currentCall := currentCall s;
     isRegistered := isRegistered s; localTracks := f (localTracks s);
     remoteTracks := remoteTracks s; localVideos := localVideos s;
     remoteVideos := remoteVideos s; sipCredentials := sipCredentials s;
     credentialsGen := credentialsGen s |}).

Definition setRemoteTracks (f : TrackState -> TrackState) : Act := on_state (fun s =>
  {| sipPlugin := sipPlugin s; isWebViewReady := isWebViewReady s;
     callState := callState s; currentCall := currentCall s;
     isRegistered := isRegistered s; localTracks := localTracks s;
     remoteTracks := f (remoteTracks s); localVideos := localVideos s;
     remoteVideos := remoteVideos s; sipCredentials := sipCredentials s;
     credentialsGen := credentialsGen s |}).

Definition setLocalVideos (f : Z -> Z) : Act := on_state (fun s =>
  {| sipPlugin := sipPlugin s; isWebViewReady := isWebViewReady s;
     callState := callState s; currentCall := currentCall s;
     isRegistered := isRegistered s; localTracks := localTracks s;
     remoteTracks := remoteTracks s; localVideos := f (localVideos s);
     remoteVideos := remoteVideos s; sipCredentials := sipCredentials s;
     credentialsGen := credentialsGen s |}).

Definition setRemoteVideos (f : Z -> Z) : Act := on_state (fun s =>
  {| sipPlugin := sipPlugin s; isWebViewReady := isWebViewReady s;
     callState := callState s; currentCall := currentCall s;
     isRegistered := isRegistered s; localTracks := localTracks s;
     remoteTracks := remoteTracks s; localVideos := localVideos s;
     remoteVideos := f (remoteVideos s); sipCredentials := sipCredentials s;
     credentialsGen := credentialsGen s |}).

(** [setSipCredentials(v)] stores a fresh object: [credentialsGen] stands
    for its identity, which the dependency lists of the hooks compare. *)
Definition setSipCredentials (v : RegistrationPayload) : Act := on_state (fun s =>
  {| sipPlugin := sipPlugin s; isWebViewReady := isWebViewReady s;
     callState := callState s; currentCall := currentCall s;
     isRegistered := isRegistered s; localTracks := localTracks s;
     remoteTracks := remoteTracks s; localVideos := localVideos s;
     remoteVideos := remoteVideos s; sipCredentials := v;
     credentialsGen := S (credentialsGen s) |}).

Definition set_janus (v : bool) : Act := fun w =>
  {| state := state w; janus := v;
     reconnectAttempts := reconnectAttempts w; handle := handle w;
     window := window w; sent := sent w; posted := posted w;
     pluginCalls := pluginCalls w; engineCalls := engineCalls w;
     timers := timers w; timeouts := timeouts w |}.

Definition set_reconnectAttempts (v : Z) : Act := fun w =>
  {| state := state w; janus := janus w;
     reconnectAttempts := v; handle := handle w;
     window := window w; sent := sent w; posted := posted w;
     pluginCalls := pluginCalls w; engineCalls := engineCalls w;
     timers := timers w; timeouts := timeouts w |}.

Definition set_handle (f : HandleFields -> HandleFields) : Act := fun w =>
  {| state := state w; janus := janus w;
     reconnectAttempts := reconnectAttempts w; handle := f (handle w);
     window := window w; sent := sent w; posted := posted w;
     pluginCalls := pluginCalls w; engineCalls := engineCalls w;
     timers := timers w; timeouts := timeouts w |}.

Definition set_window (v : Window) : Act := fun w =>
  {| state := state w; janus := janus w;
     reconnectAttempts := reconnectAttempts w; handle := handle w;
     window := v; sent := sent w; posted := posted w;
     pluginCalls := pluginCalls w; engineCalls := engineCalls w;
     timers := timers w; timeouts := timeouts w |}.

Definition log_sent (m : WebViewMessage) (retryCount : Z) : Act := fun w =>
  {| state := state w; janus := janus w;
     reconnectAttempts := reconnectAttempts w; handle := handle w;
     window := window w; sent := sent w ++ [(m, retryCount)];
     posted := posted w;
     pluginCalls := pluginCalls w; engineCalls := engineCalls w;
     timers := timers w; timeouts := timeouts w |}.

Definition log_posted (m : WebViewMessage) : Act := fun w =>
  {| state := state w; janus := janus w;
     reconnectAttempts := reconnectAttempts w; handle := handle w;
     window := window w; sent := sent w; posted := posted w ++ [m];
     pluginCalls := pluginCalls w; engineCalls := engineCalls w;
     timers := timers w; timeouts := timeouts w |}.

Definition plugin (c : PluginCall) : Act := fun w =>
  {| state := state w; janus := janus w;
     reconnectAttempts := reconnectAttempts w; handle := handle w;
     window := window w; sent := sent w; posted := posted w;
     pluginCalls := pluginCalls w ++ [c]; engineCalls := engineCalls w;
     timers := timers w; timeouts := timeouts w |}.

Definition engine (c : EngineCall) : Act := fun w =>
  {| state := state w; janus := janus w;
     reconnectAttempts := reconnectAttempts w; handle := handle w;
     window := window w; sent := sent w; posted := posted w;
     pluginCalls := pluginCalls w; engineCalls := engineCalls w ++ [c];
     timers := timers w; timeouts := timeouts w |}.

Definition set_timers (ts : list Timer) : Act := fun w =>
  {| state := state w; janus := janus w;
     reconnectAttempts := reconnectAttempts w; handle := handle w;
     window := window w; sent := sent w; posted := posted w;
     pluginCalls := pluginCalls w; engineCalls := engineCalls w;
     timers := ts; timeouts := timeouts w |}.

Definition log_timeout (t : Timer) : Act := fun w =>
  {| state := state w; janus := janus w;
     reconnectAttempts := reconnectAttempts w; handle := handle w;
     window := window w; sent := sent w; posted := posted w;
     pluginCalls := pluginCalls w; engineCalls := engineCalls w;
     timers := timers w; timeouts := timeouts w ++ [t] |}.

(** [setTimeout(cb, ms)] *)
Definition setTimeout (cb : TimerCallback) (ms : Z) : Act :=
  let t := {| callback := cb; delay := ms |} in
  log_timeout t ;;
  fun w => set_timers (timers w ++ [t]) w.

(** *** Handlers with the same text in [App.tsx] 1-895 and [part_000] *)

(** [sendToWebViewParent], App.tsx:165-181, part_000:81-97.  Every
    invocation is logged in [sent] with its [retryCount]; with no
    [ReactNativeWebView] the optional call does nothing; a throwing bridge
    schedules the retry. *)
Definition sendToWebViewParent (message : WebViewMessage) (retryCount : Z) : Act :=
  log_sent message retryCount ;;
  fun w =>
    match ReactNativeWebView (window w) with
    | None => w
    | Some Accepts => log_posted message w
    | Some Throws =>
        if 0 <? retryCount
        then setTimeout (Resend message (retryCount - 1)) 1000 w
        else w
    end.

(** A call that leaves [retryCount] to its default, [3]. *)
Definition send (message : WebViewMessage) : Act := sendToWebViewParent message 3.

(** [handleRegistration], App.tsx:184-230, part_000:100-146. *)
Definition handleRegistration (env : AppState)
    (params : option RegistrationPayload) : Act :=
  match sipPlugin env with
  | None =>
      let error := "SIP plugin not found" in
      send {| type := "REGISTRATION_ERROR"; payload := [("error", JS.JStr error)] |}
  | Some h =>
      if isRegistered env then
        send {| type := "REGISTRATION_ERROR";
                payload := [("error", JS.JStr "Already registered with SIP server")] |}
      else
        setCallState "registering" ;;
        let registrationParams :=
          spread_register (sipCredentials env)
            (match params with Some p => p | None => noCredentials end) in
        setSipCredentials registrationParams ;;
        plugin (Send h
          [("request", JS.JStr "register");
           ("username", JS.of_opt (username registrationParams));
           ("display_name", JS.of_opt (displayName registrationParams));
           ("authuser", JS.of_opt (authuser registrationParams));
           ("secret", JS.of_opt (secret registrationParams));
           ("proxy", JS.of_opt (proxy registrationParams));
           ("user_agent", JS.of_opt (userAgent registrationParams));
           ("register", JS.JBool true)]
          None)
  end.

(** [handleUnregister], App.tsx:233-241, part_000:149-157. *)
Definition handleUnregister (env : AppState) : Act :=
  match sipPlugin env with
  | None => skip
  | Some h =>
      if negb (isRegistered env) then skip
      else plugin (Send h [("request", JS.JStr "unregister")] None)
  end.

(** [sipCredentials.proxy?.split("sip:")[1]] *)
Definition proxyDomain_of (c : RegistrationPayload) : option string :=
  match proxy c with
  | Some p => JS.split "sip:" p !! 1%nat
  | None => None
  end.

Definition MAX_RECONNECT_ATTEMPTS : Z := 3.

(** [initializeJanus], App.tsx:515-568, part_000:344-397: the part that
    runs at once. *)
Definition initializeJanus : Act :=
  setCallState "initializing" ;;
  engine JanusInit.

(** The [callback] of [Janus.init]: [janus = new Janus({...})]. *)
Definition init_callback : Act :=
  engine (NewJanus "wss://janus.conf.meetecho.com/ws"
            ["stun:stun.l.google.com:19302"; "stun:stun1.l.google.com:19302"]) ;;
  set_janus true.

(** [attachSipPlugin], App.tsx:570-574, part_000:399-403. *)
Definition attachSipPlugin : Act := fun w =>
  if negb (janus w) then w
  else engine (Attach "janus.plugin.sip") w.

(** The [success] callback of [new Janus]. *)
Definition session_success : Act :=
  send {| type := "JANUS_READY"; payload := [] |} ;;
  set_reconnectAttempts 0 ;;
  attachSipPlugin.

(** The [error] callback of [new Janus], App.tsx:535-557. *)
Definition session_error (error : string) : Act :=
  setCallState "error" ;;
  send {| type := "JANUS_ERROR";
          payload := [("error", JS.JStr error);
                      ("errorDetails",
                       JS.JObj [("code", JS.JNum 500);
                                ("message", JS.JStr "Failed to create Janus session")])] |} ;;
  fun w =>
    if reconnectAttempts w <? MAX_RECONNECT_ATTEMPTS
    then (set_reconnectAttempts (reconnectAttempts w + 1) ;;
          setTimeout Reinitialize 5000) w
    else w.

(** The [destroyed] callback of [new Janus]. *)
Definition session_destroyed : Act :=
  send {| type := "JANUS_DESTROYED"; payload := [] |} ;;
  setIsRegistered false ;;
  setCallState "destroyed" ;;
  setSipPlugin None.

(** The [success] and [error] callbacks of [janus.attach]. *)
Definition attach_success (pluginHandle : Handle) : Act :=
  setSipPlugin (Some pluginHandle) ;;
  send {| type := "SIP_READY"; payload := [] |} ;;
  setCallState "ready".

Definition attach_error (error : string) : Act :=
  send {| type := "SIP_ERROR";
          payload := [("error", JS.JStr error);
                      ("errorDetails",
                       JS.JObj [("code", JS.JNum 501);
                                ("message", JS.JStr "Failed to attach SIP plugin")])] |}.

Definition webrtcState (isConnected : bool) : Act :=
  send {| type := "WEBRTC_STATE"; payload := [("isConnected", JS.JBool isConnected)] |}.

Definition mediaState (medium : string) (receiving : bool) (mid : option Z) : Act :=
  send {| type := "MEDIA_STATE";
          payload := [("state", JS.JStringified
                         (JS.JObj [("medium", JS.JStr medium);
                                   ("receiving", JS.JBool receiving);
                                   ("mid", JS.of_optnum mid)]))] |}.

Definition slowLink (uplink : bool) (lost : Z) (mid : string) : Act :=
  send {| type := "SLOW_LINK";
          payload := [("state", JS.JStringified
                         (JS.JObj [("uplink", JS.JBool uplink);
                                   ("lost", JS.JNum lost);
                                   ("mid", JS.JStr mid)]))] |}.

Definition iceState (st : string) : Act :=
  send {| type := "ICE_STATE"; payload := [("state", JS.JStr st)] |}.

(** The cleanup of the mount effect, App.tsx:739-761, part_000:490-512. *)
Definition unmount (env : AppState) : Act :=
  send {| type := "APP_UNMOUNTED"; payload := [] |} ;;
  match sipPlugin env with
  | Some h => plugin (Detach h)
  | None => skip
  end ;;
  fun w => if janus w then engine Destroy w else w.

Definition detach_success : Act :=
  send {| type := "SIP_DETACHED"; payload := [] |}.

Definition detach_error (error : string) : Act :=
  send {| type := "DETACH_ERROR"; payload := [("error", JS.JStr error)] |}.

(** The message-listener effect, App.tsx:322-371, part_000:224-273, runs
    again when one of its dependencies changed identity, and then sends
    [REACT_APP_READY] once more. *)
Definition listener_deps_changed (before after : AppState) : bool :=
  negb (bool_decide (sipPlugin before = sipPlugin after)
        && Bool.eqb (isRegistered before) (isRegistered after)
        && bool_decide (currentCall before = currentCall after)
        && Nat.eqb (credentialsGen before) (credentialsGen after)).

Definition listener_effect (before : AppState) : Act := fun w =>
  if listener_deps_changed before (state w)
  then send {| type := "REACT_APP_READY"; payload := [] |} w
  else w.

(** The timer [n] fires: it leaves the queue and its callback runs. *)
Definition fire (n : nat) : Act := fun w =>
  match timers w !! n with
  | Some t =>
      let w' := set_timers (take n (timers w) ++ drop (S n) (timers w)) w in
      match callback t with
      | Resend message retryCount => sendToWebViewParent message retryCount w'
      | Reinitialize => initializeJanus w'
      end
  | None => w
  end.

(** The first render. *)
Definition initialState : AppState :=
  {| sipPlugin := None; isWebViewReady := false; callState := "not_started";
     currentCall := None; isRegistered := false;
     localTracks := ∅; remoteTracks := ∅; localVideos := 0; remoteVideos := 0;
     sipCredentials := noCredentials; credentialsGen := 0 |}.

Definition initialWorld (win : Window) : World :=
  {| state := initialState; janus := false; reconnectAttempts := 0;
     handle := {| callId := None; doAudio := None; doVideo := None |};
     window := win; sent := []; posted := []; pluginCalls := [];
     engineCalls := []; timers := []; timeouts := [] |}.

(** Both effects of the first render: the listener effect and the mount
    effect ([initializeJanus(); sendToWebViewParent(APP_MOUNTED)]). *)
Definition mount : Act :=
  send {| type := "REACT_APP_READY"; payload := [] |} ;;
  initializeJanus ;;
  send {| type := "APP_MOUNTED"; payload := [] |}.

End Common.

(** ** The current component, [App.tsx] lines 1-895 *)

Module App.
Import Common.
Local Open Scope act_scope.

(** [makeCall], App.tsx:243-319: the part that runs at once. *)
Definition makeCall (env : AppState) (phoneNumber : option string) : Act :=
  match sipPlugin env with
  | None =>
      let error := "SIP plugin not found" in
      send {| type := "CALL_ERROR";
              payload := [("error", JS.JStr error); ("callState", JS.JStr "error")] |} ;;
      setCallState "error"
  | Some h =>
      if negb (JS.truthy phoneNumber) then
        let error := "Phone number is required" in
        send {| type := "CALL_ERROR";
                payload := [("error", JS.JStr error); ("callState", JS.JStr "error")] |} ;;
        setCallState "error"
      else
        let proxyDomain := proxyDomain_of (sipCredentials env) in
        setCurrentCall phoneNumber ;;
        setCallState "calling" ;;
        set_handle (fun f => {| callId := callId f; doAudio := Some true;
                                doVideo := doVideo f |}) ;;
        set_handle (fun f => {| callId := callId f; doAudio := doAudio f;
                                doVideo := Some false |}) ;;
        plugin (CreateOffer h
          [("tracks", JS.JArr [JS.JObj [("type", JS.JStr "audio");
                                        ("capture", JS.JBool true);
                                        ("recv", JS.JBool true)]]);
           ("trickle", JS.JBool true)]
          {| oc_plugin := h; oc_phoneNumber := JS.template phoneNumber;
             oc_proxyDomain := proxyDomain;
             oc_userAgent := userAgent (sipCredentials env) |})
  end.

(** The [success] callback of [createOffer], App.tsx:284-304. *)
Definition offer_success (c : OfferClosure) (jsep : JSEP) : Act :=
  plugin (Send (oc_plugin c)
    [("request", JS.JStr "call");
     ("uri", JS.JStr ("sip:" +:+ oc_phoneNumber c +:+ "@"
                      +:+ JS.template (oc_proxyDomain c)));
     ("headers",
      JS.JObj [("User-Agent", JS.JStr (JS.or_else (oc_userAgent c) "Janus WebRTC Client"));
               ("X-Call-Type", JS.JStr "audio")])]
    (Some jsep)) ;;
  send {| type := "CALL_INITIATED";
          payload := [("phoneNumber", JS.JStr (oc_phoneNumber c));
                      ("callState", JS.JStr "calling")] |}.

(** The [error] callback of [createOffer], App.tsx:305-315. *)
Definition offer_error (error_message : string) : Act :=
  send {| type := "CALL_ERROR";
          payload := [("error", JS.JStr error_message);
                      ("callState", JS.JStr "error")] |} ;;
  setCallState "error".

(** [handleWebViewMessage], App.tsx:323-355. *)
Definition handleWebViewMessage (env : AppState) (message : HostMessage) : Act :=
  let t := htype message in
  if String.eqb t "WEBVIEW_READY" then skip
  else if String.eqb t "REGISTER_SIP" then
    handleRegistration env (option_map credentials (hpayload message))
  else if String.eqb t "UNREGISTER_SIP" then
    handleUnregister env
  else if String.eqb t "MAKE_CALL" then
    if negb (isRegistered env) then
      send {| type := "CALL_ERROR";
              payload := [("error", JS.JStr "Not registered with SIP server")] |}
    else
      makeCall env (match hpayload message with
                    | Some p => phoneNumber p
                    | None => None
                    end)
  else if String.eqb t "END_CALL" then
    match sipPlugin env with
    | Some h =>
        if JS.truthy (currentCall env)
        then plugin (Send h [("request", JS.JStr "hangup")] None)
        else skip
    | None => skip
    end
  else skip.

(** [sipPlugin?.handleRemoteJsep({ jsep })] and the like. *)
Definition handleRemoteJsep (env : AppState) (jsep : JSEP) (callbacks : bool) : Act :=
  match sipPlugin env with
  | Some h => plugin (HandleRemoteJsep h jsep callbacks)
  | None => skip
  end.

(** The [switch (result.event)] of [handleSipMessage], App.tsx:394-478. *)
Definition on_event (env : AppState) (msg : JanusMessage) (r : SipPluginResult)
    (e : string) (jsep : option JSEP) : Act :=
  if String.eqb e "registered" then
    setIsRegistered true ;;
    send {| type := "REGISTRATION_SUCCESS"; payload := [("status", JS.JStr "registered")] |}
  else if String.eqb e "unregistered" then
    setIsRegistered false ;;
    send {| type := "UNREGISTERED"; payload := [("status", JS.JStr "unregistered")] |}
  else if String.eqb e "calling" then
    send {| type := "CALLING"; payload := [("status", JS.JStr "calling")] |}
  else if String.eqb e "incomingcall" then
    let callId' := call_id msg in
    match sipPlugin env with
    | Some _ => set_handle (fun f => {| callId := callId'; doAudio := doAudio f;
                                        doVideo := doVideo f |})
    | None => skip
    end ;;
    let sdp' := match jsep with Some j => sdp j | None => None end in
    let doAudio' :=
      if JS.truthy sdp' then JS.indexOf_found "m=audio " (JS.template sdp') else true in
    let doVideo' :=
      if JS.truthy sdp' then JS.indexOf_found "m=video " (JS.template sdp') else false in
    send {| type := "INCOMING_CALL";
            payload := [("from", JS.of_opt (r_username r));
                        ("hasAudio", JS.JBool doAudio');
                        ("hasVideo", JS.JBool doVideo');
                        ("callId", JS.of_opt callId')] |}
  else if String.eqb e "accepting" then
    send {| type := "ACCEPTING"; payload := [("status", JS.JStr "accepting")] |}
  else if String.eqb e "progress" then
    send {| type := "CALL_PROGRESS"; payload := [("status", JS.JStr "progress")] |} ;;
    match jsep with
    | Some j => handleRemoteJsep env j false
    | None => skip
    end
  else if String.eqb e "accepted" then
    send {| type := "CALL_ACCEPTED"; payload := [("status", JS.JStr "accepted")] |} ;;
    match jsep with
    | Some j => handleRemoteJsep env j false
    | None => skip
    end
  else if String.eqb e "hangup" then
    setCurrentCall None ;;
    setCallState "ended" ;;
    send {| type := "CALL_ENDED";
            payload := [("reason", JS.of_opt (reason r));
                        ("code", JS.of_optnum (code r))] |}
  else skip.

(** [handleSipMessage], App.tsx:374-508. *)
Definition handleSipMessage (env : AppState) (msg : JanusMessage)
    (jsep : option JSEP) : Act :=
  when (JS.truthy (result_event msg))
    (setCallState (JS.template (result_event msg))) ;;
  if JS.truthy (error msg) then
    setCallState "error" ;;
    send {| type := "SIP_ERROR";
            payload := [("error", JS.of_opt (error msg));
                        ("callState", JS.JStr "error")] |}
  else
    match result msg with
    | Some r =>
        if JS.truthy (event r)
        then on_event env msg r (JS.template (event r)) jsep
        else skip
    | None => skip
    end ;;
    match jsep with
    | Some j => handleRemoteJsep env j true
    | None => skip
    end.

(** The callbacks of [handleRemoteJsep], App.tsx:486-503. *)
Definition jsep_success : Act :=
  send {| type := "JSEP_SUCCESS"; payload := [("callState", JS.JStr "connected")] |}.

Definition jsep_error (error : string) : Act :=
  send {| type := "JSEP_ERROR"; payload := [("error", JS.JStr error)] |}.

Definition consentDialog (on : bool) : Act :=
  send {| type := "CONSENT_DIALOG";
          payload := [("state", JS.JStr (if on then "on" else "off"))] |}.

(** [onlocaltrack], App.tsx:601-649.  The registry is keyed by the track
    id without braces; [localTracks[trackId]] is read from the closure. *)
Definition onlocaltrack (env : AppState) (track : MediaStreamTrack) (on : bool) : Act :=
  let trackId := JS.strip_braces (id track) in
  if negb on then
    match localTracks env !! trackId with
    | Some stream => plugin (StopTracks stream)
    | None => skip
    end ;;
    when (String.eqb (kind track) "video") (setLocalVideos (fun prev => prev - 1)) ;;
    setLocalTracks (fun prev => delete trackId prev)
  else
    let stream := {| getTracks := [track] |} in
    setLocalTracks (fun prev => <[trackId := stream]> prev) ;;
    when (String.eqb (kind track) "video") (setLocalVideos (fun prev => prev + 1)) ;;
    send {| type := "LOCAL_TRACK_READY";
            payload := [("kind", JS.JStr (kind track));
                        ("trackId", JS.JStr trackId);
                        ("state", JS.JStr (if on then "added" else "removed"))] |}.

(** [onremotetrack], App.tsx:650-693: the registry is keyed by [mid]. *)
Definition onremotetrack (track : MediaStreamTrack) (mid : string) (on : bool) : Act :=
  if negb on then
    when (String.eqb (kind track) "video") (setRemoteVideos (fun prev => prev - 1)) ;;
    setRemoteTracks (fun prev => delete mid prev)
  else
    let stream := {| getTracks := [track] |} in
    setRemoteTracks (fun prev => <[mid := stream]> prev) ;;
    when (String.eqb (kind track) "video") (setRemoteVideos (fun prev => prev + 1)) ;;
    send {| type := "REMOTE_TRACK_READY";
            payload := [("kind", JS.JStr (kind track));
                        ("mid", JS.JStr mid);
                        ("state", JS.JStr (if on then "added" else "removed"))] |}.

(** [oncleanup], App.tsx:694-703. *)
Definition oncleanup : Act :=
  setLocalTracks (fun _ => ∅) ;;
  setRemoteTracks (fun _ => ∅) ;;
  setLocalVideos (fun _ => 0) ;;
  setRemoteVideos (fun _ => 0) ;;
  send {| type := "SIP_CLEANUP"; payload := [] |} ;;
  setCallState "cleaned" ;;
  setCurrentCall None.

(** The two buttons, App.tsx:867-889. *)
Definition click_makeCall (env : AppState) : Act :=
  makeCall env (Some "9999202499").

Definition click_register (env : AppState) : Act :=
  handleRegistration env
    (Some {| username := Some "sip:su_251950@103.230.84.119:5080";
             displayName := Some "su_251950";
             authuser := Some "su_251950";
             secret := Some "hJhGU0lI";
             proxy := Some "sip:103.230.84.119:5080";
             userAgent := Some "com.superfone";
             register := None |}).

(** *** The event loop

    One event is one callback run by the browser.  The message listener is
    re-subscribed after every render (its dependency list names all it
    reads), so it sees the current state; the callbacks given to
    [janus.attach] come from the mount effect, whose dependency list is
    empty (App.tsx:762), so they keep the closures of the first render. *)
Inductive Event :=
| HostMsg (message : HostMessage)
| SipMsg (msg : JanusMessage) (jsep : option JSEP)
| OfferSuccess (call : nat) (jsep : JSEP)
| OfferError (call : nat) (error_message : string)
| JsepSuccess (call : nat)
| JsepError (call : nat) (error : string)
| InitCallback
| SessionSuccess
| SessionError (error : string)
| SessionDestroyed
| AttachSuccess (pluginHandle : Handle)
| AttachError (error : string)
| ConsentDialog (on : bool)
| LocalTrack (track : MediaStreamTrack) (on : bool)
| RemoteTrack (track : MediaStreamTrack) (mid : string) (on : bool)
| Cleanup
| WebrtcState (isConnected : bool)
| MediaState (medium : string) (receiving : bool) (mid : option Z)
| SlowLink (uplink : bool) (lost : Z) (mid : string)
| IceState (st : string)
| DetachSuccess
| DetachError (error : string)
| TimerFires (n : nat)
| ClickMakeCall
| ClickRegister
| Unmount
| WindowChanges (win : Window).

Definition mountEnv : AppState := initialState.

Definition handler (e : Event) : Act := fun w =>
  match e with
  | HostMsg message => handleWebViewMessage (state w) message w
  | SipMsg msg jsep => handleSipMessage mountEnv msg jsep w
  | OfferSuccess n jsep =>
      match pluginCalls w !! n with
      | Some (CreateOffer _ _ c) => offer_success c jsep w
      | _ => w
      end
  | OfferError n m =>
      match pluginCalls w !! n with
      | Some (CreateOffer _ _ _) => offer_error m w
      | _ => w
      end
  | JsepSuccess n =>
      match pluginCalls w !! n with
      | Some (HandleRemoteJsep _ _ true) => jsep_success w
      | _ => w
      end
  | JsepError n err =>
      match pluginCalls w !! n with
      | Some (HandleRemoteJsep _ _ true) => jsep_error err w
      | _ => w
      end
  | InitCallback => init_callback w
  | SessionSuccess => session_success w
  | SessionError err => session_error err w
  | SessionDestroyed => session_destroyed w
  | AttachSuccess h => attach_success h w
  | AttachError err => attach_error err w
  | ConsentDialog on => consentDialog on w
  | LocalTrack track on => onlocaltrack mountEnv track on w
  | RemoteTrack track mid on => onremotetrack track mid on w
  | Cleanup => oncleanup w
  | WebrtcState b => webrtcState b w
  | MediaState medium receiving mid => mediaState medium receiving mid w
  | SlowLink uplink lost mid => slowLink uplink lost mid w
  | IceState st => iceState st w
  | DetachSuccess => detach_success w
  | DetachError err => detach_error err w
  | TimerFires n => fire n w
  | ClickMakeCall => click_makeCall (state w) w
  | ClickRegister => click_register (state w) w
  | Unmount => unmount mountEnv w
  | WindowChanges win => set_window win w
  end.

(** A callback, then the render it caused and the listener effect. *)
Definition step (w : World) (e : Event) : World :=
  listener_effect (state w) (handler e w).

Definition run (es : list Event) (w : World) : World := fold_left step es w.

(** The component after its first render. *)
Definition start (win : Window) : World := mount (initialWorld win).

(** A plugin message that reports the event [registered]. *)
Definition registered_event (e : Event) : bool :=
  match e with
  | SipMsg msg _ => bool_decide (result_event msg = Some "registered")
  | _ => false
  end.

Definition is_session_success (e : Event) : bool :=
  match e with
  | SessionSuccess => true
  | _ => false
  end.

Definition is_session_error (e : Event) : bool :=
  match e with
  | SessionError _ => true
  | _ => false
  end.

(** The session-creation failures of a run. *)
Definition failures (es : list Event) : nat :=
  length (filter (fun e => is_session_error e = true) es).

(** Every attempt to create the session fails: the [Janus.init] callback
    opens the session, the session reports an error, the retry timer fires. *)
Definition failed_attempt (error : string) : list Event :=
  [InitCallback; SessionError error].

Definition three_failures : list Event :=
  failed_attempt "timeout" ++ [TimerFires 0]
  ++ failed_attempt "timeout" ++ [TimerFires 0]
  ++ failed_attempt "timeout".

Definition four_failures : list Event :=
  three_failures ++ [TimerFires 0] ++ failed_attempt "timeout".

End App.

(** ** The earlier copy, [part_000] *)

Module Part0.
Import Common.
Local Open Scope act_scope.

(** [makeCall], part_000:159-221. *)
Definition makeCall (env : AppState) (phoneNumber : option string) : Act :=
  match sipPlugin env with
  | None =>
      let error := "SIP plugin not found" in
      send {| type := "CALL_ERROR";
              payload := [("error", JS.JStr error); ("callState", JS.JStr "error")] |} ;;
      setCallState "error"
  | Some h =>
      if negb (JS.truthy phoneNumber) then
        let error := "Phone number is required" in
        send {| type := "CALL_ERROR";
                payload := [("error", JS.JStr error); ("callState", JS.JStr "error")] |} ;;
        setCallState "error"
      else
        let proxyDomain := proxyDomain_of (sipCredentials env) in
        setCurrentCall phoneNumber ;;
        setCallState "calling" ;;
        plugin (CreateOffer h
          [("tracks", JS.JArr [JS.JObj [("type", JS.JStr "audio");
                                        ("capture", JS.JBool true)]])]
          {| oc_plugin := h; oc_phoneNumber := JS.template phoneNumber;
             oc_proxyDomain := proxyDomain; oc_userAgent := None |})
  end.

Definition offer_success (c : OfferClosure) (jsep : JSEP) : Act :=
  plugin (Send (oc_plugin c)
    [("request", JS.JStr "call");
     ("uri", JS.JStr ("sip:" +:+ oc_phoneNumber c +:+ "@"
                      +:+ JS.template (oc_proxyDomain c)))]
    (Some jsep)) ;;
  send {| type := "CALL_INITIATED";
          payload := [("phoneNumber", JS.JStr (oc_phoneNumber c));
                      ("callState", JS.JStr "calling")] |}.

Definition offer_error (error_message : string) : Act :=
  send {| type := "CALL_ERROR";
          payload := [("error", JS.JStr error_message);
                      ("callState", JS.JStr "error")] |} ;;
  setCallState "error".

(** [handleWebViewMessage], part_000:225-257. *)
Definition handleWebViewMessage (env : AppState) (message : HostMessage) : Act :=
  let t := htype message in
  if String.eqb t "WEBVIEW_READY" then setIsWebViewReady true
  else if String.eqb t "REGISTER_SIP" then
    handleRegistration env (option_map credentials (hpayload message))
  else if String.eqb t "UNREGISTER_SIP" then
    handleUnregister env
  else if String.eqb t "MAKE_CALL" then
    if negb (isRegistered env) then
      send {| type := "CALL_ERROR";
              payload := [("error", JS.JStr "Not registered with SIP server")] |}
    else
      makeCall env (match hpayload message with
                    | Some p => phoneNumber p
                    | None => None
                    end)
  else if String.eqb t "END_CALL" then
    match sipPlugin env with
    | Some h =>
        if JS.truthy (currentCall env)
        then plugin (Send h [("request", JS.JStr "hangup")] None)
        else skip
    | None => skip
    end
  else skip.

(** [handleSipMessage], part_000:276-337. *)
Definition handleSipMessage (env : AppState) (msg : JanusMessage)
    (jsep : option JSEP) : Act :=
  let localCallState :=
    if JS.truthy (result_event msg) then JS.template (result_event msg)
    else callState env in
  when (JS.truthy (result_event msg))
    (setCallState (JS.template (result_event msg))) ;;
  if JS.truthy (error msg) then
    setCallState "error" ;;
    send {| type := "SIP_ERROR";
            payload := [("error", JS.of_opt (error msg));
                        ("callState", JS.JStr "error")] |}
  else
    (if bool_decide (result_event msg = Some "registered") then setIsRegistered true
     else if bool_decide (result_event msg = Some "unregistered") then setIsRegistered false
     else skip) ;;
    send {| type := "SIP_STATUS";
            payload := [("status", JS.JStr (JS.or_else (result_event msg) "unknown"));
                        ("data", msg_value msg);
                        ("callState", JS.JStr localCallState)] |} ;;
    match jsep with
    | Some j =>
        match sipPlugin env with
        | Some h => plugin (HandleRemoteJsep h j true)
        | None => skip
        end
    | None => skip
    end.

Definition jsep_success : Act :=
  send {| type := "JSEP_SUCCESS"; payload := [("callState", JS.JStr "connected")] |}.

Definition jsep_error (error : string) : Act :=
  send {| type := "JSEP_ERROR"; payload := [("error", JS.JStr error)] |}.

Definition consentDialog (on : bool) : Act :=
  send {| type := "CONSENT_DIALOG"; payload := [] |}.

(** [onlocaltrack] and [onremotetrack], part_000:430-448: no registry. *)
Definition onlocaltrack (track : MediaStreamTrack) (on : bool) : Act :=
  send {| type := "LOCAL_TRACK_READY";
          payload := [("state", JS.JStringified
                         (JS.JObj [("track", track_value track);
                                   ("on", JS.JBool on)]))] |}.

Definition onremotetrack (track : MediaStreamTrack) (mid : string) (on : bool)
    (metadata : JS.value) : Act :=
  send {| type := "REMOTE_TRACK_READY";
          payload := [("state", JS.JStringified
                         (JS.JObj [("track", track_value track);
                                   ("mid", JS.JStr mid);
                                   ("on", JS.JBool on);
                                   ("metadata", metadata)]))] |}.

Definition oncleanup : Act :=
  send {| type := "SIP_CLEANUP"; payload := [] |} ;;
  setCallState "cleaned" ;;
  setCurrentCall None.

Inductive Event :=
| HostMsg (message : HostMessage)
| SipMsg (msg : JanusMessage) (jsep : option JSEP)
| OfferSuccess (call : nat) (jsep : JSEP)
| OfferError (call : nat) (error_message : string)
| JsepSuccess (call : nat)
| JsepError (call : nat) (error : string)
| InitCallback
| SessionSuccess
| SessionError (error : string)
| SessionDestroyed
| AttachSuccess (pluginHandle : Handle)
| AttachError (error : string)
| ConsentDialog (on : bool)
| LocalTrack (track : MediaStreamTrack) (on : bool)
| RemoteTrack (track : MediaStreamTrack) (mid : string) (on : bool) (metadata : JS.value)
| Cleanup
| WebrtcState (isConnected : bool)
| MediaState (medium : string) (receiving : bool) (mid : option Z)
| SlowLink (uplink : bool) (lost : Z) (mid : string)
| IceState (st : string)
| DetachSuccess
| DetachError (error : string)
| TimerFires (n : nat)
| Unmount
| WindowChanges (win : Window).

Definition mountEnv : AppState := initialState.

Definition handler (e : Event) : Act := fun w =>
  match e with
  | HostMsg message => handleWebViewMessage (state w) message w
  | SipMsg msg jsep => handleSipMessage mountEnv msg jsep w
  | OfferSuccess n jsep =>
      match pluginCalls w !! n with
      | Some (CreateOffer _ _ c) => offer_success c jsep w
      | _ => w
      end
  | OfferError n m =>
      match pluginCalls w !! n with
      | Some (CreateOffer _ _ _) => offer_error m w
      | _ => w
      end
  | JsepSuccess n =>
      match pluginCalls w !! n with
      | Some (HandleRemoteJsep _ _ true) => jsep_success w
      | _ => w
      end
  | JsepError n err =>
      match pluginCalls w !! n with
      | Some (HandleRemoteJsep _ _ true) => jsep_error err w
      | _ => w
      end
  | InitCallback => init_callback w
  | SessionSuccess => session_success w
  | SessionError err => session_error err w
  | SessionDestroyed => session_destroyed w
  | AttachSuccess h => attach_success h w
  | AttachError err => attach_error err w
  | ConsentDialog on => consentDialog on w
  | LocalTrack track on => onlocaltrack track on w
  | RemoteTrack track mid on metadata => onremotetrack track mid on metadata w
  | Cleanup => oncleanup w
  | WebrtcState b => webrtcState b w
  | MediaState medium receiving mid => mediaState medium receiving mid w
  | SlowLink uplink lost mid => slowLink uplink lost mid w
  | IceState st => iceState st w
  | DetachSuccess => detach_success w
  | DetachError err => detach_error err w
  | TimerFires n => fire n w
  | Unmount => unmount mountEnv w
  | WindowChanges win => set_window win w
  end.

Definition step (w : World) (e : Event) : World :=
  listener_effect (state w) (handler e w).

Definition run (es : list Event) (w : World) : World := fold_left step es w.

Definition start (win : Window) : World := mount (initialWorld win).

(** A plugin message that reports the event [registered]. *)
Definition registered_event (e : Event) : bool :=
  match e with
  | SipMsg msg _ => bool_decide (result_event msg = Some "registered")
  | _ => false
  end.

Definition is_session_success (e : Event) : bool :=
  match e with
  | SessionSuccess => true
  | _ => false
  end.

Definition is_session_error (e : Event) : bool :=
  match e with
  | SessionError _ => true
  | _ => false
  end.

(** The session-creation failures of a run. *)
Definition failures (es : list Event) : nat :=
  length (filter (fun e => is_session_error e = true) es).

(** Every attempt to create the session fails: the [Janus.init] callback
    opens the session, the session reports an error, the retry timer fires. *)
Definition failed_attempt (error : string) : list Event :=
  [InitCallback; SessionError error].

Definition three_failures : list Event :=
  failed_attempt "timeout" ++ [TimerFires 0]
  ++ failed_attempt "timeout" ++ [TimerFires 0]
  ++ failed_attempt "timeout".

Definition four_failures : list Event :=
  three_failures ++ [TimerFires 0] ++ failed_attempt "timeout".

End Part0.

(** ** The legacy copy, [App.tsx] lines 897-1391 *)

Module Legacy.
Import Common.
Local Open Scope act_scope.

(** [sendToWebView], App.tsx:982-1009: the [webkit] handler, else the
    [android] one, else (and on a throw) the retry. *)
Definition sendToWebView (message : WebViewMessage) (retryCount : Z) : Act :=
  log_sent message retryCount ;;
  fun w =>
    let retry :=
      if 0 <? retryCount
      then setTimeout (Resend message (retryCount - 1)) 1000 w
      else w in
    match webkit_janusHandler (window w) with
    | Some Accepts => log_posted message w
    | Some Throws => retry
    | None =>
        match android_onJanusMessage (window w) with
        | Some Accepts => log_posted message w
        | Some Throws => retry
        | None => retry
        end
    end.

Definition send (message : WebViewMessage) : Act := sendToWebView message 3.

(** [handleRegistration], App.tsx:1012-1048. *)
Definition handleRegistration (env : AppState)
    (params : option RegistrationPayload) : Act :=
  match sipPlugin env with
  | None =>
      let error := "SIP plugin not found" in
      send {| type := "REGISTRATION_ERROR"; payload := [("error", JS.JStr error)] |}
  | Some h =>
      setCallState "registering" ;;
      let registrationParams :=
        spread_register (sipCredentials env)
          (match params with Some p => p | None => noCredentials end) in
      setSipCredentials registrationParams ;;
      plugin (Send h
        [("request", JS.JStr "register");
         ("username", JS.of_opt (username registrationParams));
         ("display_name", JS.of_opt (displayName registrationParams));
         ("authuser", JS.of_opt (authuser registrationParams));
         ("secret", JS.of_opt (secret registrationParams));
         ("proxy", JS.of_opt (proxy registrationParams));
         ("user_agent", JS.of_opt (userAgent registrationParams));
         ("register", JS.JBool true)]
        None)
  end.

(** [handleUnregister], App.tsx:1051-1059. *)
Definition handleUnregister (env : AppState) : Act :=
  match sipPlugin env with
  | None => skip
  | Some h =>
      if negb (isRegistered env) then skip
      else plugin (Send h [("request", JS.JStr "unregister")] None)
  end.

(** [makeCall], App.tsx:1061-1124, with its fallback domain. *)
Definition makeCall (env : AppState) (phoneNumber : option string) : Act :=
  match sipPlugin env with
  | None =>
      let error := "SIP plugin not found" in
      send {| type := "CALL_ERROR";
              payload := [("error", JS.JStr error); ("callState", JS.JStr "error")] |} ;;
      setCallState "error"
  | Some h =>
      if negb (JS.truthy phoneNumber) then
        let error := "Phone number is required" in
        send {| type := "CALL_ERROR";
                payload := [("error", JS.JStr error); ("callState", JS.JStr "error")] |} ;;
        setCallState "error"
      else
        let proxyDomain :=
          JS.or_else (proxyDomain_of (sipCredentials env)) "103.230.84.119:5080" in
        setCurrentCall phoneNumber ;;
        setCallState "calling" ;;
        plugin (CreateOffer h
          [("tracks", JS.JArr [JS.JObj [("type", JS.JStr "audio");
                                        ("capture", JS.JBool true)]])]
          {| oc_plugin := h; oc_phoneNumber := JS.template phoneNumber;
             oc_proxyDomain := Some proxyDomain; oc_userAgent := None |})
  end.

(** [handleWebViewMessage], App.tsx:1128-1159. *)
Definition handleWebViewMessage (env : AppState) (message : HostMessage) : Act :=
  let t := htype message in
  if String.eqb t "WEBVIEW_READY" then setIsWebViewReady true
  else if String.eqb t "REGISTER_SIP" then
    handleRegistration env (match hpayload message with
                            | Some p => registration p
                            | None => None
                            end)
  else if String.eqb t "UNREGISTER_SIP" then
    handleUnregister env
  else if String.eqb t "MAKE_CALL" then
    if negb (isRegistered env) then
      send {| type := "CALL_ERROR";
              payload := [("error", JS.JStr "Not registered with SIP server")] |}
    else
      makeCall env (match hpayload message with
                    | Some p => phoneNumber p
                    | None => None
                    end)
  else if String.eqb t "END_CALL" then
    match sipPlugin env with
    | Some h =>
        if JS.truthy (currentCall env)
        then plugin (Send h [("request", JS.JStr "hangup")] None)
        else skip
    | None => skip
    end
  else skip.

(** [handleSipMessage], App.tsx:1181-1237: no look at [msg.error]. *)
Definition handleSipMessage (env : AppState) (msg : JanusMessage)
    (jsep : option JSEP) : Act :=
  let ev := result_event msg in
  (if bool_decide (ev = Some "registered") then
     setIsRegistered true ;; setCallState "registered"
   else if bool_decide (ev = Some "unregistered") then
     setIsRegistered false ;; setCallState "idle"
   else skip) ;;
  (if bool_decide (ev = Some "calling") then setCallState "calling"
   else if bool_decide (ev = Some "ringing") then setCallState "ringing"
   else if bool_decide (ev = Some "accepted") then setCallState "connected"
   else if bool_decide (ev = Some "hangup") then
     setCallState "ended" ;; setCurrentCall None
   else skip) ;;
  send {| type := "SIP_STATUS";
          payload := [("status", JS.JStr (JS.or_else ev "unknown"));
                      ("data", msg_value msg);
                      ("callState", JS.JStr (callState env))] |} ;;
  match jsep with
  | Some j =>
      match sipPlugin env with
      | Some h => plugin (HandleRemoteJsep h j true)
      | None => skip
      end
  | None => skip
  end.

(** The [success] and [error] callbacks of [createOffer], App.tsx:1094-1120. *)
Definition offer_success (c : OfferClosure) (jsep : JSEP) : Act :=
  plugin (Send (oc_plugin c)
    [("request", JS.JStr "call");
     ("uri", JS.JStr ("sip:" +:+ oc_phoneNumber c +:+ "@"
                      +:+ JS.template (oc_proxyDomain c)))]
    (Some jsep)) ;;
  send {| type := "CALL_INITIATED";
          payload := [("phoneNumber", JS.JStr (oc_phoneNumber c));
                      ("callState", JS.JStr "calling")] |}.

Definition offer_error (error_message : string) : Act :=
  send {| type := "CALL_ERROR";
          payload := [("error", JS.JStr error_message);
                      ("callState", JS.JStr "error")] |} ;;
  setCallState "error".

(** The [success] callback of [janus.attach], App.tsx:1302-1306: it
    registers at once, through the [handleRegistration] of its closure. *)
Definition attach_success (env : AppState) (pluginHandle : Handle) : Act :=
  setSipPlugin (Some pluginHandle) ;;
  handleRegistration env None ;;
  send {| type := "SIP_READY"; payload := [] |}.

(** [initializeJanus], App.tsx:1245-1295: the part that runs at once. *)
Definition initializeJanus : Act := engine JanusInit.

(** A timer of the legacy copy fires. *)
Definition fire (n : nat) : Act := fun w =>
  match timers w !! n with
  | Some t =>
      let w' := set_timers (take n (timers w) ++ drop (S n) (timers w)) w in
      match callback t with
      | Resend message retryCount => sendToWebView message retryCount w'
      | Reinitialize => initializeJanus w'
      end
  | None => w
  end.

End Legacy.

(** ** Vocabulary of the statements *)

(** A [window] without any host bridge, and one whose
    [ReactNativeWebView.postMessage] throws. *)
Definition noBridge : Common.Window :=
  {| Common.ReactNativeWebView := None; Common.webkit_janusHandler := None;
     Common.android_onJanusMessage := None |}.

Definition throwingBridge : Common.Window :=
  {| Common.ReactNativeWebView := Some Common.Throws;
     Common.webkit_janusHandler := None;
     Common.android_onJanusMessage := None |}.

(** The retries of [initializeJanus] scheduled so far. *)
Definition is_reinitialize (t : Common.Timer) : bool :=
  match Common.callback t with
  | Common.Reinitialize => true
  | Common.Resend _ _ => false
  end.

Definition retries_scheduled (w : Common.World) : list Common.Timer :=
  filter (fun t => is_reinitialize t = true) (Common.timeouts w).

Definition retries_pending (w : Common.World) : list Common.Timer :=
  filter (fun t => is_reinitialize t = true) (Common.timers w).

(** The timer set last fires. *)
Definition fire_last : Common.Act := fun w =>
  Common.fire (length (Common.timers w) - 1) w.

(** The messages the statements below name. *)
Definition CALL_ERROR_not_registered : Common.WebViewMessage :=
  {| Common.type := "CALL_ERROR";
     Common.payload := [("error", JS.JStr "Not registered with SIP server")] |}.

Definition REGISTRATION_ERROR_already : Common.WebViewMessage :=
  {| Common.type := "REGISTRATION_ERROR";
     Common.payload := [("error", JS.JStr "Already registered with SIP server")] |}.

Definition SIP_ERROR_of (msg : Common.JanusMessage) : Common.WebViewMessage :=
  {| Common.type := "SIP_ERROR";
     Common.payload := [("error", JS.of_opt (Common.error msg));
                        ("callState", JS.JStr "error")] |}.

(** Sample inputs: a host that asks to register, then to call, before the
    plugin has reported any registration. *)
Definition sampleCredentials : Common.RegistrationPayload :=
  {| Common.username := Some "sip:alice@203.0.113.5:5080";
     Common.displayName := Some "alice";
     Common.authuser := Some "alice";
     Common.secret := Some "s3cret";
     Common.proxy := Some "sip:203.0.113.5:5080";
     Common.userAgent := None;
     Common.register := None |}.

Definition REGISTER_SIP : Common.HostMessage :=
  {| Common.htype := "REGISTER_SIP";
     Common.hpayload :=
       Some {| Common.phoneNumber := None;
               Common.credentials := sampleCredentials;
               Common.registration := Some sampleCredentials |} |}.

Definition UNREGISTER_SIP : Common.HostMessage :=
  {| Common.htype := "UNREGISTER_SIP"; Common.hpayload := None |}.

Definition MAKE_CALL : Common.HostMessage :=
  {| Common.htype := "MAKE_CALL";
     Common.hpayload :=
       Some {| Common.phoneNumber := Some "5551234";
               Common.credentials := Common.noCredentials;
               Common.registration := None |} |}.

(** A plugin message that carries only an event name, or only an error. *)
Definition event_msg (e : string) : Common.JanusMessage :=
  {| Common.result :=
       Some {| Common.event := Some e; Common.r_username := None;
               Common.reason := None; Common.code := None |};
     Common.error := None; Common.call_id := None |}.

Definition error_msg (e : string) : Common.JanusMessage :=
  {| Common.result := None; Common.error := Some e; Common.call_id := None |}.

(** A component with the plugin attached and the registration confirmed. *)
Definition registeredState : Common.AppState :=
  {| Common.sipPlugin := Some 1%nat; Common.isWebViewReady := true;
     Common.callState := "registered"; Common.currentCall := None;
     Common.isRegistered := true;
     Common.localTracks := ∅; Common.remoteTracks := ∅;
     Common.localVideos := 0; Common.remoteVideos := 0;
     Common.sipCredentials := sampleCredentials; Common.credentialsGen := 1 |}.

Definition registeredWorld : Common.World :=
  {| Common.state := registeredState; Common.janus := true;
     Common.reconnectAttempts := 0;
     Common.handle := {| Common.callId := None; Common.doAudio := None;
                         Common.doVideo := None |};
     Common.window := noBridge; Common.sent := []; Common.posted := [];
     Common.pluginCalls := []; Common.engineCalls := [];
     Common.timers := []; Common.timeouts := [] |}.

(** An offer, as [createOffer] hands it to its [success] callback. *)
Definition exampleJsep : Common.JSEP :=
  {| Common.jtype := "offer"; Common.sdp := Some "v=0 m=audio 9 RTP/AVP 0" |}.

(** A component with the plugin attached and no credentials stored. *)
Definition attachedState : Common.AppState :=
  {| Common.sipPlugin := Some 1%nat; Common.isWebViewReady := true;
     Common.callState := "ready"; Common.currentCall := None;
     Common.isRegistered := false;
     Common.localTracks := ∅; Common.remoteTracks := ∅;
     Common.localVideos := 0; Common.remoteVideos := 0;
     Common.sipCredentials := Common.noCredentials;
     Common.credentialsGen := 0 |}.

(** The number of entries of a registry under the key [k]
    ([Object.entries(tracks)] filtered on the key). *)
Definition entries_at (k : string) (m : gmap string Common.MediaStream) : nat :=
  length (filter (fun kv => kv.1 = k) (map_to_list m)).

Definition audioTrack : Common.MediaStreamTrack :=
  {| Common.id := "{5d1e-a0}"; Common.kind := "audio" |}.

Definition videoTrack : Common.MediaStreamTrack :=
  {| Common.id := "5d1e-a0"; Common.kind := "video" |}.

(** The timer of a retry of [initializeJanus], and the timer
    [sendToWebViewParent] sets when its budget [rc] lasts. *)
Definition retryTimer : Common.Timer :=
  {| Common.callback := Common.Reinitialize; Common.delay := 5000 |}.

Definition retry_of (m : Common.WebViewMessage) (rc : Z) : list Common.Timer :=
  if 0 <? rc
  then [{| Common.callback := Common.Resend m (rc - 1); Common.delay := 1000 |}]
  else [].

(** Every key of the registry is a track id without braces. *)
Definition normal_keys (m : gmap string Common.MediaStream) : Prop :=
  forall k, is_Some (m !! k) -> JS.strip_braces k = k.

(** [retries_from m rc n]: a send of [m] with the budget [rc] can be
    followed by [n] retries, each one set by the send before it, whatever
    the bridge does in between. *)
Inductive retries_from (m : Common.WebViewMessage) : Z -> nat -> Prop :=
| retries_none (rc : Z) : retries_from m rc 0
| retries_next (rc : Z) (n : nat) (w : Common.World) :
    Common.timeouts (Common.sendToWebViewParent m rc w) <> Common.timeouts w ->
    retries_from m (rc - 1) n ->
    retries_from m rc (S n).

Definition CALL_INITIATED (number : string) : Common.WebViewMessage :=
  {| Common.type := "CALL_INITIATED";
     Common.payload := [("phoneNumber", JS.JStr number);
                        ("callState", JS.JStr "calling")] |}.

(** ** Vocabulary of the further properties *)

Definition acceptingBridge : Common.Window :=
  {| Common.ReactNativeWebView := Some Common.Accepts;
     Common.webkit_janusHandler := None;
     Common.android_onJanusMessage := None |}.

Definition REACT_APP_READY : Common.WebViewMessage :=
  {| Common.type := "REACT_APP_READY"; Common.payload := [] |}.

Definition REGISTRATION_ERROR_no_plugin : Common.WebViewMessage :=
  {| Common.type := "REGISTRATION_ERROR";
     Common.payload := [("error", JS.JStr "SIP plugin not found")] |}.

(** A [CALL_ERROR] that also carries the call state [error]. *)
Definition CALL_ERROR_with (error : string) : Common.WebViewMessage :=
  {| Common.type := "CALL_ERROR";
     Common.payload := [("error", JS.JStr error); ("callState", JS.JStr "error")] |}.

(** The [register] request for the credentials [c]. *)
Definition register_request (c : Common.RegistrationPayload) : JS.obj :=
  [("request", JS.JStr "register");
   ("username", JS.of_opt (Common.username c));
   ("display_name", JS.of_opt (Common.displayName c));
   ("authuser", JS.of_opt (Common.authuser c));
   ("secret", JS.of_opt (Common.secret c));
   ("proxy", JS.of_opt (Common.proxy c));
   ("user_agent", JS.of_opt (Common.userAgent c));
   ("register", JS.JBool true)].

Definition hangup_request : JS.obj := [("request", JS.JStr "hangup")].

(** The six textual fields of the credentials. *)
Definition credential_fields
  : list (Common.RegistrationPayload -> option string) :=
  [Common.username; Common.displayName; Common.authuser; Common.secret;
   Common.proxy; Common.userAgent].

(** The payload of a [REGISTER_SIP] message, read as the handlers do. *)
Definition params_of (m : Common.HostMessage) : Common.RegistrationPayload :=
  match Common.hpayload m with
  | Some p => Common.credentials p
  | None => Common.noCredentials
  end.


Definition END_CALL : Common.HostMessage :=
  {| Common.htype := "END_CALL"; Common.hpayload := None |}.

(** The tags [handleWebViewMessage] knows. *)
Definition known_tags : list string :=
  ["WEBVIEW_READY"; "REGISTER_SIP"; "UNREGISTER_SIP"; "MAKE_CALL"; "END_CALL"].

(** The event names the [switch] of [handleSipMessage] in [App.tsx] has a
    case for. *)
Definition known_events : list string :=
  ["registered"; "unregistered"; "calling"; "incomingcall"; "accepting";
   "progress"; "accepted"; "hangup"].

Definition SIP_STATUS (status : string) (msg : Common.JanusMessage)
    (callState : string) : Common.WebViewMessage :=
  {| Common.type := "SIP_STATUS";
     Common.payload := [("status", JS.JStr status);
                        ("data", Common.msg_value msg);
                        ("callState", JS.JStr callState)] |}.

Definition INCOMING_CALL (from : option string) (hasAudio hasVideo : bool)
    (callId : option string) : Common.WebViewMessage :=
  {| Common.type := "INCOMING_CALL";
     Common.payload := [("from", JS.of_opt from);
                        ("hasAudio", JS.JBool hasAudio);
                        ("hasVideo", JS.JBool hasVideo);
                        ("callId", JS.of_opt callId)] |}.


(** The [jsep] a plugin message hands to [handleRemoteJsep] with callbacks,
    when the closure knows a handle. *)
Definition jsep_call (env : Common.AppState) (jsep : option Common.JSEP)
  : list Common.PluginCall :=
  match jsep, Common.sipPlugin env with
  | Some j, Some h => [Common.HandleRemoteJsep h j true]
  | _, _ => []
  end.

(** The calls that stop the tracks of a stream. *)
Definition is_stop_tracks (c : Common.PluginCall) : bool :=
  match c with
  | Common.StopTracks _ => true
  | _ => false
  end.


(** * Properties of the relay *)

Import Common.
Local Open Scope list_scope.

(** Unfold the state-passing primitives and project the resulting records;
    [prim0] leaves the sends folded, [prim] opens them too. *)
Ltac prim0 :=
  cbv [send Legacy.send seq skip when log_sent log_posted
       log_timeout set_timers plugin engine on_state setSipPlugin
       setIsWebViewReady setCallState setCurrentCall setIsRegistered
       setLocalTracks setRemoteTracks setLocalVideos setRemoteVideos
       setSipCredentials set_janus set_reconnectAttempts set_handle
       set_window
       state janus reconnectAttempts handle window sent posted pluginCalls
       engineCalls timers timeouts sipPlugin isWebViewReady callState
       currentCall isRegistered localTracks remoteTracks localVideos
       remoteVideos sipCredentials credentialsGen] in *.

Ltac prim :=
  cbv [send sendToWebViewParent Legacy.send Legacy.sendToWebView setTimeout
       seq skip when log_sent log_posted
       log_timeout set_timers plugin engine on_state setSipPlugin
       setIsWebViewReady setCallState setCurrentCall setIsRegistered
       setLocalTracks setRemoteTracks setLocalVideos setRemoteVideos
       setSipCredentials set_janus set_reconnectAttempts set_handle
       set_window
       state janus reconnectAttempts handle window sent posted pluginCalls
       engineCalls timers timeouts sipPlugin isWebViewReady callState
       currentCall isRegistered localTracks remoteTracks localVideos
       remoteVideos sipCredentials credentialsGen] in *.

(** Split on what the bridge does with a post. *)
Ltac bridge := repeat case_match; try reflexivity.

(** ** What [sendToWebViewParent] touches *)

Section Send.
Variables (m : WebViewMessage) (rc : Z) (w : World).

Lemma sendP_sent : sent (sendToWebViewParent m rc w) = sent w ++ [(m, rc)].
Proof. prim. bridge. Qed.

Lemma sendP_state : state (sendToWebViewParent m rc w) = state w.
Proof. prim. bridge. Qed.

Lemma sendP_pluginCalls : pluginCalls (sendToWebViewParent m rc w) = pluginCalls w.
Proof. prim. bridge. Qed.

Lemma sendP_engineCalls : engineCalls (sendToWebViewParent m rc w) = engineCalls w.
Proof. prim. bridge. Qed.

Lemma sendP_reconnectAttempts :
  reconnectAttempts (sendToWebViewParent m rc w) = reconnectAttempts w.
Proof. prim. bridge. Qed.

Lemma sendP_janus : janus (sendToWebViewParent m rc w) = janus w.
Proof. prim. bridge. Qed.

Lemma sendP_window : window (sendToWebViewParent m rc w) = window w.
Proof. prim. bridge. Qed.

Lemma sendP_handle : handle (sendToWebViewParent m rc w) = handle w.
Proof. prim. bridge. Qed.

(** With no bridge, or a bridge that accepts, nothing is scheduled. *)
Lemma sendP_quiet :
  ReactNativeWebView (window w) <> Some Throws ->
  timers (sendToWebViewParent m rc w) = timers w
  /\ timeouts (sendToWebViewParent m rc w) = timeouts w.
Proof. intros H. prim. bridge; first [split; reflexivity | congruence]. Qed.

End Send.

(** Push the projections of the world through a send. *)
Ltac sent_simpl :=
  unfold send in *;
  rewrite ?sendP_sent, ?sendP_state, ?sendP_pluginCalls, ?sendP_engineCalls,
    ?sendP_reconnectAttempts, ?sendP_janus, ?sendP_window, ?sendP_handle in *.

(** The listener effect does nothing when the render changed none of its
    dependencies. *)
Lemma listener_effect_same (before : AppState) (w : World) :
  state w = before -> listener_effect before w = w.
Proof.
  intros <-. unfold listener_effect, listener_deps_changed.
  rewrite !bool_decide_eq_true_2 by reflexivity.
  rewrite Bool.eqb_reflx, Nat.eqb_refl. reflexivity.
Qed.

(** ** Registration only follows a [registered] event *)

Ltac frame :=
  repeat first [ progress prim0 | rewrite !sendP_state | done | case_match ].

(** The plugin reported [registered]: contradiction with the run. *)
Ltac not_registered He :=
  exfalso; apply He; unfold result_event;
  match goal with H : result _ = Some _ |- _ => rewrite H end;
  match goal with H : String.eqb _ _ = true |- _ => apply String.eqb_eq in H end;
  match goal with |- event ?r = _ => destruct (event r) end;
  cbn in *; congruence.

Lemma App_handler_unregistered (e : App.Event) (w : World) :
  isRegistered (state w) = false -> App.registered_event e = false ->
  isRegistered (state (App.handler e w)) = false.
Proof.
  intros Hw He. destruct e; cbn [App.handler].
  - unfold App.handleWebViewMessage, handleRegistration, handleUnregister,
      App.makeCall. frame.
  - unfold App.handleSipMessage, App.on_event, App.handleRemoteJsep.
    cbn in He. apply bool_decide_eq_false in He. frame.
    all: not_registered He.
  - unfold App.offer_success. frame.
  - unfold App.offer_error. frame.
  - unfold App.jsep_success. frame.
  - unfold App.jsep_error. frame.
  - unfold init_callback. frame.
  - unfold session_success, attachSipPlugin. frame.
  - unfold session_error. frame.
  - unfold session_destroyed. frame.
  - unfold attach_success. frame.
  - unfold attach_error. frame.
  - unfold App.consentDialog. frame.
  - unfold App.onlocaltrack. frame.
  - unfold App.onremotetrack. frame.
  - unfold App.oncleanup. frame.
  - unfold webrtcState. frame.
  - unfold mediaState. frame.
  - unfold slowLink. frame.
  - unfold iceState. frame.
  - unfold detach_success. frame.
  - unfold detach_error. frame.
  - unfold fire, initializeJanus. frame.
  - unfold App.click_makeCall, App.makeCall. frame.
  - unfold App.click_register, handleRegistration. frame.
  - unfold unmount. frame.
  - frame.
Qed.

Lemma Part0_handler_unregistered (e : Part0.Event) (w : World) :
  isRegistered (state w) = false -> Part0.registered_event e = false ->
  isRegistered (state (Part0.handler e w)) = false.
Proof.
  intros Hw He. destruct e; cbn [Part0.handler].
  - unfold Part0.handleWebViewMessage, handleRegistration, handleUnregister,
      Part0.makeCall. frame.
  - unfold Part0.handleSipMessage.
    cbn in He. rewrite He. frame.
  - unfold Part0.offer_success. frame.
  - unfold Part0.offer_error. frame.
  - unfold Part0.jsep_success. frame.
  - unfold Part0.jsep_error. frame.
  - unfold init_callback. frame.
  - unfold session_success, attachSipPlugin. frame.
  - unfold session_error. frame.
  - unfold session_destroyed. frame.
  - unfold attach_success. frame.
  - unfold attach_error. frame.
  - unfold Part0.consentDialog. frame.
  - unfold Part0.onlocaltrack. frame.
  - unfold Part0.onremotetrack. frame.
  - unfold Part0.oncleanup. frame.
  - unfold webrtcState. frame.
  - unfold mediaState. frame.
  - unfold slowLink. frame.
  - unfold iceState. frame.
  - unfold detach_success. frame.
  - unfold detach_error. frame.
  - unfold fire, initializeJanus. frame.
  - unfold unmount. frame.
  - frame.
Qed.

Lemma listener_effect_isRegistered (before : AppState) (w : World) :
  isRegistered (state (listener_effect before w)) = isRegistered (state w).
Proof.
  unfold listener_effect. destruct (listener_deps_changed _ _); [|done].
  now sent_simpl.
Qed.

Lemma start_unregistered (win : Window) :
  isRegistered (state (App.start win)) = false.
Proof. unfold App.start, mount, initializeJanus. frame. Qed.

Lemma App_run_unregistered (es : list App.Event) (w : World) :
  isRegistered (state w) = false ->
  forallb (fun e => negb (App.registered_event e)) es = true ->
  isRegistered (state (App.run es w)) = false.
Proof.
  revert w. induction es as [|e es IH]; intros w Hw Hes; [exact Hw|].
  cbn in Hes. apply andb_true_iff in Hes as [He Hes].
  apply negb_true_iff in He.
  cbn. apply IH; [|exact Hes].
  unfold App.step. rewrite listener_effect_isRegistered.
  now apply App_handler_unregistered.
Qed.

Lemma Part0_run_unregistered (es : list Part0.Event) (w : World) :
  isRegistered (state w) = false ->
  forallb (fun e => negb (Part0.registered_event e)) es = true ->
  isRegistered (state (Part0.run es w)) = false.
Proof.
  revert w. induction es as [|e es IH]; intros w Hw Hes; [exact Hw|].
  cbn in Hes. apply andb_true_iff in Hes as [He Hes].
  apply negb_true_iff in He.
  cbn. apply IH; [|exact Hes].
  unfold Part0.step. rewrite listener_effect_isRegistered.
  now apply Part0_handler_unregistered.
Qed.

(** ** C1: a call asked for before any registration *)

Lemma App_make_call_unregistered (w : World) (m : HostMessage) :
  isRegistered (state w) = false -> htype m = "MAKE_CALL" ->
  App.step w (App.HostMsg m) = send CALL_ERROR_not_registered w.
Proof.
  intros Hw Hm. unfold App.step. cbn [App.handler].
  unfold App.handleWebViewMessage. rewrite Hw, Hm. cbn.
  apply listener_effect_same. unfold send. apply sendP_state.
Qed.

Lemma Part0_make_call_unregistered (w : World) (m : HostMessage) :
  isRegistered (state w) = false -> htype m = "MAKE_CALL" ->
  Part0.step w (Part0.HostMsg m) = send CALL_ERROR_not_registered w.
Proof.
  intros Hw Hm. unfold Part0.step. cbn [Part0.handler].
  unfold Part0.handleWebViewMessage. rewrite Hw, Hm. cbn.
  apply listener_effect_same. unfold send. apply sendP_state.
Qed.

(** C1.  In every run of the component in which the plugin has not yet
    reported [registered], the registration flag is still off, and a
    [MAKE_CALL] message of the host is answered by exactly one [CALL_ERROR]
    message: nothing is asked of the plugin (no [createOffer], no [call]
    request) and the state is left as it was.  This holds in [App.tsx] and
    in [part_000]. *)
Theorem make_call_before_registration :
  (forall (win : Window) (es : list App.Event) (m : HostMessage),
      forallb (fun e => negb (App.registered_event e)) es = true ->
      htype m = "MAKE_CALL" ->
      let w := App.run es (App.start win) in
      let w' := App.step w (App.HostMsg m) in
      isRegistered (state w) = false
      /\ sent w' = sent w ++ [(CALL_ERROR_not_registered, 3)]
      /\ pluginCalls w' = pluginCalls w
      /\ state w' = state w)
  /\ (forall (win : Window) (es : list Part0.Event) (m : HostMessage),
      forallb (fun e => negb (Part0.registered_event e)) es = true ->
      htype m = "MAKE_CALL" ->
      let w := Part0.run es (Part0.start win) in
      let w' := Part0.step w (Part0.HostMsg m) in
      isRegistered (state w) = false
      /\ sent w' = sent w ++ [(CALL_ERROR_not_registered, 3)]
      /\ pluginCalls w' = pluginCalls w
      /\ state w' = state w).
Proof.
  split; intros win es m Hes Hm w w'.
  - assert (Hw : isRegistered (state w) = false)
      by (apply App_run_unregistered; [apply start_unregistered | exact Hes]).
    subst w'. rewrite (App_make_call_unregistered w m Hw Hm).
    now sent_simpl.
  - assert (Hw : isRegistered (state w) = false)
      by (apply Part0_run_unregistered; [apply start_unregistered | exact Hes]).
    subst w'. rewrite (Part0_make_call_unregistered w m Hw Hm).
    now sent_simpl.
Qed.

Lemma make_call_before_registration_witness :
  (let w := App.run [App.HostMsg REGISTER_SIP; App.SipMsg (event_msg "registering") None]
              (App.start noBridge) in
   sent (App.step w (App.HostMsg MAKE_CALL))
   = sent w ++ [(CALL_ERROR_not_registered, 3)])
  /\ (let w := Part0.run [Part0.HostMsg REGISTER_SIP;
                          Part0.SipMsg (event_msg "registering") None]
                 (Part0.start noBridge) in
      sent (Part0.step w (Part0.HostMsg MAKE_CALL))
      = sent w ++ [(CALL_ERROR_not_registered, 3)]).
Proof.
  split.
  - apply (proj1 make_call_before_registration noBridge
             [App.HostMsg REGISTER_SIP; App.SipMsg (event_msg "registering") None]
             MAKE_CALL); reflexivity.
  - apply (proj2 make_call_before_registration noBridge
             [Part0.HostMsg REGISTER_SIP; Part0.SipMsg (event_msg "registering") None]
             MAKE_CALL); reflexivity.
Defined.

(** ** C2: a second registration *)

Lemma handleRegistration_registered (env : AppState) (w : World) (h : Handle)
    (params : option RegistrationPayload) :
  sipPlugin env = Some h -> isRegistered env = true ->
  handleRegistration env params w = send REGISTRATION_ERROR_already w.
Proof. intros Hp Hr. unfold handleRegistration. now rewrite Hp, Hr. Qed.

(** C2, as it holds in [App.tsx] 1-895 and in [part_000].  Whenever the
    registration flag is on and a plugin handle is attached,
    [handleRegistration] -- called directly or through a [REGISTER_SIP]
    message -- sends exactly one [REGISTRATION_ERROR] message and no request
    to the plugin, and leaves the whole React state (stored credentials and
    call state among it) unchanged. *)
Theorem register_while_registered :
  forall (env : AppState) (w : World) (h : Handle),
    sipPlugin env = Some h ->
    isRegistered env = true ->
    (forall params,
        let w' := handleRegistration env params w in
        sent w' = sent w ++ [(REGISTRATION_ERROR_already, 3)]
        /\ pluginCalls w' = pluginCalls w
        /\ state w' = state w)
    /\ (state w = env ->
        forall m, htype m = "REGISTER_SIP" ->
        (let w' := App.step w (App.HostMsg m) in
         sent w' = sent w ++ [(REGISTRATION_ERROR_already, 3)]
         /\ pluginCalls w' = pluginCalls w
         /\ state w' = state w)
        /\ (let w' := Part0.step w (Part0.HostMsg m) in
            sent w' = sent w ++ [(REGISTRATION_ERROR_already, 3)]
            /\ pluginCalls w' = pluginCalls w
            /\ state w' = state w)).
Proof.
  intros env w h Hp Hr. split.
  - intros params. cbn zeta.
    rewrite (handleRegistration_registered _ _ h) by assumption.
    now sent_simpl.
  - intros <- m Hm. split; cbn zeta.
    + unfold App.step. cbn [App.handler]. unfold App.handleWebViewMessage.
      rewrite Hm. cbn.
      rewrite (handleRegistration_registered _ _ h) by assumption.
      rewrite listener_effect_same by (unfold send; apply sendP_state).
      now sent_simpl.
    + unfold Part0.step. cbn [Part0.handler]. unfold Part0.handleWebViewMessage.
      rewrite Hm. cbn.
      rewrite (handleRegistration_registered _ _ h) by assumption.
      rewrite listener_effect_same by (unfold send; apply sendP_state).
      now sent_simpl.
Qed.

Lemma register_while_registered_witness :
  sent (App.step registeredWorld (App.HostMsg REGISTER_SIP))
  = [(REGISTRATION_ERROR_already, 3)]
  /\ pluginCalls (Part0.step registeredWorld (Part0.HostMsg REGISTER_SIP)) = [].
Proof.
  pose proof (register_while_registered registeredState registeredWorld 1%nat
                eq_refl eq_refl) as (_ & H).
  destruct (H eq_refl REGISTER_SIP eq_refl) as ((HA & _) & (_ & HP & _)).
  split; [exact HA | exact HP].
Defined.

(** The legacy copy has no such guard: registered, with the plugin
    attached, it forwards the [register] request again, overwrites the call
    state and the stored credentials, and reports no error. *)
Lemma legacy_registers_again :
  let w' := Legacy.handleWebViewMessage (state registeredWorld) REGISTER_SIP
              registeredWorld in
  (sent w' = []
   /\ pluginCalls w' =
        [Send 1%nat
           [("request", JS.JStr "register");
            ("username", JS.JStr "sip:alice@203.0.113.5:5080");
            ("display_name", JS.JStr "alice");
            ("authuser", JS.JStr "alice");
            ("secret", JS.JStr "s3cret");
            ("proxy", JS.JStr "sip:203.0.113.5:5080");
            ("user_agent", JS.JUndefined);
            ("register", JS.JBool true)] None]
   /\ callState (state w') = "registering")
  /\ ~ (sent w' = sent registeredWorld ++ [(REGISTRATION_ERROR_already, 3)]
        /\ pluginCalls w' = pluginCalls registeredWorld
        /\ state w' = state registeredWorld).
Proof.
  split; [repeat split; reflexivity|].
  intros (H & _). vm_compute in H. discriminate H.
Qed.

(** ** C8: unregistering when not registered *)

Lemma handleUnregister_noop (env : AppState) (w : World) :
  sipPlugin env = None \/ isRegistered env = false ->
  handleUnregister env w = w.
Proof.
  intros [H|H]; unfold handleUnregister; rewrite H; [reflexivity|].
  now destruct (sipPlugin env).
Qed.

(** C8.  When the registration flag is off, or no plugin handle is
    attached, [handleUnregister] returns the world it was given: no request
    to the plugin, no host message, no change of state; so does any number
    of invocations, and so does an [UNREGISTER_SIP] message of the host. *)
Theorem unregister_when_not_registered :
  forall (env : AppState) (w : World),
    sipPlugin env = None \/ isRegistered env = false ->
    handleUnregister env w = w
    /\ (forall n : nat, Nat.iter n (handleUnregister env) w = w)
    /\ (state w = env ->
        forall m, htype m = "UNREGISTER_SIP" ->
        App.step w (App.HostMsg m) = w /\ Part0.step w (Part0.HostMsg m) = w).
Proof.
  intros env w H. split; [now apply handleUnregister_noop|]. split.
  - induction n as [|n IH]; [reflexivity|].
    rewrite Nat.iter_succ, IH. now apply handleUnregister_noop.
  - intros <- m Hm. split.
    + unfold App.step. cbn [App.handler]. unfold App.handleWebViewMessage.
      rewrite Hm. cbn. rewrite handleUnregister_noop by assumption.
      now apply listener_effect_same.
    + unfold Part0.step. cbn [Part0.handler]. unfold Part0.handleWebViewMessage.
      rewrite Hm. cbn. rewrite handleUnregister_noop by assumption.
      now apply listener_effect_same.
Qed.

Lemma unregister_when_not_registered_witness :
  App.step (App.start noBridge) (App.HostMsg UNREGISTER_SIP) = App.start noBridge
  /\ Nat.iter 5 (handleUnregister (state (App.start noBridge))) (App.start noBridge)
     = App.start noBridge.
Proof.
  pose proof (unregister_when_not_registered (state (App.start noBridge))
                (App.start noBridge) (or_introl eq_refl)) as (_ & Hn & Hm).
  split.
  - apply (Hm eq_refl UNREGISTER_SIP eq_refl).
  - apply (Hn 5%nat).
Defined.

(** ** The string primitives; C3 and C10: the URI of a call *)

Lemma append_nil_r (s : string) : s +:+ "" = s.
Proof.
  induction s as [|c s IH]; [reflexivity|].
  change (String c (s +:+ "") = String c s). now rewrite IH.
Qed.

Lemma append_assoc (a b c : string) : (a +:+ b) +:+ c = a +:+ (b +:+ c).
Proof.
  induction a as [|x a IH]; [reflexivity|].
  change (String x ((a +:+ b) +:+ c) = String x (a +:+ (b +:+ c))).
  now rewrite IH.
Qed.

Lemma prefix_spec (a s : string) :
  String.prefix a s = true <-> exists b, s = a +:+ b.
Proof.
  revert s. induction a as [|c a IH]; intros s.
  - destruct s; cbn; split; eauto.
  - destruct s as [|d s]; cbn.
    + split; [discriminate|]. intros [b Hb]. discriminate.
    + destruct (Ascii.ascii_dec c d) as [->|Hne].
      * rewrite IH. split; intros [b Hb]; exists b; [now rewrite Hb | now injection Hb].
      * split; [discriminate|]. intros [b Hb]. injection Hb. congruence.
Qed.

(** [s.includes(sub)]: [sub] occurs somewhere in [s]. *)
Lemma includes_spec (sub s : string) :
  JS.includes sub s = true <-> exists a b, s = a +:+ sub +:+ b.
Proof.
  induction s as [|c s IH]; cbn [JS.includes].
  - rewrite prefix_spec. split.
    + intros [b Hb]. exists "", b. exact Hb.
    + intros (a & b & H). destruct a; [exists b; exact H | discriminate].
  - rewrite orb_true_iff, prefix_spec, IH. split.
    + intros [[b Hb]|(a & b & H)].
      * exists "", b. exact Hb.
      * exists (String c a), b. cbn. now rewrite H.
    + intros (a & b & H). destruct a as [|d a].
      * left. exists b. exact H.
      * right. exists a, b. cbn in H. now injection H.
Qed.

Lemma length_append (a b : string) :
  String.length (a +:+ b) = (String.length a + String.length b)%nat.
Proof.
  induction a as [|c a IH]; [reflexivity|].
  change (S (String.length (a +:+ b)) = S (String.length a + String.length b)).
  now rewrite IH.
Qed.

(** Skipping the rest of a separator. *)
Lemma split_from_skip (sep a b cur : string) :
  JS.split_from sep (String.length a) cur (a +:+ b) = JS.split_from sep 0 cur b.
Proof.
  induction a as [|c a IH]; [reflexivity|]. exact IH.
Qed.

(** The scan never returns the empty array. *)
Lemma split_from_cons (sep : string) (k : nat) (cur s : string) :
  exists x l, JS.split_from sep k cur s = x :: l.
Proof.
  revert k cur. induction s as [|c s IH]; intros k cur; cbn [JS.split_from].
  - eauto.
  - destruct k; [|apply IH]. destruct (String.prefix sep (String c s)); eauto.
Qed.

Lemma split_from_join (sep : string) (n : nat) :
  sep <> "" ->
  forall s cur, (String.length s <= n)%nat ->
    String.concat sep (JS.split_from sep 0 cur s) = cur +:+ s.
Proof.
  intros Hsep. induction n as [|n IH]; intros s cur Hn.
  - destruct s; [|cbn in Hn; lia]. cbn. now rewrite append_nil_r.
  - destruct s as [|c s]; [cbn; now rewrite append_nil_r|].
    cbn [JS.split_from].
    destruct (String.prefix sep (String c s)) eqn:Hp.
    + apply prefix_spec in Hp as [b Hb].
      destruct sep as [|c0 sep']; [congruence|].
      cbn in Hb. injection Hb as -> ->.
      replace (String.length (String c0 sep') - 1)%nat with (String.length sep')
        by (cbn; lia).
      rewrite split_from_skip.
      destruct (split_from_cons (String c0 sep') 0 "" b) as (x & l & Hx).
      pose proof (IH b "" ) as Hb. rewrite Hx in *.
      cbn [String.concat]. cbn [String.concat] in Hb. rewrite Hb.
      * reflexivity.
      * cbn in Hn. 
        rewrite length_append in Hn. lia.
    + rewrite IH by (cbn in Hn; lia). now rewrite append_assoc.
Qed.

(** [s.split(sep).join(sep) === s] *)
Lemma split_join (sep s : string) :
  sep <> "" -> String.concat sep (JS.split sep s) = s.
Proof.
  intros H. unfold JS.split. destruct sep; [congruence|].
  apply (split_from_join _ (String.length s)); [exact H | lia].
Qed.

Example split_proxy :
  JS.split "sip:" "sip:203.0.113.5:5080" = [""; "203.0.113.5:5080"].
Proof. reflexivity. Qed.

Example split_twice : JS.split "sip:" "asip:bsip:" = ["a"; "b"; ""].
Proof. reflexivity. Qed.

Example split_without_separator : JS.split "sip:" "10.0.0.1" = ["10.0.0.1"].
Proof. reflexivity. Qed.

Example split_empty : JS.split "sip:" "" = [""].
Proof. reflexivity. Qed.

Example strip_braces_id : JS.strip_braces "{ab-1}" = "ab-1".
Proof. reflexivity. Qed.

(** Without an occurrence of the separator the scan returns one piece. *)
Lemma split_from_absent (sep s cur : string) :
  JS.includes sep s = false -> JS.split_from sep 0 cur s = [cur +:+ s].
Proof.
  revert cur. induction s as [|c s IH]; intros cur H.
  - cbn [JS.split_from]. now rewrite append_nil_r.
  - cbn [JS.includes] in H. apply orb_false_iff in H as [Hp Hi].
    cbn [JS.split_from]. rewrite Hp, (IH _ Hi), append_assoc. reflexivity.
Qed.

Lemma proxyDomain_absent (c : RegistrationPayload) :
  proxy c = None
  \/ (exists p, proxy c = Some p /\ JS.includes "sip:" p = false) ->
  proxyDomain_of c = None.
Proof.
  unfold proxyDomain_of. intros [->|(p & -> & H)]; [reflexivity|].
  unfold JS.split. now rewrite (split_from_absent _ _ _ H).
Qed.

Lemma truthy_nonempty (s : string) : s <> "" -> JS.truthy (Some s) = true.
Proof. intros H. cbn. now apply negb_true_iff, String.eqb_neq. Qed.

(** What [makeCall] does once its two guards are passed. *)
Lemma App_makeCall_offer (env : AppState) (w : World) (h : Handle) (number : string) :
  sipPlugin env = Some h -> number <> "" ->
  let w' := App.makeCall env (Some number) w in
  sent w' = sent w
  /\ callState (state w') = "calling"
  /\ currentCall (state w') = Some number
  /\ exists options,
      pluginCalls w' = pluginCalls w ++
        [CreateOffer h options
           {| oc_plugin := h; oc_phoneNumber := number;
              oc_proxyDomain := proxyDomain_of (sipCredentials env);
              oc_userAgent := userAgent (sipCredentials env) |}].
Proof.
  intros Hp Hn. unfold App.makeCall.
  rewrite Hp, (truthy_nonempty _ Hn). cbn [negb JS.template].
  repeat split. eexists. reflexivity.
Qed.

Lemma Part0_makeCall_offer (env : AppState) (w : World) (h : Handle) (number : string) :
  sipPlugin env = Some h -> number <> "" ->
  let w' := Part0.makeCall env (Some number) w in
  sent w' = sent w
  /\ callState (state w') = "calling"
  /\ currentCall (state w') = Some number
  /\ exists options,
      pluginCalls w' = pluginCalls w ++
        [CreateOffer h options
           {| oc_plugin := h; oc_phoneNumber := number;
              oc_proxyDomain := proxyDomain_of (sipCredentials env);
              oc_userAgent := None |}].
Proof.
  intros Hp Hn. unfold Part0.makeCall.
  rewrite Hp, (truthy_nonempty _ Hn). cbn [negb JS.template].
  repeat split. eexists. reflexivity.
Qed.

(** The request sent when the offer is there. *)
Lemma App_offer_success_call (c : OfferClosure) (jsep : JSEP) (w : World) :
  exists message,
    pluginCalls (App.offer_success c jsep w)
    = pluginCalls w ++ [Send (oc_plugin c) message (Some jsep)]
    /\ JS.get "request" message = Some (JS.JStr "call")
    /\ JS.get "uri" message
       = Some (JS.JStr ("sip:" +:+ oc_phoneNumber c +:+ "@"
                        +:+ JS.template (oc_proxyDomain c)))
    /\ sent (App.offer_success c jsep w)
       = sent w ++ [(CALL_INITIATED (oc_phoneNumber c), 3)].
Proof.
  unfold App.offer_success. eexists. split; [|split; [|split]].
  - prim0. rewrite sendP_pluginCalls. reflexivity.
  - reflexivity.
  - reflexivity.
  - prim0. rewrite sendP_sent. reflexivity.
Qed.

Lemma Part0_offer_success_call (c : OfferClosure) (jsep : JSEP) (w : World) :
  exists message,
    pluginCalls (Part0.offer_success c jsep w)
    = pluginCalls w ++ [Send (oc_plugin c) message (Some jsep)]
    /\ JS.get "request" message = Some (JS.JStr "call")
    /\ JS.get "uri" message
       = Some (JS.JStr ("sip:" +:+ oc_phoneNumber c +:+ "@"
                        +:+ JS.template (oc_proxyDomain c)))
    /\ sent (Part0.offer_success c jsep w)
       = sent w ++ [(CALL_INITIATED (oc_phoneNumber c), 3)].
Proof.
  unfold Part0.offer_success. eexists. split; [|split; [|split]].
  - prim0. rewrite sendP_pluginCalls. reflexivity.
  - reflexivity.
  - reflexivity.
  - prim0. rewrite sendP_sent. reflexivity.
Qed.

(** C3.  With the proxy credential ["sip:203.0.113.5:5080"] stored and a
    plugin handle attached, [makeCall("5551234")] asks the plugin for an
    offer, and when the offer succeeds the [call] request sent to the plugin
    has the [uri] ["sip:5551234@203.0.113.5:5080"].  This holds in [App.tsx]
    and in [part_000]. *)
Theorem call_uri_example :
  forall (env : AppState) (w : World) (h : Handle) (jsep : JSEP),
    sipPlugin env = Some h ->
    proxy (sipCredentials env) = Some "sip:203.0.113.5:5080" ->
    (exists options c,
        pluginCalls (App.makeCall env (Some "5551234") w)
        = pluginCalls w ++ [CreateOffer h options c]
        /\ forall w', exists message,
            pluginCalls (App.offer_success c jsep w')
            = pluginCalls w' ++ [Send h message (Some jsep)]
            /\ JS.get "request" message = Some (JS.JStr "call")
            /\ JS.get "uri" message = Some (JS.JStr "sip:5551234@203.0.113.5:5080"))
    /\ (exists options c,
        pluginCalls (Part0.makeCall env (Some "5551234") w)
        = pluginCalls w ++ [CreateOffer h options c]
        /\ forall w', exists message,
            pluginCalls (Part0.offer_success c jsep w')
            = pluginCalls w' ++ [Send h message (Some jsep)]
            /\ JS.get "request" message = Some (JS.JStr "call")
            /\ JS.get "uri" message = Some (JS.JStr "sip:5551234@203.0.113.5:5080")).
Proof.
  intros env w h jsep Hp Hx.
  assert (Hd : proxyDomain_of (sipCredentials env) = Some "203.0.113.5:5080")
    by (unfold proxyDomain_of; rewrite Hx; reflexivity).
  assert (Hn : "5551234" <> "") by discriminate.
  split.
  - destruct (App_makeCall_offer env w h "5551234" Hp Hn) as (_ & _ & _ & o & Ho).
    eexists _, _. split; [exact Ho|]. intros w'.
    destruct (App_offer_success_call
                {| oc_plugin := h; oc_phoneNumber := "5551234";
                   oc_proxyDomain := proxyDomain_of (sipCredentials env);
                   oc_userAgent := userAgent (sipCredentials env) |} jsep w')
      as (msg & H1 & H2 & H3 & _).
    exists msg. cbn [oc_plugin oc_phoneNumber oc_proxyDomain] in *.
    rewrite Hd in H3. repeat split; assumption.
  - destruct (Part0_makeCall_offer env w h "5551234" Hp Hn) as (_ & _ & _ & o & Ho).
    eexists _, _. split; [exact Ho|]. intros w'.
    destruct (Part0_offer_success_call
                {| oc_plugin := h; oc_phoneNumber := "5551234";
                   oc_proxyDomain := proxyDomain_of (sipCredentials env);
                   oc_userAgent := None |} jsep w')
      as (msg & H1 & H2 & H3 & _).
    exists msg. cbn [oc_plugin oc_phoneNumber oc_proxyDomain] in *.
    rewrite Hd in H3. repeat split; assumption.
Qed.

Lemma call_uri_example_witness :
  exists options c,
    pluginCalls (App.makeCall registeredState (Some "5551234") registeredWorld)
    = pluginCalls registeredWorld ++ [CreateOffer 1%nat options c]
    /\ forall w', exists message,
        pluginCalls (App.offer_success c exampleJsep w')
        = pluginCalls w' ++ [Send 1%nat message (Some exampleJsep)]
        /\ JS.get "request" message = Some (JS.JStr "call")
        /\ JS.get "uri" message = Some (JS.JStr "sip:5551234@203.0.113.5:5080").
Proof.
  exact (proj1 (call_uri_example registeredState registeredWorld 1%nat
                  exampleJsep eq_refl eq_refl)).
Defined.

(** C10.  With a plugin handle attached and a non-empty number, when no
    proxy is stored, or the stored proxy does not contain ["sip:"],
    [makeCall] reports no error: it sends no host message, moves to
    [calling] and asks for the offer; when the offer succeeds the [call]
    request goes to the plugin with the [uri] ["sip:<number>@undefined"],
    and the host is told [CALL_INITIATED].
    This holds in [App.tsx] and in [part_000]. *)
Theorem call_without_proxy :
  forall (env : AppState) (w : World) (h : Handle) (number : string) (jsep : JSEP),
    sipPlugin env = Some h ->
    number <> "" ->
    proxy (sipCredentials env) = None
    \/ (exists p, proxy (sipCredentials env) = Some p
                  /\ JS.includes "sip:" p = false) ->
    (let w1 := App.makeCall env (Some number) w in
     sent w1 = sent w
     /\ callState (state w1) = "calling"
     /\ exists options c,
         pluginCalls w1 = pluginCalls w ++ [CreateOffer h options c]
         /\ oc_proxyDomain c = None
         /\ forall w', exists message,
             pluginCalls (App.offer_success c jsep w')
             = pluginCalls w' ++ [Send h message (Some jsep)]
             /\ JS.get "request" message = Some (JS.JStr "call")
             /\ JS.get "uri" message
                = Some (JS.JStr ("sip:" +:+ number +:+ "@undefined"))
             /\ sent (App.offer_success c jsep w')
                = sent w' ++ [(CALL_INITIATED number, 3)])
    /\ (let w1 := Part0.makeCall env (Some number) w in
        sent w1 = sent w
        /\ callState (state w1) = "calling"
        /\ exists options c,
            pluginCalls w1 = pluginCalls w ++ [CreateOffer h options c]
            /\ oc_proxyDomain c = None
            /\ forall w', exists message,
                pluginCalls (Part0.offer_success c jsep w')
                = pluginCalls w' ++ [Send h message (Some jsep)]
                /\ JS.get "request" message = Some (JS.JStr "call")
                /\ JS.get "uri" message
                   = Some (JS.JStr ("sip:" +:+ number +:+ "@undefined"))
                /\ sent (Part0.offer_success c jsep w')
                   = sent w' ++ [(CALL_INITIATED number, 3)]).
Proof.
  intros env w h number jsep Hp Hn Hx.
  pose proof (proxyDomain_absent _ Hx) as Hd.
  split.
  - destruct (App_makeCall_offer env w h number Hp Hn) as (Hs & Hc & _ & o & Ho).
    cbn zeta. split; [exact Hs|]. split; [exact Hc|].
    eexists _, _. split; [exact Ho|]. split; [exact Hd|]. intros w'.
    destruct (App_offer_success_call
                {| oc_plugin := h; oc_phoneNumber := number;
                   oc_proxyDomain := proxyDomain_of (sipCredentials env);
                   oc_userAgent := userAgent (sipCredentials env) |} jsep w')
      as (msg & H1 & H2 & H3 & H4).
    exists msg. cbn [oc_plugin oc_phoneNumber oc_proxyDomain] in *.
    rewrite Hd in H3. repeat split; assumption.
  - destruct (Part0_makeCall_offer env w h number Hp Hn) as (Hs & Hc & _ & o & Ho).
    cbn zeta. split; [exact Hs|]. split; [exact Hc|].
    eexists _, _. split; [exact Ho|]. split; [exact Hd|]. intros w'.
    destruct (Part0_offer_success_call
                {| oc_plugin := h; oc_phoneNumber := number;
                   oc_proxyDomain := proxyDomain_of (sipCredentials env);
                   oc_userAgent := None |} jsep w')
      as (msg & H1 & H2 & H3 & H4).
    exists msg. cbn [oc_plugin oc_phoneNumber oc_proxyDomain] in *.
    rewrite Hd in H3. repeat split; assumption.
Qed.

Lemma call_without_proxy_witness :
  let w1 := Part0.makeCall attachedState (Some "5551234") registeredWorld in
  sent w1 = sent registeredWorld
  /\ callState (state w1) = "calling"
  /\ exists options c,
      pluginCalls w1 = pluginCalls registeredWorld ++ [CreateOffer 1%nat options c]
      /\ oc_proxyDomain c = None
      /\ forall w', exists message,
          pluginCalls (Part0.offer_success c exampleJsep w')
          = pluginCalls w' ++ [Send 1%nat message (Some exampleJsep)]
          /\ JS.get "request" message = Some (JS.JStr "call")
          /\ JS.get "uri" message = Some (JS.JStr "sip:5551234@undefined")
          /\ sent (Part0.offer_success c exampleJsep w')
             = sent w' ++ [(CALL_INITIATED "5551234", 3)].
Proof.
  assert (Hn : "5551234" <> "") by discriminate.
  exact (proj2 (call_without_proxy attachedState registeredWorld 1%nat "5551234"
                  exampleJsep eq_refl Hn (or_introl eq_refl))).
Defined.

(** ** C4 and C9: what a plugin message does to the call state *)

Lemma listener_effect_deps (before : AppState) (w : World) :
  sipPlugin (state w) = sipPlugin before ->
  isRegistered (state w) = isRegistered before ->
  currentCall (state w) = currentCall before ->
  credentialsGen (state w) = credentialsGen before ->
  listener_effect before w = w.
Proof.
  intros H1 H2 H3 H4. unfold listener_effect, listener_deps_changed.
  rewrite H1, H2, H3, H4.
  rewrite !bool_decide_eq_true_2 by reflexivity.
  rewrite Bool.eqb_reflx, Nat.eqb_refl. reflexivity.
Qed.

Lemma App_handleSipMessage_error (env : AppState) (msg : JanusMessage)
    (jsep : option JSEP) (w : World) :
  JS.truthy (error msg) = true ->
  let w' := App.handleSipMessage env msg jsep w in
  sent w' = sent w ++ [(SIP_ERROR_of msg, 3)]
  /\ callState (state w') = "error"
  /\ pluginCalls w' = pluginCalls w
  /\ sipPlugin (state w') = sipPlugin (state w)
  /\ isRegistered (state w') = isRegistered (state w)
  /\ currentCall (state w') = currentCall (state w)
  /\ credentialsGen (state w') = credentialsGen (state w).
Proof.
  intros He. unfold App.handleSipMessage. rewrite He.
  destruct (JS.truthy (result_event msg)); prim0; sent_simpl; repeat split.
Qed.

Lemma Part0_handleSipMessage_error (env : AppState) (msg : JanusMessage)
    (jsep : option JSEP) (w : World) :
  JS.truthy (error msg) = true ->
  let w' := Part0.handleSipMessage env msg jsep w in
  sent w' = sent w ++ [(SIP_ERROR_of msg, 3)]
  /\ callState (state w') = "error"
  /\ pluginCalls w' = pluginCalls w
  /\ sipPlugin (state w') = sipPlugin (state w)
  /\ isRegistered (state w') = isRegistered (state w)
  /\ currentCall (state w') = currentCall (state w)
  /\ credentialsGen (state w') = credentialsGen (state w).
Proof.
  intros He. unfold Part0.handleSipMessage. rewrite He.
  destruct (JS.truthy (result_event msg)); prim0; sent_simpl; repeat split.
Qed.

(** C4, as it holds in [App.tsx] 1-895 and in [part_000].  For every plugin
    message whose [error] field is populated (a non-empty string), whatever
    closure [handleSipMessage] runs with, it sends exactly one host message,
    the [SIP_ERROR] carrying that error, makes no plugin call and leaves the
    call state at ["error"]; the render that follows sends nothing more. *)
Theorem sip_error_message :
  forall (env : AppState) (msg : JanusMessage) (jsep : option JSEP) (w : World),
    JS.truthy (error msg) = true ->
    (let w' := App.handleSipMessage env msg jsep w in
     sent w' = sent w ++ [(SIP_ERROR_of msg, 3)]
     /\ callState (state w') = "error"
     /\ pluginCalls w' = pluginCalls w)
    /\ (let w' := Part0.handleSipMessage env msg jsep w in
        sent w' = sent w ++ [(SIP_ERROR_of msg, 3)]
        /\ callState (state w') = "error"
        /\ pluginCalls w' = pluginCalls w)
    /\ (let w' := App.step w (App.SipMsg msg jsep) in
        sent w' = sent w ++ [(SIP_ERROR_of msg, 3)]
        /\ callState (state w') = "error")
    /\ (let w' := Part0.step w (Part0.SipMsg msg jsep) in
        sent w' = sent w ++ [(SIP_ERROR_of msg, 3)]
        /\ callState (state w') = "error").
Proof.
  intros env msg jsep w He.
  pose proof (App_handleSipMessage_error env msg jsep w He) as (A1 & A2 & A3 & _).
  pose proof (Part0_handleSipMessage_error env msg jsep w He) as (P1 & P2 & P3 & _).
  pose proof (App_handleSipMessage_error App.mountEnv msg jsep w He)
    as (B1 & B2 & _ & B4 & B5 & B6 & B7).
  pose proof (Part0_handleSipMessage_error Part0.mountEnv msg jsep w He)
    as (Q1 & Q2 & _ & Q4 & Q5 & Q6 & Q7).
  repeat split; try assumption.
  1-2: unfold App.step; cbn [App.handler];
       rewrite listener_effect_deps by assumption; assumption.
  1-2: unfold Part0.step; cbn [Part0.handler];
       rewrite listener_effect_deps by assumption; assumption.
Qed.

Lemma sip_error_message_witness :
  sent (App.step registeredWorld (App.SipMsg (error_msg "Missing session") None))
  = [(SIP_ERROR_of (error_msg "Missing session"), 3)]
  /\ callState (state (Part0.step registeredWorld
                         (Part0.SipMsg (error_msg "Missing session") None)))
     = "error".
Proof.
  pose proof (sip_error_message registeredState (error_msg "Missing session")
                None registeredWorld eq_refl) as (_ & _ & (HA & _) & (_ & HP)).
  split; [exact HA | exact HP].
Defined.

(** The legacy copy never looks at [msg.error]: the same message goes out
    as one [SIP_STATUS] with status ["unknown"], and the call state stays. *)
Lemma legacy_ignores_error :
  let msg := error_msg "Missing session" in
  let w' := Legacy.handleSipMessage (state registeredWorld) msg None
              registeredWorld in
  (sent w' =
     [({| type := "SIP_STATUS";
          payload := [("status", JS.JStr "unknown");
                      ("data", msg_value msg);
                      ("callState", JS.JStr "registered")] |}, 3)]
   /\ callState (state w') = "registered")
  /\ ~ (sent w' = sent registeredWorld ++ [(SIP_ERROR_of msg, 3)]
        /\ callState (state w') = "error").
Proof.
  split; [split; reflexivity|].
  intros (_ & H). vm_compute in H. discriminate H.
Qed.

Ltac same_name :=
  repeat match goal with
         | H : String.eqb ?e _ = true |- _ => apply String.eqb_eq in H; subst e
         end;
  try discriminate; try reflexivity.

Lemma App_event_state (env : AppState) (msg : JanusMessage)
    (jsep : option JSEP) (w : World) (e : string) :
  result_event msg = Some e -> e <> "" -> JS.truthy (error msg) = false ->
  callState (state (App.handleSipMessage env msg jsep w))
  = if String.eqb e "hangup" then "ended" else e.
Proof.
  intros He Hn Herr. unfold App.handleSipMessage.
  rewrite Herr, He, (truthy_nonempty _ Hn).
  unfold result_event in He. destruct (result msg) as [r|]; [|discriminate].
  rewrite He, (truthy_nonempty _ Hn). cbn [JS.template].
  unfold App.on_event, App.handleRemoteJsep.
  frame. all: same_name.
Qed.

Lemma Part0_event_state (env : AppState) (msg : JanusMessage)
    (jsep : option JSEP) (w : World) (e : string) :
  result_event msg = Some e -> e <> "" -> JS.truthy (error msg) = false ->
  callState (state (Part0.handleSipMessage env msg jsep w)) = e.
Proof.
  intros He Hn Herr. unfold Part0.handleSipMessage.
  rewrite Herr, He, (truthy_nonempty _ Hn). cbn [JS.template].
  frame.
Qed.

(** C9, as the code has it.  For every plugin message with a populated
    event name and no error, [handleSipMessage] of [part_000] leaves the
    call state at exactly that name, whatever it is; so does the one of
    [App.tsx] for every name but ["hangup"], for which it leaves ["ended"].
    No name is checked against the [CallState] variants. *)
Theorem event_name_is_call_state :
  forall (env : AppState) (msg : JanusMessage) (jsep : option JSEP) (w : World)
         (e : string),
    result_event msg = Some e -> e <> "" -> JS.truthy (error msg) = false ->
    callState (state (Part0.handleSipMessage env msg jsep w)) = e
    /\ (e <> "hangup" ->
        callState (state (App.handleSipMessage env msg jsep w)) = e)
    /\ (e = "hangup" ->
        callState (state (App.handleSipMessage env msg jsep w)) = "ended").
Proof.
  intros env msg jsep w e He Hn Herr.
  split; [now apply Part0_event_state|].
  rewrite (App_event_state env msg jsep w e He Hn Herr).
  split.
  - intros Hh. apply String.eqb_neq in Hh. now rewrite Hh.
  - intros ->. reflexivity.
Qed.

Lemma event_name_is_call_state_witness :
  callState (state (Part0.handleSipMessage registeredState (event_msg "hangup")
                      None registeredWorld)) = "hangup"
  /\ callState (state (App.handleSipMessage registeredState
                         (event_msg "proceeding") None registeredWorld))
     = "proceeding".
Proof.
  assert (H1 : "hangup" <> "") by discriminate.
  assert (H2 : "proceeding" <> "") by discriminate.
  assert (H3 : "proceeding" <> "hangup") by discriminate.
  split.
  - exact (proj1 (event_name_is_call_state registeredState (event_msg "hangup")
                    None registeredWorld "hangup" eq_refl H1 eq_refl)).
  - exact (proj1 (proj2 (event_name_is_call_state registeredState
                           (event_msg "proceeding") None registeredWorld
                           "proceeding" eq_refl H2 eq_refl)) H3).
Defined.

(** In [App.tsx] a [hangup] event does not become the call state. *)
Lemma hangup_is_not_call_state :
  let msg := event_msg "hangup" in
  JS.truthy (result_event msg) = true
  /\ JS.truthy (error msg) = false
  /\ callState (state (App.handleSipMessage registeredState msg None
                         registeredWorld)) = "ended"
  /\ callState (state (App.handleSipMessage registeredState msg None
                         registeredWorld)) <> "hangup".
Proof. repeat split. vm_compute. discriminate. Qed.

(** ** C5: the track registry *)

Lemma filter_none {A} (P : A -> Prop) `{!forall x, Decision (P x)} (l : list A) :
  (forall x, x ∈ l -> ~ P x) -> filter P l = [].
Proof.
  induction l as [|a l IH]; intros Hl; [reflexivity|].
  rewrite filter_cons_False by (apply Hl; left).
  apply IH. intros x Hx. apply Hl. now right.
Qed.

(** A key that is bound has one entry. *)
Lemma entries_at_Some (k : string) (m : gmap string MediaStream) (v : MediaStream) :
  m !! k = Some v -> entries_at k m = 1%nat.
Proof.
  intros H. unfold entries_at.
  rewrite <-(insert_delete_id m k v H).
  rewrite map_to_list_insert by apply lookup_delete_eq.
  rewrite filter_cons_True by reflexivity.
  rewrite filter_none; [reflexivity|].
  intros [k' v'] Hin Hk. cbn in Hk. subst k'.
  apply elem_of_map_to_list in Hin. rewrite lookup_delete_eq in Hin. discriminate.
Qed.

Lemma onlocaltrack_removed (env : AppState) (w : World) (t : MediaStreamTrack) :
  localTracks (state (App.onlocaltrack env t false w))
  = delete (JS.strip_braces (id t)) (localTracks (state w)).
Proof. unfold App.onlocaltrack. cbn [negb]. frame. Qed.

Lemma onlocaltrack_added (env : AppState) (w : World) (t : MediaStreamTrack) :
  localTracks (state (App.onlocaltrack env t true w))
  = <[JS.strip_braces (id t) := {| getTracks := [t] |}]> (localTracks (state w)).
Proof. unfold App.onlocaltrack. cbn [negb]. frame. Qed.

Lemma onremotetrack_removed (w : World) (t : MediaStreamTrack) (mid : string) :
  remoteTracks (state (App.onremotetrack t mid false w))
  = delete mid (remoteTracks (state w)).
Proof. unfold App.onremotetrack. cbn [negb]. frame. Qed.

Lemma onremotetrack_added (w : World) (t : MediaStreamTrack) (mid : string) :
  remoteTracks (state (App.onremotetrack t mid true w))
  = <[mid := {| getTracks := [t] |}]> (remoteTracks (state w)).
Proof. unfold App.onremotetrack. cbn [negb]. frame. Qed.

(** The keys of [localTracks] never carry braces, so a removal also leaves
    nothing under the raw track id. *)
Lemma strip_braces_idem (s : string) :
  JS.strip_braces (JS.strip_braces s) = JS.strip_braces s.
Proof.
  induction s as [|c s IH]; [reflexivity|].
  cbn [JS.strip_braces].
  destruct (Ascii.eqb c "{" || Ascii.eqb c "}")%char eqn:E; [exact IH|].
  cbn [JS.strip_braces]. rewrite E, IH. reflexivity.
Qed.

Ltac same_tracks w Hw :=
  match goal with
  | |- normal_keys (localTracks (state ?x)) =>
      replace (localTracks (state x)) with (localTracks (state w)); [exact Hw|]
  end.

Lemma App_handler_local_keys (e : App.Event) (w : World) :
  normal_keys (localTracks (state w)) ->
  normal_keys (localTracks (state (App.handler e w))).
Proof.
  intros Hw.
  destruct e as [| | | | | | | | | | | | |t on| |
                 | | | | | | | | | | |]; cbn [App.handler].
  14:{ destruct on.
       - rewrite onlocaltrack_added. intros k [v Hk].
         destruct (decide (k = JS.strip_braces (id t))) as [->|Hne].
         + apply strip_braces_idem.
         + rewrite lookup_insert_ne in Hk by congruence. apply Hw. eauto.
       - rewrite onlocaltrack_removed. intros k [v Hk].
         apply lookup_delete_Some in Hk as [_ Hk]. apply Hw. eauto. }
  15:{ unfold App.oncleanup. frame. intros k [v Hk].
       rewrite lookup_empty in Hk. discriminate. }
  all: same_tracks w Hw.
  - unfold App.handleWebViewMessage, handleRegistration, handleUnregister,
      App.makeCall. frame.
  - unfold App.handleSipMessage, App.on_event, App.handleRemoteJsep. frame.
  - unfold App.offer_success. frame.
  - unfold App.offer_error. frame.
  - unfold App.jsep_success. frame.
  - unfold App.jsep_error. frame.
  - unfold init_callback. frame.
  - unfold session_success, attachSipPlugin. frame.
  - unfold session_error. frame.
  - unfold session_destroyed. frame.
  - unfold attach_success. frame.
  - unfold attach_error. frame.
  - unfold App.consentDialog. frame.
  - unfold App.onremotetrack. frame.
  - unfold webrtcState. frame.
  - unfold mediaState. frame.
  - unfold slowLink. frame.
  - unfold iceState. frame.
  - unfold detach_success. frame.
  - unfold detach_error. frame.
  - unfold fire, initializeJanus. frame.
  - unfold App.click_makeCall, App.makeCall. frame.
  - unfold App.click_register, handleRegistration. frame.
  - unfold unmount. frame.
  - frame.
Qed.

Lemma listener_effect_state (before : AppState) (w : World) :
  state (listener_effect before w) = state w.
Proof.
  unfold listener_effect. case_match; [|reflexivity].
  unfold send. now rewrite sendP_state.
Qed.

Lemma App_run_local_keys (es : list App.Event) (w : World) :
  normal_keys (localTracks (state w)) ->
  normal_keys (localTracks (state (App.run es w))).
Proof.
  revert w. induction es as [|e es IH]; intros w Hw; [exact Hw|].
  cbn. apply IH. unfold App.step. rewrite listener_effect_state.
  now apply App_handler_local_keys.
Qed.

Lemma start_local_keys (win : Window) :
  normal_keys (localTracks (state (App.start win))).
Proof.
  unfold App.start, mount, initializeJanus.
  replace (localTracks (state _)) with (∅ : gmap string MediaStream).
  - intros k [v Hk]. rewrite lookup_empty in Hk. discriminate.
  - frame.
Qed.

Lemma reachable_removed (win : Window) (es : list App.Event) (t : MediaStreamTrack) :
  let w := App.run es (App.start win) in
  localTracks (state (App.step w (App.LocalTrack t false))) !! id t = None.
Proof.
  intros w.
  pose proof (App_run_local_keys es _ (start_local_keys win)) as Hn. fold w in Hn.
  unfold App.step. cbn [App.handler]. rewrite listener_effect_state.
  rewrite onlocaltrack_removed.
  destruct (decide (id t = JS.strip_braces (id t))) as [E|E].
  - rewrite E at 1. apply lookup_delete_eq.
  - rewrite lookup_delete_ne by congruence.
    destruct (localTracks (state w) !! id t) eqn:L; [|reflexivity].
    exfalso. apply E. symmetry. apply Hn. eauto.
Qed.

(** C5.  In [App.tsx], for every registry and every track: a track-removed
    event deletes the entry under the track's key (the track id without
    braces for [localTracks], the [mid] for [remoteTracks]) and touches no
    other key; and after added, removed, added again under the same key the
    registry holds exactly one entry under that key, the stream of the
    track added last.  In a registry the component has built no key carries
    braces, so after the removal nothing is bound to the raw track id
    either. *)
Theorem track_registry :
  forall (env : AppState) (w : World) (t t' : MediaStreamTrack) (mid : string),
    JS.strip_braces (id t') = JS.strip_braces (id t) ->
    let k := JS.strip_braces (id t) in
    (let w1 := App.onlocaltrack env t false w in
     localTracks (state w1) !! k = None
     /\ forall k', k' <> k ->
         localTracks (state w1) !! k' = localTracks (state w) !! k')
    /\ (let w1 := App.onremotetrack t mid false w in
        remoteTracks (state w1) !! mid = None
        /\ forall k', k' <> mid ->
            remoteTracks (state w1) !! k' = remoteTracks (state w) !! k')
    /\ (let w3 := App.onlocaltrack env t' true
                    (App.onlocaltrack env t false
                       (App.onlocaltrack env t true w)) in
        localTracks (state w3) !! k = Some {| getTracks := [t'] |}
        /\ entries_at k (localTracks (state w3)) = 1%nat)
    /\ (let w3 := App.onremotetrack t' mid true
                    (App.onremotetrack t mid false
                       (App.onremotetrack t mid true w)) in
        remoteTracks (state w3) !! mid = Some {| getTracks := [t'] |}
        /\ entries_at mid (remoteTracks (state w3)) = 1%nat)
    /\ (forall (win : Window) (es : list App.Event),
        let w0 := App.run es (App.start win) in
        localTracks (state (App.step w0 (App.LocalTrack t false))) !! id t = None).
Proof.
  intros env w t t' mid Hk k. cbn zeta.
  rewrite !onlocaltrack_added, !onlocaltrack_removed,
    !onremotetrack_added, !onremotetrack_removed.
  rewrite Hk. fold k.
  split; [|split; [|split; [|split]]].
  - split; [apply lookup_delete_eq|].
    intros k' Hne. now apply lookup_delete_ne.
  - split; [apply lookup_delete_eq|].
    intros k' Hne. now apply lookup_delete_ne.
  - split; [apply lookup_insert_eq|].
    eapply entries_at_Some, lookup_insert_eq.
  - split; [apply lookup_insert_eq|].
    eapply entries_at_Some, lookup_insert_eq.
  - intros win es. apply reachable_removed.
Qed.

Lemma track_registry_witness :
  let w3 := App.run [App.LocalTrack audioTrack true;
                     App.LocalTrack audioTrack false;
                     App.LocalTrack videoTrack true] (App.start noBridge) in
  localTracks (state w3) !! "5d1e-a0" = Some {| getTracks := [videoTrack] |}
  /\ entries_at "5d1e-a0" (localTracks (state w3)) = 1%nat.
Proof.
  exact (proj1 (proj2 (proj2 (
    (track_registry App.mountEnv (App.start noBridge) audioTrack videoTrack
       "0" eq_refl))))).
Defined.

(** ** C7: the retries of a delivery *)

Lemma fire_last_app (w : World) (ts : list Timer) (t : Timer) :
  timers w = ts ++ [t] ->
  fire_last w =
  match callback t with
  | Resend message retryCount =>
      sendToWebViewParent message retryCount (set_timers ts w)
  | Reinitialize => initializeJanus (set_timers ts w)
  end.
Proof.
  intros H. unfold fire_last, fire. rewrite H.
  rewrite length_app. cbn [length].
  replace (length ts + 1 - 1)%nat with (length ts) by lia.
  rewrite lookup_app_r by lia. rewrite Nat.sub_diag. cbn [lookup list_lookup].
  rewrite take_app_length.
  rewrite drop_ge by (rewrite length_app; cbn; lia).
  rewrite app_nil_r. reflexivity.
Qed.

Lemma send_throws (m : WebViewMessage) (rc : Z) (w : World) :
  ReactNativeWebView (window w) = Some Throws ->
  let w' := sendToWebViewParent m rc w in
  sent w' = sent w ++ [(m, rc)]
  /\ timers w' = timers w ++ retry_of m rc
  /\ timeouts w' = timeouts w ++ retry_of m rc
  /\ posted w' = posted w
  /\ window w' = window w.
Proof.
  intros H. unfold retry_of. prim. rewrite H.
  destruct (0 <? rc); cbn; rewrite ?app_nil_r; repeat split.
Qed.

Lemma resend_fires (m : WebViewMessage) (rc : Z) (w : World) (ts : list Timer) :
  ReactNativeWebView (window w) = Some Throws ->
  timers w = ts ++ [{| callback := Resend m rc; delay := 1000 |}] ->
  let w' := fire_last w in
  sent w' = sent w ++ [(m, rc)]
  /\ timers w' = ts ++ retry_of m rc
  /\ timeouts w' = timeouts w ++ retry_of m rc
  /\ posted w' = posted w
  /\ window w' = window w.
Proof.
  intros H Ht. cbn zeta. rewrite (fire_last_app w _ _ Ht). cbn [callback].
  apply (send_throws m rc (set_timers ts w)). exact H.
Qed.

(** Whatever the bridge does, one call sets at most one timer: the retry of
    the same message with the budget one lower, after 1000 ms, and only
    while the budget is positive. *)
Lemma send_schedules (m : WebViewMessage) (rc : Z) (w : World) :
  timeouts (sendToWebViewParent m rc w) = timeouts w
  \/ (0 < rc
      /\ timeouts (sendToWebViewParent m rc w)
         = timeouts w ++ [{| callback := Resend m (rc - 1); delay := 1000 |}]).
Proof.
  prim. repeat case_match; auto.
  right. split; [now apply Z.ltb_lt | reflexivity].
Qed.

(** No chain of retries is longer than the budget it starts with. *)
Lemma retries_from_bound (m : WebViewMessage) (rc : Z) (n : nat) :
  retries_from m rc n -> Z.of_nat n <= Z.max rc 0.
Proof.
  induction 1 as [rc|rc n w Hw _ IH]; [lia|].
  destruct (send_schedules m rc w) as [E|[Hrc _]]; [contradiction|]. lia.
Qed.

(** The bound is reached when the bridge keeps throwing. *)
Lemma retries_from_throwing (m : WebViewMessage) : retries_from m 3 3.
Proof.
  repeat (apply (retries_next m _ _ (initialWorld throwingBridge));
          [vm_compute; discriminate|]).
  apply retries_none.
Qed.

(** C7.  When posting to the host container throws, [sendToWebViewParent]
    is run again for the same message after 1000 ms with the budget 2, then
    1, then 0: three retries after the first attempt, the same message
    object each time; the last failure sets no timer, nothing is delivered
    and the message is dropped.  Whatever the bridge does, a send starting
    with the budget 3 is followed by at most 3 retries.  ([App.tsx] and
    [part_000] share the function.) *)
Theorem delivery_retries :
  forall (m : WebViewMessage) (w : World),
    ReactNativeWebView (window w) = Some Throws ->
    let w0 := sendToWebViewParent m 3 w in
    let w3 := fire_last (fire_last (fire_last w0)) in
    sent w3 = sent w ++ [(m, 3); (m, 2); (m, 1); (m, 0)]
    /\ timeouts w3 = timeouts w ++
         [{| callback := Resend m 2; delay := 1000 |};
          {| callback := Resend m 1; delay := 1000 |};
          {| callback := Resend m 0; delay := 1000 |}]
    /\ timers w3 = timers w
    /\ posted w3 = posted w
    /\ (forall rc w',
          timeouts (sendToWebViewParent m rc w') = timeouts w'
          \/ (0 < rc
              /\ timeouts (sendToWebViewParent m rc w')
                 = timeouts w' ++ [{| callback := Resend m (rc - 1); delay := 1000 |}]))
    /\ (forall n, retries_from m 3 n -> (n <= 3)%nat).
Proof.
  intros m w H w0 w3.
  destruct (send_throws m 3 w H) as (S0 & T0 & O0 & P0 & W0).
  fold w0 in S0, T0, O0, P0, W0.
  rewrite <- W0 in H.
  destruct (resend_fires m 2 w0 _ H T0) as (S1 & T1 & O1 & P1 & W1).
  rewrite <- W1 in H.
  destruct (resend_fires m 1 _ _ H T1) as (S2 & T2 & O2 & P2 & W2).
  rewrite <- W2 in H.
  destruct (resend_fires m 0 _ _ H T2) as (S3 & T3 & O3 & P3 & W3).
  subst w3. rewrite S3, S2, S1, S0, O3, O2, O1, O0, T3, P3, P2, P1, P0.
  cbn. rewrite <- !app_assoc, ?app_nil_r. repeat split.
  - apply send_schedules.
  - intros n Hn. apply retries_from_bound in Hn. lia.
Qed.

Lemma delivery_retries_witness :
  let w0 := sendToWebViewParent CALL_ERROR_not_registered 3
              (initialWorld throwingBridge) in
  let w3 := fire_last (fire_last (fire_last w0)) in
  sent w3 = [(CALL_ERROR_not_registered, 3); (CALL_ERROR_not_registered, 2);
             (CALL_ERROR_not_registered, 1); (CALL_ERROR_not_registered, 0)]
  /\ timers w3 = []
  /\ posted w3 = [].
Proof.
  pose proof (delivery_retries CALL_ERROR_not_registered
                (initialWorld throwingBridge) eq_refl) as (H1 & _ & H3 & H4 & _ & _).
  split; [exact H1|]. split; [exact H3 | exact H4].
Defined.

(** ** C6: the retries of the session creation *)

Lemma sendP_retries (m : WebViewMessage) (rc : Z) (w : World) :
  filter (fun t => is_reinitialize t = true) (timeouts (sendToWebViewParent m rc w))
  = filter (fun t => is_reinitialize t = true) (timeouts w).
Proof.
  prim. bridge. rewrite filter_app.
  rewrite filter_cons_False by (cbn; discriminate).
  rewrite filter_nil. apply app_nil_r.
Qed.

Lemma sendP_pending (m : WebViewMessage) (rc : Z) (w : World) :
  filter (fun t => is_reinitialize t = true) (timers (sendToWebViewParent m rc w))
  = filter (fun t => is_reinitialize t = true) (timers w).
Proof.
  prim. bridge. rewrite filter_app.
  rewrite filter_cons_False by (cbn; discriminate).
  rewrite filter_nil. apply app_nil_r.
Qed.

Ltac frame_retries :=
  repeat first [ progress prim0 | rewrite !sendP_retries
               | rewrite !sendP_reconnectAttempts | done | case_match ].

Lemma App_handler_retries (e : App.Event) (w : World) :
  App.is_session_success e = false -> App.is_session_error e = false ->
  retries_scheduled (App.handler e w) = retries_scheduled w
  /\ reconnectAttempts (App.handler e w) = reconnectAttempts w.
Proof.
  intros Hs He. unfold retries_scheduled.
  destruct e; try discriminate; cbn [App.handler].
  - unfold App.handleWebViewMessage, handleRegistration, handleUnregister,
      App.makeCall. split; frame_retries.
  - unfold App.handleSipMessage, App.on_event, App.handleRemoteJsep.
    split; frame_retries.
  - unfold App.offer_success. split; frame_retries.
  - unfold App.offer_error. split; frame_retries.
  - unfold App.jsep_success. split; frame_retries.
  - unfold App.jsep_error. split; frame_retries.
  - unfold init_callback. split; frame_retries.
  - unfold session_destroyed. split; frame_retries.
  - unfold attach_success. split; frame_retries.
  - unfold attach_error. split; frame_retries.
  - unfold App.consentDialog. split; frame_retries.
  - unfold App.onlocaltrack. split; frame_retries.
  - unfold App.onremotetrack. split; frame_retries.
  - unfold App.oncleanup. split; frame_retries.
  - unfold webrtcState. split; frame_retries.
  - unfold mediaState. split; frame_retries.
  - unfold slowLink. split; frame_retries.
  - unfold iceState. split; frame_retries.
  - unfold detach_success. split; frame_retries.
  - unfold detach_error. split; frame_retries.
  - unfold fire, initializeJanus. split; frame_retries.
  - unfold App.click_makeCall, App.makeCall. split; frame_retries.
  - unfold App.click_register, handleRegistration. split; frame_retries.
  - unfold unmount. split; frame_retries.
  - split; frame_retries.
Qed.

Lemma Part0_handler_retries (e : Part0.Event) (w : World) :
  Part0.is_session_success e = false -> Part0.is_session_error e = false ->
  retries_scheduled (Part0.handler e w) = retries_scheduled w
  /\ reconnectAttempts (Part0.handler e w) = reconnectAttempts w.
Proof.
  intros Hs He. unfold retries_scheduled.
  destruct e; try discriminate; cbn [Part0.handler].
  - unfold Part0.handleWebViewMessage, handleRegistration, handleUnregister,
      Part0.makeCall. split; frame_retries.
  - unfold Part0.handleSipMessage. split; frame_retries.
  - unfold Part0.offer_success. split; frame_retries.
  - unfold Part0.offer_error. split; frame_retries.
  - unfold Part0.jsep_success. split; frame_retries.
  - unfold Part0.jsep_error. split; frame_retries.
  - unfold init_callback. split; frame_retries.
  - unfold session_destroyed. split; frame_retries.
  - unfold attach_success. split; frame_retries.
  - unfold attach_error. split; frame_retries.
  - unfold Part0.consentDialog. split; frame_retries.
  - unfold Part0.onlocaltrack. split; frame_retries.
  - unfold Part0.onremotetrack. split; frame_retries.
  - unfold Part0.oncleanup. split; frame_retries.
  - unfold webrtcState. split; frame_retries.
  - unfold mediaState. split; frame_retries.
  - unfold slowLink. split; frame_retries.
  - unfold iceState. split; frame_retries.
  - unfold detach_success. split; frame_retries.
  - unfold detach_error. split; frame_retries.
  - unfold fire, initializeJanus. split; frame_retries.
  - unfold unmount. split; frame_retries.
  - split; frame_retries.
Qed.

(** The [error] callback: one send, then the retry if the count allows. *)
Lemma session_error_unfold (err : string) (w : World) :
  exists w1,
    reconnectAttempts w1 = reconnectAttempts w
    /\ retries_scheduled w1 = retries_scheduled w
    /\ retries_pending w1 = retries_pending w
    /\ session_error err w =
       if reconnectAttempts w <? 3
       then setTimeout Reinitialize 5000
              (set_reconnectAttempts (reconnectAttempts w + 1) w1)
       else w1.
Proof.
  unfold session_error, seq, MAX_RECONNECT_ATTEMPTS, send.
  eexists (sendToWebViewParent _ 3 (setCallState "error" w)).
  split; [|split; [|split]]; [| | |rewrite !sendP_reconnectAttempts; reflexivity].
  - now rewrite sendP_reconnectAttempts.
  - unfold retries_scheduled. now rewrite sendP_retries.
  - unfold retries_pending. now rewrite sendP_pending.
Qed.

Lemma session_error_retries (err : string) (w : World) :
  let w' := session_error err w in
  (reconnectAttempts w < 3 ->
   reconnectAttempts w' = reconnectAttempts w + 1
   /\ retries_scheduled w' = retries_scheduled w ++ [retryTimer]
   /\ retries_pending w' = retries_pending w ++ [retryTimer])
  /\ (3 <= reconnectAttempts w ->
      reconnectAttempts w' = reconnectAttempts w
      /\ retries_scheduled w' = retries_scheduled w
      /\ retries_pending w' = retries_pending w).
Proof.
  destruct (session_error_unfold err w) as (w1 & H1 & H2 & H3 & ->).
  split; intros H.
  - apply Z.ltb_lt in H. rewrite H. split; [reflexivity|].
    unfold retries_scheduled, retries_pending in *. cbn.
    rewrite !filter_app, H2, H3. split; reflexivity.
  - apply Z.ltb_ge in H. rewrite H. auto.
Qed.

Lemma listener_effect_retries (before : AppState) (w : World) :
  retries_scheduled (listener_effect before w) = retries_scheduled w
  /\ reconnectAttempts (listener_effect before w) = reconnectAttempts w.
Proof.
  unfold listener_effect, retries_scheduled. case_match; [|done].
  unfold send. now rewrite sendP_retries, sendP_reconnectAttempts.
Qed.

Lemma start_retries (win : Window) :
  reconnectAttempts (App.start win) = 0
  /\ retries_scheduled (App.start win) = [].
Proof.
  unfold App.start, mount, initializeJanus, retries_scheduled.
  split; frame_retries.
Qed.

(** After [n] failures and no success, [min n 3] retries have been set. *)
Lemma App_run_retries (es : list App.Event) (w : World) (n : nat) :
  forallb (fun e => negb (App.is_session_success e)) es = true ->
  reconnectAttempts w = Z.of_nat (Nat.min n 3) ->
  retries_scheduled w = replicate (Nat.min n 3) retryTimer ->
  let w' := App.run es w in
  reconnectAttempts w' = Z.of_nat (Nat.min (n + App.failures es) 3)
  /\ retries_scheduled w' = replicate (Nat.min (n + App.failures es) 3) retryTimer.
Proof.
  revert w n. induction es as [|e es IH]; intros w n Hs Hr Ht.
  - cbn. unfold App.failures. cbn. rewrite Nat.add_0_r. auto.
  - cbn in Hs. apply andb_true_iff in Hs as [Hs Hes]. apply negb_true_iff in Hs.
    cbn zeta. cbn [App.run fold_left]. fold (App.run es (App.step w e)).
    destruct (App.is_session_error e) eqn:He.
    + destruct e as [| | | | | | | |err| | | | | | | | | | | | | | | | | |];
        try discriminate.
      replace (n + App.failures (App.SessionError err :: es))%nat
        with (S n + App.failures es)%nat.
      2:{ unfold App.failures. rewrite filter_cons_True by reflexivity. cbn. lia. }
      unfold App.step. cbn [App.handler].
      destruct (listener_effect_retries (state w) (session_error err w)) as [L1 L2].
      destruct (session_error_retries err w) as [S1 S2].
      apply IH; [exact Hes| |].
      * rewrite L2. destruct (decide (n < 3)%nat).
        -- destruct S1 as (-> & _); [lia|]. rewrite Hr. lia.
        -- destruct S2 as (-> & _); [lia|]. rewrite Hr. lia.
      * rewrite L1. destruct (decide (n < 3)%nat).
        -- destruct S1 as (_ & -> & _); [lia|]. rewrite Ht.
           replace (S n `min` 3)%nat with (S (n `min` 3)) by lia.
           rewrite replicate_S_end. reflexivity.
        -- destruct S2 as (_ & -> & _); [lia|]. rewrite Ht. f_equal. lia.
    + replace (n + App.failures (e :: es))%nat with (n + App.failures es)%nat.
      2:{ unfold App.failures.
          rewrite filter_cons_False by (rewrite He; discriminate). reflexivity. }
      unfold App.step.
      destruct (listener_effect_retries (state w) (App.handler e w)) as [L1 L2].
      destruct (App_handler_retries e w Hs He) as [A1 A2].
      apply IH; [exact Hes| |]; congruence.
Qed.

Lemma Part0_run_retries (es : list Part0.Event) (w : World) (n : nat) :
  forallb (fun e => negb (Part0.is_session_success e)) es = true ->
  reconnectAttempts w = Z.of_nat (Nat.min n 3) ->
  retries_scheduled w = replicate (Nat.min n 3) retryTimer ->
  let w' := Part0.run es w in
  reconnectAttempts w' = Z.of_nat (Nat.min (n + Part0.failures es) 3)
  /\ retries_scheduled w' = replicate (Nat.min (n + Part0.failures es) 3) retryTimer.
Proof.
  revert w n. induction es as [|e es IH]; intros w n Hs Hr Ht.
  - cbn. unfold Part0.failures. cbn. rewrite Nat.add_0_r. auto.
  - cbn in Hs. apply andb_true_iff in Hs as [Hs Hes]. apply negb_true_iff in Hs.
    cbn zeta. cbn [Part0.run fold_left]. fold (Part0.run es (Part0.step w e)).
    destruct (Part0.is_session_error e) eqn:He.
    + destruct e as [| | | | | | | |err| | | | | | | | | | | | | | | |];
        try discriminate.
      replace (n + Part0.failures (Part0.SessionError err :: es))%nat
        with (S n + Part0.failures es)%nat.
      2:{ unfold Part0.failures. rewrite filter_cons_True by reflexivity. cbn. lia. }
      unfold Part0.step. cbn [Part0.handler].
      destruct (listener_effect_retries (state w) (session_error err w)) as [L1 L2].
      destruct (session_error_retries err w) as [S1 S2].
      apply IH; [exact Hes| |].
      * rewrite L2. destruct (decide (n < 3)%nat).
        -- destruct S1 as (-> & _); [lia|]. rewrite Hr. lia.
        -- destruct S2 as (-> & _); [lia|]. rewrite Hr. lia.
      * rewrite L1. destruct (decide (n < 3)%nat).
        -- destruct S1 as (_ & -> & _); [lia|]. rewrite Ht.
           replace (S n `min` 3)%nat with (S (n `min` 3)) by lia.
           rewrite replicate_S_end. reflexivity.
        -- destruct S2 as (_ & -> & _); [lia|]. rewrite Ht. f_equal. lia.
    + replace (n + Part0.failures (e :: es))%nat with (n + Part0.failures es)%nat.
      2:{ unfold Part0.failures.
          rewrite filter_cons_False by (rewrite He; discriminate). reflexivity. }
      unfold Part0.step.
      destruct (listener_effect_retries (state w) (Part0.handler e w)) as [L1 L2].
      destruct (Part0_handler_retries e w Hs He) as [A1 A2].
      apply IH; [exact Hes| |]; congruence.
Qed.

(** C6, as the code has it.  In every run in which no session creation
    succeeds, after [n] failures exactly [min n 3] retries of
    [initializeJanus] have been set, each with the delay 5000 ms: the
    first, second and third failure each set one, hence at most 3 retries
    and 4 attempts; once the count stands at 3 -- from the fourth failure
    on -- the [error] callback sets no timer any more.  This holds in
    [App.tsx] and in [part_000]. *)
Theorem session_retry_bound :
  (forall (win : Window) (es : list App.Event),
      forallb (fun e => negb (App.is_session_success e)) es = true ->
      let w := App.run es (App.start win) in
      reconnectAttempts w = Z.of_nat (Nat.min (App.failures es) 3)
      /\ retries_scheduled w = replicate (Nat.min (App.failures es) 3) retryTimer
      /\ (length (retries_scheduled w) <= 3)%nat)
  /\ (forall (win : Window) (es : list Part0.Event),
      forallb (fun e => negb (Part0.is_session_success e)) es = true ->
      let w := Part0.run es (Part0.start win) in
      reconnectAttempts w = Z.of_nat (Nat.min (Part0.failures es) 3)
      /\ retries_scheduled w = replicate (Nat.min (Part0.failures es) 3) retryTimer
      /\ (length (retries_scheduled w) <= 3)%nat)
  /\ (forall (err : string) (w : World),
      3 <= reconnectAttempts w ->
      retries_scheduled (session_error err w) = retries_scheduled w
      /\ retries_pending (session_error err w) = retries_pending w).
Proof.
  split; [|split].
  - intros win es Hes w.
    destruct (start_retries win) as [H0 H1].
    destruct (App_run_retries es (App.start win) 0 Hes H0 H1) as [Hr Ht].
    cbn [Nat.add] in Hr, Ht. fold w in Hr, Ht.
    split; [exact Hr|]. split; [exact Ht|].
    rewrite Ht, length_replicate. lia.
  - intros win es Hes w.
    destruct (start_retries win) as [H0 H1].
    destruct (Part0_run_retries es (Part0.start win) 0 Hes H0 H1) as [Hr Ht].
    cbn [Nat.add] in Hr, Ht. fold w in Hr, Ht.
    split; [exact Hr|]. split; [exact Ht|].
    rewrite Ht, length_replicate. lia.
  - intros err w H.
    destruct (session_error_retries err w) as [_ S2].
    destruct (S2 H) as (_ & H1 & H2). split; assumption.
Qed.

Lemma session_retry_bound_witness :
  retries_scheduled (App.run App.four_failures (App.start noBridge))
  = [retryTimer; retryTimer; retryTimer]
  /\ retries_scheduled (Part0.run Part0.four_failures (Part0.start throwingBridge))
     = [retryTimer; retryTimer; retryTimer]
  /\ retries_pending (App.run App.four_failures (App.start noBridge)) = [].
Proof.
  pose proof (proj1 session_retry_bound noBridge App.four_failures eq_refl)
    as (_ & HA & _).
  pose proof (proj1 (proj2 session_retry_bound) throwingBridge
                Part0.four_failures eq_refl) as (_ & HP & _).
  split; [exact HA|]. split; [exact HP | vm_compute; reflexivity].
Defined.

(** The third failure still sets a retry: after three failed attempts (the
    first one and two retries) the third retry is pending. *)
Lemma third_failure_sets_retry :
  App.failures App.three_failures = 3%nat
  /\ retries_pending (App.run App.three_failures (App.start noBridge))
     = [retryTimer]
  /\ retries_pending (Part0.run Part0.three_failures (Part0.start noBridge))
     = [retryTimer]
  /\ retries_pending (App.run App.three_failures (App.start noBridge)) <> [].
Proof. repeat split. vm_compute. discriminate. Qed.

(** * Further properties of the handlers *)

(** ** What the legacy [sendToWebView] touches *)

Lemma legacy_send_sent (m : WebViewMessage) (rc : Z) (w : World) :
  sent (Legacy.sendToWebView m rc w) = sent w ++ [(m, rc)].
Proof. prim. bridge. Qed.

Lemma legacy_send_state (m : WebViewMessage) (rc : Z) (w : World) :
  state (Legacy.sendToWebView m rc w) = state w.
Proof. prim. bridge. Qed.

Lemma legacy_send_pluginCalls (m : WebViewMessage) (rc : Z) (w : World) :
  pluginCalls (Legacy.sendToWebView m rc w) = pluginCalls w.
Proof. prim. bridge. Qed.

(** ** Registration *)

Lemma handleRegistration_no_plugin (env : AppState) (w : World)
    (params : option RegistrationPayload) :
  sipPlugin env = None ->
  handleRegistration env params w = send REGISTRATION_ERROR_no_plugin w.
Proof. intros H. unfold handleRegistration. now rewrite H. Qed.

(** X1.  Without a plugin handle, [handleRegistration] -- in all three
    copies -- sends exactly one [REGISTRATION_ERROR] message with the text
    ["SIP plugin not found"], asks nothing of the plugin and leaves the
    state, the stored credentials included, as it was. *)
Theorem registration_without_plugin :
  forall (env : AppState) (w : World) (params : option RegistrationPayload),
    sipPlugin env = None ->
    (let w' := handleRegistration env params w in
     sent w' = sent w ++ [(REGISTRATION_ERROR_no_plugin, 3)]
     /\ pluginCalls w' = pluginCalls w
     /\ state w' = state w)
    /\ (let w' := Legacy.handleRegistration env params w in
        sent w' = sent w ++ [(REGISTRATION_ERROR_no_plugin, 3)]
        /\ pluginCalls w' = pluginCalls w
        /\ state w' = state w).
Proof.
  intros env w params H. split; cbn zeta.
  - rewrite handleRegistration_no_plugin by assumption. now sent_simpl.
  - unfold Legacy.handleRegistration, Legacy.send. rewrite H.
    now rewrite legacy_send_sent, legacy_send_pluginCalls, legacy_send_state.
Qed.

Lemma registration_without_plugin_witness :
  sent (handleRegistration (state (App.start noBridge)) (Some sampleCredentials)
          (App.start noBridge))
  = sent (App.start noBridge) ++ [(REGISTRATION_ERROR_no_plugin, 3)].
Proof.
  exact (proj1 (proj1 (registration_without_plugin (state (App.start noBridge))
                         (App.start noBridge) (Some sampleCredentials) eq_refl))).
Defined.

Lemma over_field (b a : option string) :
  over b a = match b with Some x => Some x | None => a end.
Proof. now destruct b. Qed.

(** X2.  With a handle attached and the registration flag off,
    [handleRegistration] reports nothing to the host, sets the call state
    to [registering], stores the merged credentials and sends the plugin
    one [register] request built from them.  In the merge every field the
    payload carries replaces the stored one, every field it lacks keeps the
    stored one, and [register] is forced to [true]. *)
Theorem registration_forwards_merged_credentials :
  forall (env : AppState) (w : World) (h : Handle) (p : RegistrationPayload),
    sipPlugin env = Some h ->
    isRegistered env = false ->
    let w' := handleRegistration env (Some p) w in
    let c := sipCredentials (state w') in
    sent w' = sent w
    /\ callState (state w') = "registering"
    /\ pluginCalls w' = pluginCalls w ++ [Send h (register_request c) None]
    /\ register c = Some true
    /\ Forall (fun f => f c = match f p with
                              | Some x => Some x
                              | None => f (sipCredentials env)
                              end) credential_fields.
Proof.
  intros env w h p Hp Hr. cbn zeta. unfold handleRegistration.
  rewrite Hp, Hr. repeat split.
  unfold credential_fields. repeat constructor; apply over_field.
Qed.

Lemma registration_forwards_merged_credentials_witness :
  let w' := handleRegistration attachedState (Some sampleCredentials)
              registeredWorld in
  pluginCalls w'
  = [Send 1%nat (register_request (sipCredentials (state w'))) None]
  /\ callState (state w') = "registering".
Proof.
  pose proof (registration_forwards_merged_credentials attachedState
                registeredWorld 1%nat sampleCredentials eq_refl eq_refl)
    as (_ & H2 & H3 & _).
  split; [exact H3 | exact H2].
Defined.

Lemma over_idem {A} (b a : option A) : over b (over b a) = over b a.
Proof. now destruct b. Qed.

(** Merging the same payload twice stores what merging it once stores. *)
Lemma spread_register_idem (c p : RegistrationPayload) :
  spread_register (spread_register c p) p = spread_register c p.
Proof. unfold spread_register. cbn. now rewrite !over_idem. Qed.

Lemma App_step_register (w : World) (h : Handle) (m : HostMessage) :
  sipPlugin (state w) = Some h ->
  isRegistered (state w) = false ->
  htype m = "REGISTER_SIP" ->
  let c := spread_register (sipCredentials (state w)) (params_of m) in
  let w' := App.step w (App.HostMsg m) in
  pluginCalls w' = pluginCalls w ++ [Send h (register_request c) None]
  /\ sipPlugin (state w') = Some h
  /\ isRegistered (state w') = false
  /\ sipCredentials (state w') = c.
Proof.
  intros Hp Hr Hm. cbn zeta. unfold App.step. cbn [App.handler].
  unfold App.handleWebViewMessage. rewrite Hm. cbn.
  unfold handleRegistration. rewrite Hp, Hr.
  rewrite listener_effect_state.
  unfold listener_effect. case_match; sent_simpl; unfold params_of;
    destruct (hpayload m); repeat split; assumption.
Qed.

Lemma Part0_step_register (w : World) (h : Handle) (m : HostMessage) :
  sipPlugin (state w) = Some h ->
  isRegistered (state w) = false ->
  htype m = "REGISTER_SIP" ->
  let c := spread_register (sipCredentials (state w)) (params_of m) in
  let w' := Part0.step w (Part0.HostMsg m) in
  pluginCalls w' = pluginCalls w ++ [Send h (register_request c) None]
  /\ sipPlugin (state w') = Some h
  /\ isRegistered (state w') = false
  /\ sipCredentials (state w') = c.
Proof.
  intros Hp Hr Hm. cbn zeta. unfold Part0.step. cbn [Part0.handler].
  unfold Part0.handleWebViewMessage. rewrite Hm. cbn.
  unfold handleRegistration. rewrite Hp, Hr.
  rewrite listener_effect_state.
  unfold listener_effect. case_match; sent_simpl; unfold params_of;
    destruct (hpayload m); repeat split; assumption.
Qed.

(** X3.  The already-registered guard only sees a registration the plugin
    has confirmed: a [REGISTER_SIP] message that arrives twice before the
    [registered] event sends the same [register] request twice, in
    [App.tsx] and in [part_000]. *)
Theorem register_twice_before_confirmation :
  forall (w : World) (h : Handle) (m : HostMessage),
    sipPlugin (state w) = Some h ->
    isRegistered (state w) = false ->
    htype m = "REGISTER_SIP" ->
    let request :=
      Send h (register_request
                (spread_register (sipCredentials (state w)) (params_of m))) None in
    pluginCalls (App.run [App.HostMsg m; App.HostMsg m] w)
    = pluginCalls w ++ [request; request]
    /\ pluginCalls (Part0.run [Part0.HostMsg m; Part0.HostMsg m] w)
       = pluginCalls w ++ [request; request].
Proof.
  intros w h m Hp Hr Hm. cbn zeta. split.
  - destruct (App_step_register w h m Hp Hr Hm) as (C1 & P1 & R1 & S1).
    destruct (App_step_register _ h m P1 R1 Hm) as (C2 & _).
    cbn [App.run fold_left]. rewrite C2, C1, S1, spread_register_idem.
    now rewrite <- app_assoc.
  - destruct (Part0_step_register w h m Hp Hr Hm) as (C1 & P1 & R1 & S1).
    destruct (Part0_step_register _ h m P1 R1 Hm) as (C2 & _).
    cbn [Part0.run fold_left]. rewrite C2, C1, S1, spread_register_idem.
    now rewrite <- app_assoc.
Qed.

Lemma register_twice_before_confirmation_witness :
  let w := App.step (App.start noBridge) (App.AttachSuccess 1%nat) in
  length (pluginCalls (App.run [App.HostMsg REGISTER_SIP; App.HostMsg REGISTER_SIP] w))
  = 2%nat.
Proof.
  cbn zeta.
  rewrite (proj1 (register_twice_before_confirmation
                    (App.step (App.start noBridge) (App.AttachSuccess 1%nat))
                    1%nat REGISTER_SIP eq_refl eq_refl eq_refl)).
  reflexivity.
Defined.

(** ** Calls *)

(** X4.  [makeCall] checks the handle first and then the number.  Without
    a handle it sends one [CALL_ERROR] with ["SIP plugin not found"]; with
    a handle but no number, or an empty one, one [CALL_ERROR] with
    ["Phone number is required"].  In both cases the call state becomes
    [error], the current call is left as it was and the plugin is asked
    nothing.  This holds in [App.tsx] and in [part_000]. *)
Theorem make_call_guards :
  forall (env : AppState) (w : World) (number : option string),
    (sipPlugin env = None ->
     (let w' := App.makeCall env number w in
      sent w' = sent w ++ [(CALL_ERROR_with "SIP plugin not found", 3)]
      /\ callState (state w') = "error"
      /\ currentCall (state w') = currentCall (state w)
      /\ pluginCalls w' = pluginCalls w)
     /\ (let w' := Part0.makeCall env number w in
         sent w' = sent w ++ [(CALL_ERROR_with "SIP plugin not found", 3)]
         /\ callState (state w') = "error"
         /\ currentCall (state w') = currentCall (state w)
         /\ pluginCalls w' = pluginCalls w))
    /\ (is_Some (sipPlugin env) ->
        number = None \/ number = Some "" ->
        (let w' := App.makeCall env number w in
         sent w' = sent w ++ [(CALL_ERROR_with "Phone number is required", 3)]
         /\ callState (state w') = "error"
         /\ currentCall (state w') = currentCall (state w)
         /\ pluginCalls w' = pluginCalls w)
        /\ (let w' := Part0.makeCall env number w in
            sent w' = sent w ++ [(CALL_ERROR_with "Phone number is required", 3)]
            /\ callState (state w') = "error"
            /\ currentCall (state w') = currentCall (state w)
            /\ pluginCalls w' = pluginCalls w)).
Proof.
  intros env w number. split.
  - intros H. unfold App.makeCall, Part0.makeCall. rewrite H.
    split; cbn zeta; prim0; sent_simpl; repeat split.
  - intros [h H] Hn. unfold App.makeCall, Part0.makeCall. rewrite H.
    assert (Ht : JS.truthy number = false) by (destruct Hn as [->| ->]; reflexivity).
    rewrite Ht. cbn [negb]. split; cbn zeta; prim0; sent_simpl; repeat split.
Qed.

Lemma make_call_guards_witness :
  callState (state (App.makeCall attachedState (Some "") registeredWorld)) = "error"
  /\ pluginCalls (Part0.makeCall (state (Part0.start noBridge)) (Some "5551234")
                    registeredWorld) = [].
Proof.
  pose proof (make_call_guards attachedState registeredWorld (Some ""))
    as (_ & H2).
  pose proof (make_call_guards (state (Part0.start noBridge)) registeredWorld
                (Some "5551234")) as (H1 & _).
  destruct (H2 (ex_intro _ 1%nat eq_refl) (or_intror eq_refl))
    as ((_ & HA & _) & _).
  destruct (H1 eq_refl) as (_ & (_ & _ & _ & HP)).
  split; [exact HA | exact HP].
Defined.

Lemma App_step_hangup (w : World) (m : HostMessage) (h : Handle) :
  htype m = "END_CALL" -> sipPlugin (state w) = Some h ->
  JS.truthy (currentCall (state w)) = true ->
  App.step w (App.HostMsg m) = plugin (Send h hangup_request None) w.
Proof.
  intros Hm Hp Hc. unfold App.step. cbn [App.handler].
  unfold App.handleWebViewMessage. rewrite Hm, Hp, Hc. cbn.
  now apply listener_effect_same.
Qed.

Lemma Part0_step_hangup (w : World) (m : HostMessage) (h : Handle) :
  htype m = "END_CALL" -> sipPlugin (state w) = Some h ->
  JS.truthy (currentCall (state w)) = true ->
  Part0.step w (Part0.HostMsg m) = plugin (Send h hangup_request None) w.
Proof.
  intros Hm Hp Hc. unfold Part0.step. cbn [Part0.handler].
  unfold Part0.handleWebViewMessage. rewrite Hm, Hp, Hc. cbn.
  now apply listener_effect_same.
Qed.

Lemma App_step_end_idle (w : World) (m : HostMessage) :
  htype m = "END_CALL" ->
  sipPlugin (state w) = None \/ JS.truthy (currentCall (state w)) = false ->
  App.step w (App.HostMsg m) = w.
Proof.
  intros Hm H. unfold App.step. cbn [App.handler].
  unfold App.handleWebViewMessage. rewrite Hm. cbn.
  destruct H as [H|H]; rewrite H.
  - now apply listener_effect_same.
  - destruct (sipPlugin (state w)); now apply listener_effect_same.
Qed.

Lemma Part0_step_end_idle (w : World) (m : HostMessage) :
  htype m = "END_CALL" ->
  sipPlugin (state w) = None \/ JS.truthy (currentCall (state w)) = false ->
  Part0.step w (Part0.HostMsg m) = w.
Proof.
  intros Hm H. unfold Part0.step. cbn [Part0.handler].
  unfold Part0.handleWebViewMessage. rewrite Hm. cbn.
  destruct H as [H|H]; rewrite H.
  - now apply listener_effect_same.
  - destruct (sipPlugin (state w)); now apply listener_effect_same.
Qed.

(** X5.  An [END_CALL] message sends the plugin one [hangup] request when
    a handle is attached and a current call is recorded, and does nothing
    at all otherwise; it never changes the state.  This holds in [App.tsx]
    and in [part_000]. *)
Theorem end_call :
  forall (w : World) (m : HostMessage),
    htype m = "END_CALL" ->
    (forall h, sipPlugin (state w) = Some h ->
               JS.truthy (currentCall (state w)) = true ->
       App.step w (App.HostMsg m) = plugin (Send h hangup_request None) w
       /\ Part0.step w (Part0.HostMsg m) = plugin (Send h hangup_request None) w)
    /\ (sipPlugin (state w) = None \/ JS.truthy (currentCall (state w)) = false ->
        App.step w (App.HostMsg m) = w /\ Part0.step w (Part0.HostMsg m) = w).
Proof.
  intros w m Hm. split.
  - intros h Hp Hc. split.
    + now apply App_step_hangup.
    + now apply Part0_step_hangup.
  - intros H. split.
    + now apply App_step_end_idle.
    + now apply Part0_step_end_idle.
Qed.

Lemma end_call_witness :
  App.step (App.start noBridge) (App.HostMsg END_CALL) = App.start noBridge.
Proof.
  exact (proj1 (proj2 (end_call (App.start noBridge) END_CALL eq_refl)
                  (or_introl eq_refl))).
Defined.

Lemma unknown_tag (t : string) :
  t ∉ known_tags ->
  String.eqb t "WEBVIEW_READY" = false /\ String.eqb t "REGISTER_SIP" = false
  /\ String.eqb t "UNREGISTER_SIP" = false /\ String.eqb t "MAKE_CALL" = false
  /\ String.eqb t "END_CALL" = false.
Proof.
  unfold known_tags. intros H.
  repeat (apply not_elem_of_cons in H as [?%String.eqb_neq H]).
  repeat split; assumption.
Qed.

(** X6.  A host message whose tag is none of the five known ones is
    ignored: the world after it is the world before it, in [App.tsx] and in
    [part_000]; so is [WEBVIEW_READY] in [App.tsx]. *)
Theorem unknown_message_ignored :
  forall (w : World) (m : HostMessage),
    (htype m ∉ known_tags ->
     App.step w (App.HostMsg m) = w /\ Part0.step w (Part0.HostMsg m) = w)
    /\ (htype m = "WEBVIEW_READY" -> App.step w (App.HostMsg m) = w).
Proof.
  intros w m. split.
  - intros H. destruct (unknown_tag _ H) as (H1 & H2 & H3 & H4 & H5).
    unfold App.step, Part0.step. cbn [App.handler Part0.handler].
    unfold App.handleWebViewMessage, Part0.handleWebViewMessage.
    cbn zeta. rewrite H1, H2, H3, H4, H5.
    split; now apply listener_effect_same.
  - intros H. unfold App.step. cbn [App.handler].
    unfold App.handleWebViewMessage. rewrite H. cbn.
    now apply listener_effect_same.
Qed.

Lemma unknown_message_ignored_witness :
  App.step registeredWorld
    (App.HostMsg {| htype := "PING"; hpayload := None |}) = registeredWorld.
Proof.
  apply (proj1 (unknown_message_ignored registeredWorld
                  {| htype := "PING"; hpayload := None |})).
  unfold known_tags. intros H.
  repeat (apply elem_of_cons in H as [H|H]; [discriminate H|]).
  inversion H.
Defined.

(** ** Plugin messages *)

Ltac names :=
  repeat match goal with
         | H : String.eqb ?e _ = true |- _ => apply String.eqb_eq in H; subst e
         | H : String.eqb _ _ = false |- _ => apply String.eqb_neq in H
         | H : bool_decide _ = true |- _ => apply bool_decide_eq_true in H
         | H : bool_decide _ = false |- _ => apply bool_decide_eq_false in H
         end;
  simplify_eq; try (cbn in *; first [done | congruence]).

Lemma App_sip_isRegistered (env : AppState) (msg : JanusMessage)
    (jsep : option JSEP) (w : World) :
  isRegistered (state (App.handleSipMessage env msg jsep w))
  = if JS.truthy (error msg) then isRegistered (state w)
    else if bool_decide (result_event msg = Some "registered") then true
    else if bool_decide (result_event msg = Some "unregistered") then false
    else isRegistered (state w).
Proof.
  unfold App.handleSipMessage, App.on_event, App.handleRemoteJsep, result_event.
  destruct (JS.truthy (error msg)); [frame|].
  destruct (result msg) as [r|]; [|frame].
  destruct (event r) as [e|]; [|frame].
  cbn [JS.template]. frame; names.
Qed.

Lemma Part0_sip_isRegistered (env : AppState) (msg : JanusMessage)
    (jsep : option JSEP) (w : World) :
  isRegistered (state (Part0.handleSipMessage env msg jsep w))
  = if JS.truthy (error msg) then isRegistered (state w)
    else if bool_decide (result_event msg = Some "registered") then true
    else if bool_decide (result_event msg = Some "unregistered") then false
    else isRegistered (state w).
Proof.
  unfold Part0.handleSipMessage.
  destruct (JS.truthy (error msg)); [frame|].
  frame; names.
Qed.

Lemma Legacy_sip_isRegistered (env : AppState) (msg : JanusMessage)
    (jsep : option JSEP) (w : World) :
  isRegistered (state (Legacy.handleSipMessage env msg jsep w))
  = if bool_decide (result_event msg = Some "registered") then true
    else if bool_decide (result_event msg = Some "unregistered") then false
    else isRegistered (state w).
Proof.
  unfold Legacy.handleSipMessage.
  repeat first [ progress prim0 | rewrite !legacy_send_state | done | case_match ];
    names.
Qed.

(** X7.  What a plugin message does to the registration flag: in
    [App.tsx] and [part_000] a message with a populated error leaves it;
    otherwise the event [registered] turns it on, [unregistered] turns it
    off and every other message leaves it.  The legacy copy does the same
    without looking at the error. *)
Theorem registration_flag_after_plugin_message :
  forall (env : AppState) (msg : JanusMessage) (jsep : option JSEP) (w : World),
    let by_event :=
      if bool_decide (result_event msg = Some "registered") then true
      else if bool_decide (result_event msg = Some "unregistered") then false
      else isRegistered (state w) in
    isRegistered (state (App.handleSipMessage env msg jsep w))
    = (if JS.truthy (error msg) then isRegistered (state w) else by_event)
    /\ isRegistered (state (Part0.handleSipMessage env msg jsep w))
       = (if JS.truthy (error msg) then isRegistered (state w) else by_event)
    /\ isRegistered (state (Legacy.handleSipMessage env msg jsep w)) = by_event.
Proof.
  intros env msg jsep w. cbn zeta.
  rewrite App_sip_isRegistered, Part0_sip_isRegistered, Legacy_sip_isRegistered.
  repeat split.
Qed.

Lemma listener_effect_pluginCalls (before : AppState) (w : World) :
  pluginCalls (listener_effect before w) = pluginCalls w.
Proof.
  unfold listener_effect. case_match; [|reflexivity]. now sent_simpl.
Qed.

Ltac frame_calls :=
  repeat first [ progress prim0 | rewrite !sendP_pluginCalls
               | rewrite !sendP_handle | done | case_match ].

Lemma App_sip_closure_calls (env : AppState) (msg : JanusMessage)
    (jsep : option JSEP) (w : World) :
  sipPlugin env = None ->
  pluginCalls (App.handleSipMessage env msg jsep w) = pluginCalls w
  /\ handle (App.handleSipMessage env msg jsep w) = handle w.
Proof.
  intros H. unfold App.handleSipMessage, App.on_event, App.handleRemoteJsep.
  rewrite H. split; frame_calls.
Qed.

Lemma Part0_sip_closure_calls (env : AppState) (msg : JanusMessage)
    (jsep : option JSEP) (w : World) :
  sipPlugin env = None ->
  pluginCalls (Part0.handleSipMessage env msg jsep w) = pluginCalls w.
Proof.
  intros H. unfold Part0.handleSipMessage. rewrite H. frame_calls.
Qed.

Lemma App_sip_step_calls (w : World) (msg : JanusMessage) (jsep : option JSEP) :
  pluginCalls (App.step w (App.SipMsg msg jsep)) = pluginCalls w.
Proof.
  unfold App.step. cbn [App.handler]. rewrite listener_effect_pluginCalls.
  now apply App_sip_closure_calls.
Qed.

Lemma Part0_sip_step_calls (w : World) (msg : JanusMessage) (jsep : option JSEP) :
  pluginCalls (Part0.step w (Part0.SipMsg msg jsep)) = pluginCalls w.
Proof.
  unfold Part0.step. cbn [Part0.handler]. rewrite listener_effect_pluginCalls.
  now apply Part0_sip_closure_calls.
Qed.

(** X8.  The callbacks handed to [janus.attach], and the cleanup of the
    mount effect, are those of the first render, whose closure knows no
    plugin handle.  So in the running component no plugin message ever
    reaches [handleRemoteJsep] or writes [callId] on the handle, removing a
    local track never stops a stream, and unmounting never detaches the
    plugin: these callbacks make no call on the handle at all. *)
Theorem mount_closures_make_no_plugin_call :
  (forall (env : AppState) (msg : JanusMessage) (jsep : option JSEP) (w : World),
      sipPlugin env = None ->
      pluginCalls (App.handleSipMessage env msg jsep w) = pluginCalls w
      /\ handle (App.handleSipMessage env msg jsep w) = handle w
      /\ pluginCalls (Part0.handleSipMessage env msg jsep w) = pluginCalls w)
  /\ (forall (w : World) (msg : JanusMessage) (jsep : option JSEP),
      pluginCalls (App.step w (App.SipMsg msg jsep)) = pluginCalls w
      /\ pluginCalls (Part0.step w (Part0.SipMsg msg jsep)) = pluginCalls w)
  /\ (forall (w : World) (track : MediaStreamTrack) (on : bool),
      pluginCalls (App.step w (App.LocalTrack track on)) = pluginCalls w)
  /\ (forall (w : World),
      pluginCalls (App.step w App.Unmount) = pluginCalls w
      /\ pluginCalls (Part0.step w Part0.Unmount) = pluginCalls w).
Proof.
  split; [|split; [|split]].
  - intros env msg jsep w H.
    destruct (App_sip_closure_calls env msg jsep w H).
    split; [|split]; auto. now apply Part0_sip_closure_calls.
  - intros w msg jsep. split.
    + apply App_sip_step_calls.
    + apply Part0_sip_step_calls.
  - intros w track on. unfold App.step. cbn [App.handler].
    rewrite listener_effect_pluginCalls. unfold App.onlocaltrack.
    change (localTracks App.mountEnv) with (∅ : gmap string MediaStream).
    rewrite lookup_empty. frame_calls.
  - intros w. unfold App.step, Part0.step. cbn [App.handler Part0.handler].
    rewrite !listener_effect_pluginCalls. unfold unmount.
    split; frame_calls.
Qed.

Lemma mount_closures_make_no_plugin_call_witness :
  pluginCalls (App.handleSipMessage (state (App.start noBridge))
                 (event_msg "accepted") (Some exampleJsep) registeredWorld) = [].
Proof.
  exact (proj1 (proj1 mount_closures_make_no_plugin_call
                  (state (App.start noBridge)) (event_msg "accepted")
                  (Some exampleJsep) registeredWorld eq_refl)).
Defined.

Ltac frame_sent :=
  repeat first [ progress prim0 | rewrite !sendP_sent | rewrite !sendP_state
               | rewrite !sendP_pluginCalls | done | case_match ].

Lemma unknown_event (e : string) :
  e ∉ known_events ->
  String.eqb e "registered" = false /\ String.eqb e "unregistered" = false
  /\ String.eqb e "calling" = false /\ String.eqb e "incomingcall" = false
  /\ String.eqb e "accepting" = false /\ String.eqb e "progress" = false
  /\ String.eqb e "accepted" = false /\ String.eqb e "hangup" = false.
Proof.
  unfold known_events. intros H.
  repeat (apply not_elem_of_cons in H as [?%String.eqb_neq H]).
  repeat split; assumption.
Qed.

(** X9.  In [App.tsx] an event name outside the eight the [switch] knows
    is taken as the call state and reported to nobody: no host message is
    sent, and the plugin is called only to hand over a [jsep], if there is
    one and the closure knows a handle. *)
Theorem unknown_event_is_silent :
  forall (env : AppState) (msg : JanusMessage) (jsep : option JSEP) (w : World)
         (e : string),
    result_event msg = Some e -> e <> "" -> e ∉ known_events ->
    JS.truthy (error msg) = false ->
    let w' := App.handleSipMessage env msg jsep w in
    sent w' = sent w
    /\ callState (state w') = e
    /\ pluginCalls w' = pluginCalls w ++ jsep_call env jsep.
Proof.
  intros env msg jsep w e He Hn Hk Herr. cbn zeta.
  destruct (unknown_event e Hk) as (K1 & K2 & K3 & K4 & K5 & K6 & K7 & K8).
  unfold App.handleSipMessage. rewrite Herr, He, (truthy_nonempty _ Hn).
  unfold result_event in He. destruct (result msg) as [r|]; [|discriminate].
  rewrite He, (truthy_nonempty _ Hn). cbn [JS.template].
  unfold App.on_event. rewrite K1, K2, K3, K4, K5, K6, K7, K8.
  unfold App.handleRemoteJsep, jsep_call.
  destruct jsep as [j|]; [destruct (sipPlugin env)|];
    prim0; rewrite ?app_nil_r; repeat split.
Qed.

Lemma unknown_event_is_silent_witness :
  let w' := App.handleSipMessage registeredState (event_msg "ringing") None
              registeredWorld in
  sent w' = [] /\ callState (state w') = "ringing".
Proof.
  assert (Hn : "ringing" <> "") by discriminate.
  assert (Hk : "ringing" ∉ known_events).
  { unfold known_events. intros H.
    repeat (apply elem_of_cons in H as [H|H]; [discriminate H|]).
    inversion H. }
  pose proof (unknown_event_is_silent registeredState (event_msg "ringing")
                None registeredWorld "ringing" eq_refl Hn Hk eq_refl)
    as (H1 & H2 & _).
  split; [exact H1 | exact H2].
Defined.


(** X11.  In [part_000] a plugin message without a populated error is
    relayed as one [SIP_STATUS] whose status is the event name, or
    ["unknown"] when there is none, and whose call state is that event name
    or else the call state of the closure. *)
Theorem part0_sip_status :
  forall (env : AppState) (msg : JanusMessage) (jsep : option JSEP) (w : World),
    JS.truthy (error msg) = false ->
    (forall e, result_event msg = Some e -> e <> "" ->
       sent (Part0.handleSipMessage env msg jsep w)
       = sent w ++ [(SIP_STATUS e msg e, 3)])
    /\ (JS.truthy (result_event msg) = false ->
        sent (Part0.handleSipMessage env msg jsep w)
        = sent w ++ [(SIP_STATUS "unknown" msg (callState env), 3)]
        /\ callState (state (Part0.handleSipMessage env msg jsep w))
           = callState (state w)).
Proof.
  intros env msg jsep w Herr. split.
  - intros e He Hn. unfold Part0.handleSipMessage.
    rewrite Herr, He, (truthy_nonempty _ Hn). cbn [JS.template].
    replace (JS.or_else (Some e) "unknown") with e
      by (cbn; apply String.eqb_neq in Hn; now rewrite Hn).
    frame_sent.
  - intros Hf. unfold Part0.handleSipMessage. rewrite Herr, Hf.
    assert (Ho : JS.or_else (result_event msg) "unknown" = "unknown").
    { destruct (result_event msg) as [s|]; [|reflexivity]. cbn in *.
      destruct (String.eqb s ""); [reflexivity | discriminate]. }
    rewrite Ho.
    assert (H1 : bool_decide (result_event msg = Some "registered") = false).
    { apply bool_decide_eq_false. intros E. rewrite E in Hf. discriminate. }
    assert (H2 : bool_decide (result_event msg = Some "unregistered") = false).
    { apply bool_decide_eq_false. intros E. rewrite E in Hf. discriminate. }
    rewrite H1, H2. split; frame_sent.
Qed.

Lemma part0_sip_status_witness :
  sent (Part0.handleSipMessage registeredState (event_msg "ringing") None
          registeredWorld)
  = [(SIP_STATUS "ringing" (event_msg "ringing") "ringing", 3)].
Proof.
  assert (Hn : "ringing" <> "") by discriminate.
  exact (proj1 (part0_sip_status registeredState (event_msg "ringing") None
                  registeredWorld eq_refl) "ringing" eq_refl Hn).
Defined.

(** ** The life of a call *)

Ltac frame_state :=
  repeat first [ progress prim0 | rewrite !sendP_state | rewrite !sendP_sent
               | rewrite !sendP_pluginCalls | done | case_match ].














(** X15.  The flags of an [INCOMING_CALL] message in [App.tsx]: without a
    [jsep], or when the [jsep] has no SDP text, the call counts as audio
    only; with an SDP text, [hasAudio] tells whether ["m=audio "] occurs in
    it and [hasVideo] whether ["m=video "] does.  The message carries the
    caller and the call id of the plugin message. *)
Theorem incoming_call_flags :
  forall (env : AppState) (msg : JanusMessage) (jsep : option JSEP) (w : World)
         (r : SipPluginResult),
    result msg = Some r -> event r = Some "incomingcall" ->
    JS.truthy (error msg) = false ->
    exists hasAudio hasVideo,
      sent (App.handleSipMessage env msg jsep w)
      = sent w ++ [(INCOMING_CALL (r_username r) hasAudio hasVideo (call_id msg), 3)]
      /\ (jsep = None \/ (exists j, jsep = Some j /\ JS.truthy (sdp j) = false) ->
          hasAudio = true /\ hasVideo = false)
      /\ (forall j s, jsep = Some j -> sdp j = Some s -> s <> "" ->
          (hasAudio = true <-> exists a b, s = a +:+ "m=audio " +:+ b)
          /\ (hasVideo = true <-> exists a b, s = a +:+ "m=video " +:+ b)).
Proof.
  intros env msg jsep w r Hr He Herr.
  unfold App.handleSipMessage, result_event. rewrite Herr, Hr, He. cbn.
  unfold App.handleRemoteJsep.
  set (s' := match jsep with Some j => sdp j | None => None end).
  exists (if JS.truthy s' then JS.indexOf_found "m=audio " (JS.template s') else true),
         (if JS.truthy s' then JS.indexOf_found "m=video " (JS.template s') else false).
  split; [|split].
  - frame_state.
  - intros [->|(j & -> & Hj)]; subst s'; cbn; [|rewrite Hj]; split; reflexivity.
  - intros j s -> Hs Hne. subst s'. cbn [JS.template]. rewrite Hs.
    rewrite (truthy_nonempty _ Hne). cbn [JS.template]. unfold JS.indexOf_found.
    split; apply includes_spec.
Qed.

Lemma incoming_call_flags_witness :
  exists hasAudio hasVideo,
    sent (App.handleSipMessage registeredState (event_msg "incomingcall")
            (Some exampleJsep) registeredWorld)
    = [(INCOMING_CALL None hasAudio hasVideo None, 3)].
Proof.
  destruct (incoming_call_flags registeredState (event_msg "incomingcall")
              (Some exampleJsep) registeredWorld _ eq_refl eq_refl eq_refl)
    as (a & v & H & _).
  exists a, v. exact H.
Defined.

(** ** The session *)

Lemma session_success_effects (w : World) :
  let w1 := session_success w in
  reconnectAttempts w1 = 0
  /\ sent w1 = sent w ++ [({| type := "JANUS_READY"; payload := [] |}, 3)]
  /\ engineCalls w1
     = engineCalls w ++ (if janus w then [Attach "janus.plugin.sip"] else [])
  /\ retries_scheduled w1 = retries_scheduled w
  /\ state w1 = state w.
Proof.
  cbn zeta. unfold session_success, attachSipPlugin, retries_scheduled, seq, send.
  cbn [set_reconnectAttempts].
  assert (J : janus (set_reconnectAttempts 0
                       (sendToWebViewParent {| type := "JANUS_READY"; payload := [] |} 3 w))
              = janus w) by (prim0; now rewrite sendP_janus).
  rewrite J. destruct (janus w); cbn [negb]; prim0;
    rewrite ?sendP_sent, ?sendP_engineCalls, ?sendP_retries, ?sendP_state,
      ?app_nil_r; repeat split.
Qed.

(** X16.  A session that comes up resets the count of reconnects and asks
    for the SIP plugin (only if the session object is there): whatever the
    count was, the next failure sets a retry again.  The bound of three
    retries therefore holds between two successes, not over the life of
    the component. *)
Theorem success_restores_retry_budget :
  forall (w : World) (err : string),
    let w1 := session_success w in
    reconnectAttempts w1 = 0
    /\ engineCalls w1
       = engineCalls w ++ (if janus w then [Attach "janus.plugin.sip"] else [])
    /\ retries_scheduled (session_error err w1) = retries_scheduled w ++ [retryTimer]
    /\ reconnectAttempts (session_error err w1) = 1.
Proof.
  intros w err. cbn zeta.
  destruct (session_success_effects w) as (R & _ & E & T & _).
  destruct (session_error_retries err (session_success w)) as [S1 _].
  destruct S1 as (A & B & _); [rewrite R; lia|].
  rewrite R in A. rewrite T in B. repeat split; assumption.
Qed.









(** ** Media *)

Lemma App_step_state (w : World) (e : App.Event) :
  state (App.step w e) = state (App.handler e w).
Proof. unfold App.step. apply listener_effect_state. Qed.




Lemma onlocaltrack_videos (env : AppState) (w : World) (t : MediaStreamTrack)
    (on : bool) :
  localVideos (state (App.onlocaltrack env t on w))
  = localVideos (state w)
    + (if String.eqb (kind t) "video" then (if on then 1 else -1) else 0).
Proof.
  unfold App.onlocaltrack. destruct on; cbn [negb];
    destruct (String.eqb (kind t) "video"); frame_state; lia.
Qed.

Lemma onremotetrack_videos (w : World) (t : MediaStreamTrack) (mid : string)
    (on : bool) :
  remoteVideos (state (App.onremotetrack t mid on w))
  = remoteVideos (state w)
    + (if String.eqb (kind t) "video" then (if on then 1 else -1) else 0).
Proof.
  unfold App.onremotetrack. destruct on; cbn [negb];
    destruct (String.eqb (kind t) "video"); frame_state; lia.
Qed.

(** X20.  The video counters of [App.tsx] count events, not tracks: a
    video track added twice under the same key is counted twice while the
    registry holds one entry for it, and a removal lowers the counter by
    one whether the registry held the track or not. *)
Theorem video_counter_counts_events :
  forall (env : AppState) (w : World) (t : MediaStreamTrack) (mid : string),
    kind t = "video" ->
    let k := JS.strip_braces (id t) in
    (let w2 := App.onlocaltrack env t true (App.onlocaltrack env t true w) in
     localVideos (state w2) = localVideos (state w) + 2
     /\ entries_at k (localTracks (state w2)) = 1%nat)
    /\ (let w1 := App.onlocaltrack env t false w in
        localVideos (state w1) = localVideos (state w) - 1
        /\ localTracks (state w1) = delete k (localTracks (state w)))
    /\ (let w2 := App.onremotetrack t mid true (App.onremotetrack t mid true w) in
        remoteVideos (state w2) = remoteVideos (state w) + 2
        /\ entries_at mid (remoteTracks (state w2)) = 1%nat)
    /\ (let w1 := App.onremotetrack t mid false w in
        remoteVideos (state w1) = remoteVideos (state w) - 1
        /\ remoteTracks (state w1) = delete mid (remoteTracks (state w))).
Proof.
  intros env w t mid Hk k. cbn zeta.
  rewrite !onlocaltrack_videos, !onremotetrack_videos.
  replace (String.eqb (kind t) "video") with true by (now rewrite Hk).
  rewrite !onlocaltrack_added, !onremotetrack_added,
    onlocaltrack_removed, onremotetrack_removed.
  repeat split; try lia.
  - eapply entries_at_Some. apply lookup_insert_eq.
  - eapply entries_at_Some. apply lookup_insert_eq.
Qed.

Lemma video_counter_counts_events_witness :
  localVideos (state (App.onlocaltrack App.mountEnv videoTrack false
                        (App.start noBridge))) = -1.
Proof.
  pose proof (video_counter_counts_events App.mountEnv (App.start noBridge)
                videoTrack "0" eq_refl) as (_ & (H & _) & _).
  exact H.
Defined.

Ltac frame_stop H :=
  repeat first [ progress prim0 | rewrite !sendP_pluginCalls
               | rewrite forallb_app | rewrite H | rewrite lookup_empty
               | done | case_match ].

Lemma App_handler_no_stop (e : App.Event) (w : World) :
  forallb (fun c => negb (is_stop_tracks c)) (pluginCalls w) = true ->
  forallb (fun c => negb (is_stop_tracks c)) (pluginCalls (App.handler e w)) = true.
Proof.
  intros H. destruct e; cbn [App.handler].
  - unfold App.handleWebViewMessage, handleRegistration, handleUnregister,
      App.makeCall. frame_stop H.
  - unfold App.handleSipMessage, App.on_event, App.handleRemoteJsep. frame_stop H.
  - unfold App.offer_success. frame_stop H.
  - unfold App.offer_error. frame_stop H.
  - unfold App.jsep_success. frame_stop H.
  - unfold App.jsep_error. frame_stop H.
  - unfold init_callback. frame_stop H.
  - unfold session_success, attachSipPlugin. frame_stop H.
  - unfold session_error. frame_stop H.
  - unfold session_destroyed. frame_stop H.
  - unfold attach_success. frame_stop H.
  - unfold attach_error. frame_stop H.
  - unfold App.consentDialog. frame_stop H.
  - unfold App.onlocaltrack, App.mountEnv, initialState. frame_stop H.
  - unfold App.onremotetrack. frame_stop H.
  - unfold App.oncleanup. frame_stop H.
  - unfold webrtcState. frame_stop H.
  - unfold mediaState. frame_stop H.
  - unfold slowLink. frame_stop H.
  - unfold iceState. frame_stop H.
  - unfold detach_success. frame_stop H.
  - unfold detach_error. frame_stop H.
  - unfold fire, initializeJanus. frame_stop H.
  - unfold App.click_makeCall, App.makeCall. frame_stop H.
  - unfold App.click_register, handleRegistration. frame_stop H.
  - unfold unmount. frame_stop H.
  - frame_stop H.
Qed.

Lemma App_run_no_stop (es : list App.Event) (w : World) :
  forallb (fun c => negb (is_stop_tracks c)) (pluginCalls w) = true ->
  forallb (fun c => negb (is_stop_tracks c)) (pluginCalls (App.run es w)) = true.
Proof.
  revert w. induction es as [|e es IH]; intros w H; [exact H|].
  cbn. apply IH. unfold App.step. rewrite listener_effect_pluginCalls.
  now apply App_handler_no_stop.
Qed.

Lemma start_pluginCalls (win : Window) : pluginCalls (App.start win) = [].
Proof. unfold App.start, mount, initializeJanus. frame_calls. Qed.

Lemma App_step_pluginCalls (w : World) (e : App.Event) :
  pluginCalls (App.step w e) = pluginCalls (App.handler e w).
Proof. unfold App.step. apply listener_effect_pluginCalls. Qed.

Lemma onlocaltrack_mount_calls (t : MediaStreamTrack) (on : bool) (w : World) :
  pluginCalls (App.onlocaltrack App.mountEnv t on w) = pluginCalls w.
Proof.
  unfold App.onlocaltrack, App.mountEnv, initialState. destruct on; cbn [negb].
  - frame_calls.
  - prim0. rewrite lookup_empty. frame_calls.
Qed.

(** X21.  In no run of [App.tsx] is a local stream stopped: [onlocaltrack]
    looks the stream up in the [localTracks] of the first render, which is
    empty, so the removal of a local track deletes its entry and never
    calls [stop] on the tracks of the stream stored for it, although the
    entry is there. *)
Theorem local_streams_never_stopped :
  forall (win : Window) (es : list App.Event) (t : MediaStreamTrack),
    let w := App.run es (App.start win) in
    let w1 := App.step (App.step w (App.LocalTrack t true)) (App.LocalTrack t false) in
    (forall s, StopTracks s ∉ pluginCalls w1)
    /\ pluginCalls w1 = pluginCalls w
    /\ localTracks (state (App.step w (App.LocalTrack t true)))
         !! JS.strip_braces (id t) = Some {| getTracks := [t] |}
    /\ localTracks (state w1) !! JS.strip_braces (id t) = None.
Proof.
  intros win es t w w1.
  assert (E : w1 = App.run (es ++ [App.LocalTrack t true; App.LocalTrack t false])
                     (App.start win))
    by (unfold App.run; rewrite fold_left_app; reflexivity).
  split; [|split; [|split]].
  - intros s Hs. rewrite E in Hs.
    pose proof (App_run_no_stop (es ++ [App.LocalTrack t true; App.LocalTrack t false])
                  (App.start win)) as F.
    rewrite start_pluginCalls in F. specialize (F eq_refl).
    rewrite forallb_forall in F. apply list_elem_of_In in Hs.
    apply F in Hs. discriminate.
  - subst w1. rewrite App_step_pluginCalls. cbn [App.handler].
    rewrite onlocaltrack_mount_calls, App_step_pluginCalls. cbn [App.handler].
    apply onlocaltrack_mount_calls.
  - rewrite App_step_state. cbn [App.handler]. rewrite onlocaltrack_added.
    apply lookup_insert_eq.
  - subst w1. rewrite App_step_state. cbn [App.handler].
    rewrite onlocaltrack_removed. apply lookup_delete_eq.
Qed.

(** ** Delivery to the host *)

Lemma send_not_throwing (m : WebViewMessage) (rc : Z) (w : World) :
  ReactNativeWebView (window w) <> Some Throws ->
  let w' := sendToWebViewParent m rc w in
  posted w' = posted w ++ match ReactNativeWebView (window w) with
                       | Some _ => [m]
                       | None => []
                       end
  /\ timers w' = timers w
  /\ timeouts w' = timeouts w
  /\ sent w' = sent w ++ [(m, rc)].
Proof.
  intros H. prim. destruct (ReactNativeWebView (window w)) as [[|]|] eqn:E;
    prim; rewrite ?E, ?app_nil_r; try done.
Qed.

(** X22.  Unless the post throws, [sendToWebViewParent] sets no timer,
    whatever its budget: with a bridge the message is posted once, and
    with no [ReactNativeWebView] on the window it is dropped at once --
    the retry is for a throwing post only.  ([App.tsx] and [part_000]
    share the function.) *)
Theorem send_without_failure :
  forall (m : WebViewMessage) (rc : Z) (w : World),
    ReactNativeWebView (window w) <> Some Throws ->
    let w' := sendToWebViewParent m rc w in
    posted w' = posted w ++ match ReactNativeWebView (window w) with
                       | Some _ => [m]
                       | None => []
                       end
    /\ timers w' = timers w
    /\ timeouts w' = timeouts w.
Proof.
  intros m rc w H. destruct (send_not_throwing m rc w H) as (A & B & C & _).
  repeat split; assumption.
Qed.

Lemma send_without_failure_witness :
  let w' := sendToWebViewParent REACT_APP_READY 3 (initialWorld noBridge) in
  posted w' = [] /\ timers w' = [] /\ timeouts w' = [].
Proof.
  assert (H : ReactNativeWebView (window (initialWorld noBridge)) <> Some Throws)
    by discriminate.
  exact (send_without_failure REACT_APP_READY 3 (initialWorld noBridge) H).
Defined.

(** X23.  A message whose post threw is delivered by its retry once the
    bridge accepts: the timer runs [sendToWebViewParent] with the budget
    one lower, the message is posted exactly once, and no timer is left
    over from it. *)
Theorem delivered_by_retry :
  forall (m : WebViewMessage) (rc : Z) (w : World) (win : Window),
    ReactNativeWebView (window w) = Some Throws ->
    ReactNativeWebView win = Some Accepts ->
    0 < rc ->
    let w1 := sendToWebViewParent m rc w in
    let w2 := fire_last (set_window win w1) in
    posted w1 = posted w
    /\ timers w1 = timers w ++ [{| callback := Resend m (rc - 1); delay := 1000 |}]
    /\ posted w2 = posted w ++ [m]
    /\ sent w2 = sent w ++ [(m, rc); (m, rc - 1)]
    /\ timers w2 = timers w
    /\ timeouts w2 = timeouts w1.
Proof.
  intros m rc w win Ht Ha Hrc. cbn zeta.
  destruct (send_throws m rc w Ht) as (S1 & T1 & O1 & P1 & _).
  unfold retry_of in T1, O1. apply Z.ltb_lt in Hrc. rewrite Hrc in T1, O1.
  split; [exact P1|]. split; [exact T1|].
  rewrite (fire_last_app (set_window win (sendToWebViewParent m rc w))
             (timers w) {| callback := Resend m (rc - 1); delay := 1000 |})
    by exact T1.
  cbn [callback].
  match goal with
  | |- context [sendToWebViewParent m (rc - 1) ?x] =>
      destruct (send_not_throwing m (rc - 1) x) as (A & B & C & D);
        [cbn; rewrite Ha; discriminate|]
  end.
  rewrite A, B, C, D. cbn. rewrite Ha, P1, S1, <- app_assoc. repeat split.
Qed.

Lemma delivered_by_retry_witness :
  let w1 := sendToWebViewParent REACT_APP_READY 3 (initialWorld throwingBridge) in
  let w2 := fire_last (set_window acceptingBridge w1) in
  posted w2 = [REACT_APP_READY] /\ timers w2 = [].
Proof.
  pose proof (delivered_by_retry REACT_APP_READY 3 (initialWorld throwingBridge)
                acceptingBridge eq_refl eq_refl eq_refl)
    as (_ & _ & H3 & _ & H5 & _).
  split; [exact H3 | exact H5].
Defined.

(** ** The legacy copy *)

Lemma legacy_send_timers (m : WebViewMessage) (rc : Z) (w : World) :
  webkit_janusHandler (window w) = None ->
  android_onJanusMessage (window w) = None ->
  let w' := Legacy.sendToWebView m rc w in
  sent w' = sent w ++ [(m, rc)]
  /\ timers w' = timers w ++ retry_of m rc
  /\ timeouts w' = timeouts w ++ retry_of m rc
  /\ posted w' = posted w
  /\ window w' = window w.
Proof.
  intros H1 H2. unfold retry_of. prim. rewrite H1, H2.
  destruct (0 <? rc); cbn; rewrite ?app_nil_r; repeat split.
Qed.

Lemma legacy_fire_last (w : World) (ts : list Timer) (m : WebViewMessage) (rc : Z) :
  timers w = ts ++ [{| callback := Resend m rc; delay := 1000 |}] ->
  Legacy.fire (length (timers w) - 1) w
  = Legacy.sendToWebView m rc (set_timers ts w).
Proof.
  intros H. unfold Legacy.fire. rewrite H.
  rewrite length_app. cbn [length].
  replace (length ts + 1 - 1)%nat with (length ts) by lia.
  rewrite lookup_app_r by lia. rewrite Nat.sub_diag. cbn [lookup list_lookup].
  rewrite take_app_length.
  rewrite drop_ge by (rewrite length_app; cbn; lia).
  rewrite app_nil_r. reflexivity.
Qed.

Lemma legacy_resend_fires (m : WebViewMessage) (rc : Z) (w : World) (ts : list Timer) :
  webkit_janusHandler (window w) = None ->
  android_onJanusMessage (window w) = None ->
  timers w = ts ++ [{| callback := Resend m rc; delay := 1000 |}] ->
  let w' := Legacy.fire (length (timers w) - 1) w in
  sent w' = sent w ++ [(m, rc)]
  /\ timers w' = ts ++ retry_of m rc
  /\ timeouts w' = timeouts w ++ retry_of m rc
  /\ posted w' = posted w
  /\ window w' = window w.
Proof.
  intros H1 H2 Ht. cbn zeta. rewrite (legacy_fire_last w _ _ _ Ht).
  apply (legacy_send_timers m rc (set_timers ts w)); assumption.
Qed.

(** X24.  The legacy [sendToWebView] retries also when the window has no
    host interface at all -- where [sendToWebViewParent] drops the message
    at once: with neither the [webkit] handler nor the [android] one, a
    send with the default budget is run again after 1000 ms three times,
    with the budgets 2, 1 and 0; nothing is posted, and the last run sets
    no timer. *)
Theorem legacy_retries_without_interface :
  forall (m : WebViewMessage) (w : World),
    webkit_janusHandler (window w) = None ->
    android_onJanusMessage (window w) = None ->
    let last := fun w => Legacy.fire (length (timers w) - 1) w in
    let w0 := Legacy.sendToWebView m 3 w in
    let w3 := last (last (last w0)) in
    sent w3 = sent w ++ [(m, 3); (m, 2); (m, 1); (m, 0)]
    /\ timeouts w3 = timeouts w ++
         [{| callback := Resend m 2; delay := 1000 |};
          {| callback := Resend m 1; delay := 1000 |};
          {| callback := Resend m 0; delay := 1000 |}]
    /\ timers w3 = timers w
    /\ posted w3 = posted w.
Proof.
  intros m w H1 H2 last w0 w3.
  destruct (legacy_send_timers m 3 w H1 H2) as (S0 & T0 & O0 & P0 & W0).
  fold w0 in S0, T0, O0, P0, W0.
  rewrite <- W0 in H1, H2.
  destruct (legacy_resend_fires m 2 w0 _ H1 H2 T0) as (S1 & T1 & O1 & P1 & W1).
  rewrite <- W1 in H1, H2.
  destruct (legacy_resend_fires m 1 _ _ H1 H2 T1) as (S2 & T2 & O2 & P2 & W2).
  rewrite <- W2 in H1, H2.
  destruct (legacy_resend_fires m 0 _ _ H1 H2 T2) as (S3 & T3 & O3 & P3 & W3).
  subst w3 last. cbv beta.
  rewrite S3, S2, S1, S0, O3, O2, O1, O0, T3, P3, P2, P1, P0.
  cbn. rewrite <- !app_assoc, ?app_nil_r. repeat split.
Qed.

Lemma legacy_retries_without_interface_witness :
  let last := fun w => Legacy.fire (length (timers w) - 1) w in
  let w3 := last (last (last (Legacy.sendToWebView REACT_APP_READY 3
                                (initialWorld noBridge)))) in
  sent w3 = [(REACT_APP_READY, 3); (REACT_APP_READY, 2);
             (REACT_APP_READY, 1); (REACT_APP_READY, 0)]
  /\ timers w3 = [] /\ posted w3 = [].
Proof.
  pose proof (legacy_retries_without_interface REACT_APP_READY
                (initialWorld noBridge) eq_refl eq_refl) as (H1 & _ & H3 & H4).
  split; [exact H1|]. split; [exact H3 | exact H4].
Defined.

(** X25.  In the legacy copy the [success] callback of [janus.attach]
    stores the new handle and registers at once, but through the
    [handleRegistration] of its own render: when that render had no handle
    -- as every render has before the first attach succeeds -- the new
    handle gets no request, and the host is told [REGISTRATION_ERROR]
    (["SIP plugin not found"]) and then [SIP_READY]. *)
Theorem legacy_attach_registers_with_stale_handle :
  forall (env : AppState) (h : Handle) (w : World),
    sipPlugin env = None ->
    let w' := Legacy.attach_success env h w in
    sipPlugin (state w') = Some h
    /\ pluginCalls w' = pluginCalls w
    /\ sent w' = sent w ++ [(REGISTRATION_ERROR_no_plugin, 3);
                            ({| type := "SIP_READY"; payload := [] |}, 3)]
    /\ callState (state w') = callState (state w)
    /\ sipCredentials (state w') = sipCredentials (state w).
Proof.
  intros env h w H. cbn zeta.
  unfold Legacy.attach_success, Legacy.handleRegistration. rewrite H.
  unfold seq, Legacy.send.
  rewrite !legacy_send_sent, !legacy_send_state, !legacy_send_pluginCalls.
  rewrite <- app_assoc. prim0. repeat split.
Qed.

Lemma legacy_attach_registers_with_stale_handle_witness :
  let w' := Legacy.attach_success initialState 1%nat (initialWorld noBridge) in
  sipPlugin (state w') = Some 1%nat /\ pluginCalls w' = [].
Proof.
  pose proof (legacy_attach_registers_with_stale_handle initialState 1%nat
                (initialWorld noBridge) eq_refl) as (H1 & H2 & _).
  split; [exact H1 | exact H2].
Defined.

Lemma or_else_fallback (c : RegistrationPayload) (d : string) :
  proxy c = None
  \/ (exists p, proxy c = Some p /\ JS.includes "sip:" p = false)
  \/ proxy c = Some "sip:" ->
  JS.or_else (proxyDomain_of c) d = d.
Proof.
  intros [H|[H|H]].
  - now rewrite proxyDomain_absent by (left; exact H).
  - now rewrite proxyDomain_absent by (right; exact H).
  - unfold proxyDomain_of. rewrite H. reflexivity.
Qed.

(** X26.  The legacy [makeCall] never calls an undefined domain: with a
    handle and a non-empty number, when no proxy is stored, or the stored
    proxy does not contain ["sip:"], or nothing follows its ["sip:"], the
    offer is asked with the fallback domain ["103.230.84.119:5080"], and
    when it succeeds the [call] request has the [uri]
    ["sip:<number>@103.230.84.119:5080"]. *)
Theorem legacy_call_fallback_domain :
  forall (env : AppState) (w : World) (h : Handle) (number : string) (jsep : JSEP),
    sipPlugin env = Some h ->
    number <> "" ->
    proxy (sipCredentials env) = None
    \/ (exists p, proxy (sipCredentials env) = Some p
                  /\ JS.includes "sip:" p = false)
    \/ proxy (sipCredentials env) = Some "sip:" ->
    let w1 := Legacy.makeCall env (Some number) w in
    currentCall (state w1) = Some number
    /\ callState (state w1) = "calling"
    /\ exists options c,
        pluginCalls w1 = pluginCalls w ++ [CreateOffer h options c]
        /\ oc_proxyDomain c = Some "103.230.84.119:5080"
        /\ forall w', exists message,
            pluginCalls (Legacy.offer_success c jsep w')
            = pluginCalls w' ++ [Send h message (Some jsep)]
            /\ JS.get "request" message = Some (JS.JStr "call")
            /\ JS.get "uri" message
               = Some (JS.JStr ("sip:" +:+ number +:+ "@103.230.84.119:5080")).
Proof.
  intros env w h number jsep Hp Hn Hx. cbn zeta.
  unfold Legacy.makeCall.
  rewrite Hp, (truthy_nonempty _ Hn), (or_else_fallback _ _ Hx).
  cbn [negb JS.template]. split; [reflexivity|]. split; [reflexivity|].
  eexists _, _. split; [reflexivity|]. split; [reflexivity|].
  intros w'. unfold Legacy.offer_success. eexists. split; [|split].
  - unfold seq, Legacy.send. rewrite legacy_send_pluginCalls. reflexivity.
  - reflexivity.
  - reflexivity.
Qed.

Lemma legacy_call_fallback_domain_witness :
  exists options c,
    pluginCalls (Legacy.makeCall attachedState (Some "5551234") registeredWorld)
    = pluginCalls registeredWorld ++ [CreateOffer 1%nat options c]
    /\ oc_proxyDomain c = Some "103.230.84.119:5080".
Proof.
  assert (Hn : "5551234" <> "") by discriminate.
  destruct (legacy_call_fallback_domain attachedState registeredWorld 1%nat
              "5551234" exampleJsep eq_refl Hn (or_introl eq_refl))
    as (_ & _ & o & c & H1 & H2 & _).
  exists o, c. split; [exact H1 | exact H2].
Defined.

(** ** Invariants of a run *)








Lemma App_step_retries (e : App.Event) (w : World) :
  0 <= reconnectAttempts w <= 3 -> 0 <= reconnectAttempts (App.step w e) <= 3.
Proof.
  intros H. unfold App.step.
  destruct (listener_effect_retries (state w) (App.handler e w)) as [_ ->].
  destruct (App.is_session_success e) eqn:Hs;
    [destruct e; try discriminate; cbn [App.handler];
     destruct (session_success_effects w) as [-> _]; lia|].
  destruct (App.is_session_error e) eqn:He.
  - destruct e as [| | | | | | | |err| | | | | | | | | | | | | | | | | |];
      try discriminate. cbn [App.handler].
    destruct (session_error_retries err w) as [A B].
    destruct (Z_lt_le_dec (reconnectAttempts w) 3) as [L|L].
    + destruct (A L) as [-> _]. lia.
    + destruct (B L) as [-> _]. lia.
  - destruct (App_handler_retries e w Hs He) as [_ ->]. exact H.
Qed.

Lemma Part0_step_retries (e : Part0.Event) (w : World) :
  0 <= reconnectAttempts w <= 3 -> 0 <= reconnectAttempts (Part0.step w e) <= 3.
Proof.
  intros H. unfold Part0.step.
  destruct (listener_effect_retries (state w) (Part0.handler e w)) as [_ ->].
  destruct (Part0.is_session_success e) eqn:Hs;
    [destruct e; try discriminate; cbn [Part0.handler];
     destruct (session_success_effects w) as [-> _]; lia|].
  destruct (Part0.is_session_error e) eqn:He.
  - destruct e as [| | | | | | | |err| | | | | | | | | | | | | | | |];
      try discriminate. cbn [Part0.handler].
    destruct (session_error_retries err w) as [A B].
    destruct (Z_lt_le_dec (reconnectAttempts w) 3) as [L|L].
    + destruct (A L) as [-> _]. lia.
    + destruct (B L) as [-> _]. lia.
  - destruct (Part0_handler_retries e w Hs He) as [_ ->]. exact H.
Qed.

(** X28.  In every run of [App.tsx] and of [part_000], successes of the
    session creation included, the count of reconnects stays between 0 and
    [MAX_RECONNECT_ATTEMPTS]. *)
Theorem reconnect_count_in_range :
  (forall (win : Window) (es : list App.Event),
      0 <= reconnectAttempts (App.run es (App.start win)) <= MAX_RECONNECT_ATTEMPTS)
  /\ (forall (win : Window) (es : list Part0.Event),
      0 <= reconnectAttempts (Part0.run es (Part0.start win))
        <= MAX_RECONNECT_ATTEMPTS).
Proof.
  unfold MAX_RECONNECT_ATTEMPTS. split; intros win es.
  - assert (G : forall w, 0 <= reconnectAttempts w <= 3 ->
                          0 <= reconnectAttempts (App.run es w) <= 3).
    { induction es as [|e es IH]; intros w H; [exact H|].
      cbn. apply IH. now apply App_step_retries. }
    apply G. destruct (start_retries win) as [-> _]. lia.
  - assert (G : forall w, 0 <= reconnectAttempts w <= 3 ->
                          0 <= reconnectAttempts (Part0.run es w) <= 3).
    { induction es as [|e es IH]; intros w H; [exact H|].
      cbn. apply IH. now apply Part0_step_retries. }
    apply G. change (Part0.start win) with (App.start win).
    destruct (start_retries win) as [-> _]. lia.
Qed.

(** ** The called address *)

Lemma split_sip_prefix (d : string) :
  JS.includes "sip:" d = false -> JS.split "sip:" ("sip:" +:+ d) = [""; d].
Proof.
  intros H. unfold JS.split.
  change ("sip:" +:+ d) with (String "s" (String "i" (String "p" (String ":" d)))).
  cbn [JS.split_from].
  replace (String.prefix "sip:" (String "s" (String "i" (String "p" (String ":" d)))))
    with true by (cbn; now destruct d).
  cbn [String.length Nat.sub].
  now rewrite (split_from_absent _ _ _ H).
Qed.

(** X29.  With the proxy ["sip:" ++ d] stored, where [d] has no further
    ["sip:"], a handle attached and a non-empty number, the [call] request
    that follows a successful offer has the [uri]
    ["sip:<number>@" ++ d] -- in [App.tsx] and [part_000] also for the
    empty [d], where the legacy copy would put its fallback domain. *)
Theorem call_uri_of_proxy :
  forall (env : AppState) (w : World) (h : Handle) (number d : string) (jsep : JSEP),
    sipPlugin env = Some h ->
    number <> "" ->
    proxy (sipCredentials env) = Some ("sip:" +:+ d) ->
    JS.includes "sip:" d = false ->
    (exists options c,
        pluginCalls (App.makeCall env (Some number) w)
        = pluginCalls w ++ [CreateOffer h options c]
        /\ forall w', exists message,
            pluginCalls (App.offer_success c jsep w')
            = pluginCalls w' ++ [Send h message (Some jsep)]
            /\ JS.get "uri" message
               = Some (JS.JStr ("sip:" +:+ number +:+ "@" +:+ d)))
    /\ (exists options c,
        pluginCalls (Part0.makeCall env (Some number) w)
        = pluginCalls w ++ [CreateOffer h options c]
        /\ forall w', exists message,
            pluginCalls (Part0.offer_success c jsep w')
            = pluginCalls w' ++ [Send h message (Some jsep)]
            /\ JS.get "uri" message
               = Some (JS.JStr ("sip:" +:+ number +:+ "@" +:+ d))).
Proof.
  intros env w h number d jsep Hp Hn Hx Hd.
  assert (D : proxyDomain_of (sipCredentials env) = Some d)
    by (unfold proxyDomain_of; rewrite Hx, (split_sip_prefix d Hd); reflexivity).
  split.
  - destruct (App_makeCall_offer env w h number Hp Hn) as (_ & _ & _ & o & Ho).
    eexists _, _. split; [exact Ho|]. intros w'.
    destruct (App_offer_success_call
                {| oc_plugin := h; oc_phoneNumber := number;
                   oc_proxyDomain := proxyDomain_of (sipCredentials env);
                   oc_userAgent := userAgent (sipCredentials env) |} jsep w')
      as (msg & H1 & _ & H3 & _).
    exists msg. cbn [oc_plugin oc_phoneNumber oc_proxyDomain] in *.
    rewrite D in H3. split; assumption.
  - destruct (Part0_makeCall_offer env w h number Hp Hn) as (_ & _ & _ & o & Ho).
    eexists _, _. split; [exact Ho|]. intros w'.
    destruct (Part0_offer_success_call
                {| oc_plugin := h; oc_phoneNumber := number;
                   oc_proxyDomain := proxyDomain_of (sipCredentials env);
                   oc_userAgent := None |} jsep w')
      as (msg & H1 & _ & H3 & _).
    exists msg. cbn [oc_plugin oc_phoneNumber oc_proxyDomain] in *.
    rewrite D in H3. split; assumption.
Qed.

Lemma call_uri_of_proxy_witness :
  exists options c,
    pluginCalls (App.makeCall registeredState (Some "5551234") registeredWorld)
    = pluginCalls registeredWorld ++ [CreateOffer 1%nat options c]
    /\ forall w', exists message,
        pluginCalls (App.offer_success c exampleJsep w')
        = pluginCalls w' ++ [Send 1%nat message (Some exampleJsep)]
        /\ JS.get "uri" message
           = Some (JS.JStr ("sip:" +:+ "5551234" +:+ "@" +:+ "203.0.113.5:5080")).
Proof.
  assert (Hn : "5551234" <> "") by discriminate.
  exact (proj1 (call_uri_of_proxy registeredState registeredWorld 1%nat
                  "5551234" "203.0.113.5:5080" exampleJsep eq_refl Hn
                  eq_refl eq_refl)).
Defined.

(** ** The buttons *)

(** X30.  The [Make Call] button of [App.tsx] calls [makeCall] itself, not
    through the message handler, so the check of the registration is
    skipped: with a handle attached and no registration, the click asks
    the plugin for an offer for the number ["9999202499"] and moves to
    [calling], where a [MAKE_CALL] message of the host is answered by
    [CALL_ERROR] and reaches nothing. *)
Theorem button_call_skips_registration_check :
  forall (w : World) (h : Handle) (m : HostMessage),
    sipPlugin (state w) = Some h ->
    isRegistered (state w) = false ->
    htype m = "MAKE_CALL" ->
    (let w' := App.step w App.ClickMakeCall in
     callState (state w') = "calling"
     /\ currentCall (state w') = Some "9999202499"
     /\ isRegistered (state w') = false
     /\ exists options c,
         pluginCalls w' = pluginCalls w ++ [CreateOffer h options c]
         /\ oc_phoneNumber c = "9999202499")
    /\ App.step w (App.HostMsg m) = send CALL_ERROR_not_registered w.
Proof.
  intros w h m Hp Hr Hm. split; [|now apply App_make_call_unregistered].
  cbn zeta. rewrite App_step_state, App_step_pluginCalls. cbn [App.handler].
  unfold App.click_makeCall.
  assert (Hn : "9999202499" <> "") by discriminate.
  destruct (App_makeCall_offer (state w) w h "9999202499" Hp Hn)
    as (_ & A & B & o & C).
  split; [exact A|]. split; [exact B|]. split.
  - unfold App.makeCall. rewrite Hp. cbn. exact Hr.
  - eexists _, _. split; [exact C | reflexivity].
Qed.

Lemma button_call_skips_registration_check_witness :
  let w := App.step (App.start noBridge) (App.AttachSuccess 1%nat) in
  callState (state (App.step w App.ClickMakeCall)) = "calling"
  /\ App.step w (App.HostMsg MAKE_CALL) = send CALL_ERROR_not_registered w.
Proof.
  pose proof (button_call_skips_registration_check
                (App.step (App.start noBridge) (App.AttachSuccess 1%nat))
                1%nat MAKE_CALL eq_refl eq_refl eq_refl) as [(H1 & _) H2].
  split; [exact H1 | exact H2].
Defined.
